(** * Home Assistant adapters: Sonos discovery manager and MySensors sensor units

    A shallow embedding of
    - [homeassistant/components/sonos/__init__.py]: [SonosData], [_create_soco]
      and the methods of [SonosDiscoveryManager];
    - [homeassistant/components/mysensors/sensor.py]: the [SENSORS] table,
      [MySensorsSensor._get_sensor_type] and the properties of
      [MySensorsSensor] built on it.

    Python objects are records, dictionaries are finite maps ([gmap]) or, for
    the [OrderedDict] whose iteration order the code relies on, association
    lists.  Calls into the speaker SDK and the host platform are answers of a
    [World]; every such call, every log record and every dispatched signal is
    appended to an effect trace, so that "what the code did" can be stated.
    Exceptions are values of [outcome]; a raise keeps the mutations made so
    far, as in Python.

    The coroutine [_async_create_discovered_player] is given twice: run in
    one piece, as the source reads, and cut at its [await]s into the steps of
    a task, so that discovery callbacks and other tasks can come in between.
    [coroutine_in_three_steps] relates the two.

    Layout: the Python prelude, the two components, concrete instances, the
    notions the statements use; then the properties, C1 to C10 and X1 to
    X25 among them. *)

From Stdlib Require Import ZArith List Bool Lia Ascii.
From stdpp Require Import gmap strings list fin_maps.

Local Open Scope Z_scope.
Local Open Scope string_scope.

(** ** Python prelude *)

Module Py.

(** The exception classes the two files can meet.  [OSError] stands for the
    class and its subclasses (socket errors, timeouts). *)
Inductive exn : Type :=
| OSError
| SoCoException
| KeyError
| ValueError
| TypeError
| AttributeError
| IndexError
| OtherError.

Inductive outcome (A : Type) : Type :=
| Ok (a : A)
| Raise (e : exn).
Arguments Ok {A} a.
Arguments Raise {A} e.

Definition outcome_bind {A B} (o : outcome A) (k : A -> outcome B) : outcome B :=
  match o with
  | Ok a => k a
  | Raise e => Raise e
  end.

(** Values of the dynamically typed [boot_seqnum] argument: [None], a header
    string, or an integer. *)
Inductive pyval : Type :=
| PyNone
| PyStr (s : string)
| PyInt (z : Z).

(** Truth value testing: [None], the empty string and [0] are false. *)
Definition truthy (v : pyval) : bool :=
  match v with
  | PyNone => false
  | PyStr s => negb (String.eqb s "")
  | PyInt z => negb (Z.eqb z 0)
  end.

Definition str_truthy (s : string) : bool := negb (String.eqb s "").

(** [s.startswith(p)] and [s[n:]]. *)
Fixpoint startswith (p s : string) : bool :=
  match p, s with
  | EmptyString, _ => true
  | String a p', String b s' => Ascii.eqb a b && startswith p' s'
  | String _ _, EmptyString => false
  end.

Fixpoint drop_chars (n : nat) (s : string) : string :=
  match n, s with
  | O, _ => s
  | S n', String _ s' => drop_chars n' s'
  | S _, EmptyString => EmptyString
  end.

(** [x in xs] for a list of strings and a value that may be [None]. *)
Definition opt_in_list (x : option string) (xs : list string) : bool :=
  match x with
  | None => false
  | Some s => existsb (String.eqb s) xs
  end.

(** *** OrderedDict with string keys *)

Section OrderedDict.
Context {V : Type}.

(** [key in d] *)
Definition od_mem (k : string) (d : list (string * V)) : bool :=
  existsb (fun kv => String.eqb k (fst kv)) d.

(** [d.get(key)] *)
Fixpoint od_get (k : string) (d : list (string * V)) : option V :=
  match d with
  | [] => None
  | (k', v) :: d' => if String.eqb k k' then Some v else od_get k d'
  end.

(** [d[key] = value]: an existing key keeps its position, a new key goes
    last. *)
Fixpoint od_set (k : string) (v : V) (d : list (string * V)) : list (string * V) :=
  match d with
  | [] => [(k, v)]
  | (k', v') :: d' =>
      if String.eqb k k' then (k, v) :: d' else (k', v') :: od_set k v d'
  end.

Definition od_keys (d : list (string * V)) : list string := map fst d.

End OrderedDict.

(** *** IntEnum *)

(** An [IntEnum] class as its definitions in source order.  A name defined
    with a value already taken is an alias of the first name with that
    value. *)
Record EnumMember : Type := mkMember {
  name : string;
  value : Z
}.

Definition IntEnum : Type := list EnumMember.

(** [E(v)]: the member with value [v], [ValueError] when there is none. *)
Definition enum_call (E : IntEnum) (v : Z) : outcome EnumMember :=
  match List.find (fun m => Z.eqb (value m) v) E with
  | Some m => Ok m
  | None => Raise ValueError
  end.

(** [E.NAME]: the member defined under [NAME], or the member it is an alias
    of; [AttributeError] when the class has no such name. *)
Definition enum_attr (E : IntEnum) (n : string) : outcome EnumMember :=
  match List.find (fun m => String.eqb (name m) n) E with
  | Some m => enum_call E (value m)
  | None => Raise AttributeError
  end.

(** [l[i]] *)
Definition index {A} (l : list A) (i : nat) : outcome A :=
  match nth_error l i with
  | Some x => Ok x
  | None => Raise IndexError
  end.

End Py.

(** ** The Sonos discovery manager *)

Module Sonos.
Import Py.

(** [DISCOVERY_IGNORED_MODELS] *)
Definition DISCOVERY_IGNORED_MODELS : list string := ["Sonos Boost"].

(** [class SoCoCreationSource(Enum)] *)
Inductive SoCoCreationSource : Type :=
| CONFIGURED
| DISCOVERED
| REBOOTED.

Definition source_value (s : SoCoCreationSource) : string :=
  match s with
  | CONFIGURED => "configured"
  | DISCOVERED => "discovered"
  | REBOOTED => "rebooted"
  end.

(** A device handle of the speaker SDK, reduced to the attributes this file
    reads.  [uid] is cached by [_create_soco]; the attributes are read as
    plain fields, as the source does. *)
Record SoCo : Type := mkSoCo {
  ip_address : string;
  uid : string;
  is_visible : bool;
  household_id : string
}.

Definition SpeakerInfo : Type := list (string * string).

(** [SonosSpeaker(hass, soco, speaker_info)] *)
Record SonosSpeaker : Type := mkSpeaker {
  soco : SoCo;
  speaker_info : SpeakerInfo
}.

(** The two household coordinators, [SonosAlarms(hass, household_id)] and
    [SonosFavorites(hass, household_id)]. *)
Inductive Coordinator : Type :=
| SonosAlarms
| SonosFavorites.

Record CoordinatorObj : Type := mkCoordinator {
  coordinator_class : Coordinator;
  coordinator_household : string
}.

(** [class SonosData]; [topology_condition] is not used by the manager and is
    left out. *)
Record SonosData : Type := mkData {
  discovered : list (string * SonosSpeaker);
  favorites : gmap string CoordinatorObj;
  alarms : gmap string CoordinatorObj;
  hosts_heartbeat : bool;
  discovery_known : gset string;
  boot_counts : gmap string Z
}.

(** [SonosData.__init__] *)
Definition SonosData_init : SonosData :=
  {| discovered := [];
     favorites := ∅;
     alarms := ∅;
     hosts_heartbeat := false;
     discovery_known := ∅;
     boot_counts := ∅ |}.

(** Answers of the outside world to the calls the manager makes. *)
Record World : Type := mkWorld {
  (** [pysonos.SoCo(ip)] followed by reading [soco.uid] and [soco.volume] *)
  pysonos_SoCo : string -> outcome SoCo;
  (** [soco.get_speaker_info(True)] *)
  get_speaker_info : SoCo -> outcome SpeakerInfo;
  (** [coordinator(hass, household_id)] and [new_coordinator.setup(soco)] *)
  coordinator_setup : Coordinator -> SoCo -> outcome unit;
  (** [speaker.setup()] *)
  speaker_setup : SonosSpeaker -> outcome unit;
  (** [socket.gethostbyname(host)] *)
  gethostbyname : string -> outcome string;
  (** [int(boot_seqnum)] on a string *)
  int_of_str : string -> outcome Z
}.

(** Dispatcher signals. *)
Inductive Signal : Type :=
| SONOS_SEEN (uid : string)
| SONOS_REBOOTED (uid : string) (soco : SoCo)
| SONOS_GROUP_UPDATE.

Inductive LogRecord : Type :=
| Warn_failed_to_connect (source : SoCoCreationSource) (ip : string) (ex : exn)
| Warn_failed_to_add (soco : SoCo)
| Debug_adding_new_speaker (info : SpeakerInfo)
| Debug_ignoring_device
| Debug_new_discovery (source : string) (uid : string).

Definition is_warning (r : LogRecord) : bool :=
  match r with
  | Warn_failed_to_connect _ _ _ | Warn_failed_to_add _ => true
  | _ => false
  end.

(** What the manager does to the outside, in order. *)
Inductive effect : Type :=
| Call_SoCo (ip : string)
| Call_get_speaker_info (soco : SoCo)
| New_SonosSpeaker (soco : SoCo)
| Call_coordinator_setup (c : Coordinator) (soco : SoCo)
| Call_speaker_setup (speaker : SonosSpeaker)
| Call_gethostbyname (host : string)
| Log (r : LogRecord)
| Dispatch (s : Signal)
| Lock_acquire
| Lock_release
| Create_task (uid ip : string) (boot_seqnum : pyval)
| Call_later
| Cancel_heartbeat.

(** Program points of the coroutine [_async_create_discovered_player]. *)
Inductive pc : Type :=
| AtLock
| AwaitDiscoveredIp
| ResumeDiscoveredIp (r : outcome unit)
| AwaitCreateSoco
| ResumeCreateSoco (r : outcome (option SoCo))
| Done
| Failed (e : exn).

Record Task : Type := mkTask {
  task_uid : string;
  task_ip : string;
  task_boot_seqnum : pyval;
  task_pc : pc
}.

(** The manager together with the part of the event loop it uses: the data,
    [discovery_lock], the tasks made by [asyncio.create_task], and the effect
    trace (oldest first). *)
Record Manager : Type := mkManager {
  data : SonosData;
  hosts : list string;
  discovery_lock : bool;
  tasks : list Task;
  trace : list effect
}.

(** [SonosDiscoveryManager.__init__] *)
Definition SonosDiscoveryManager_init (d : SonosData) (hs : list string) : Manager :=
  {| data := d; hosts := hs; discovery_lock := false; tasks := []; trace := [] |}.

(** *** State and exception monad *)

Definition M (A : Type) : Type := Manager -> outcome A * Manager.

Definition ret {A} (a : A) : M A := fun m => (Ok a, m).

Definition raise {A} (e : exn) : M A := fun m => (Raise e, m).

Definition bind {A B} (c : M A) (k : A -> M B) : M B :=
  fun m =>
    match c m with
    | (Ok a, m') => k a m'
    | (Raise e, m') => (Raise e, m')
    end.

Notation "'let*' x ':=' c 'in' k" := (bind c (fun x => k))
  (at level 10, x name, c at level 100, k at level 200).
Notation "c '>>' k" := (bind c (fun _ => k))
  (at level 90, right associativity).

(** [try: c except (OSError, SoCoException) as ex: h ex] *)
Definition handled (e : exn) : bool :=
  match e with
  | OSError | SoCoException => true
  | _ => false
  end.

Definition try_except {A} (c : M A) (h : exn -> M A) : M A :=
  fun m =>
    match c m with
    | (Ok a, m') => (Ok a, m')
    | (Raise e, m') => if handled e then h e m' else (Raise e, m')
    end.

Definition lift {A} (o : outcome A) : M A := fun m => (o, m).

Definition add_trace (t : list effect) (m : Manager) : Manager :=
  {| data := data m; hosts := hosts m; discovery_lock := discovery_lock m;
     tasks := tasks m; trace := trace m ++ t |}.

Definition emit (e : effect) : M unit := fun m => (Ok tt, add_trace [e] m).

Definition get_data : M SonosData := fun m => (Ok (data m), m).

Definition put_data (d : SonosData) : M unit :=
  fun m => (Ok tt, {| data := d; hosts := hosts m;
                      discovery_lock := discovery_lock m;
                      tasks := tasks m; trace := trace m |}).

Definition modify_data (f : SonosData -> SonosData) : M unit :=
  let* d := get_data in put_data (f d).

(** Field updates of [SonosData]. *)
Definition set_discovered (v : list (string * SonosSpeaker)) (d : SonosData) : SonosData :=
  {| discovered := v; favorites := favorites d; alarms := alarms d;
     hosts_heartbeat := hosts_heartbeat d;
     discovery_known := discovery_known d; boot_counts := boot_counts d |}.

Definition set_favorites (v : gmap string CoordinatorObj) (d : SonosData) : SonosData :=
  {| discovered := discovered d; favorites := v; alarms := alarms d;
     hosts_heartbeat := hosts_heartbeat d;
     discovery_known := discovery_known d; boot_counts := boot_counts d |}.

Definition set_alarms (v : gmap string CoordinatorObj) (d : SonosData) : SonosData :=
  {| discovered := discovered d; favorites := favorites d; alarms := v;
     hosts_heartbeat := hosts_heartbeat d;
     discovery_known := discovery_known d; boot_counts := boot_counts d |}.

Definition set_hosts_heartbeat (v : bool) (d : SonosData) : SonosData :=
  {| discovered := discovered d; favorites := favorites d; alarms := alarms d;
     hosts_heartbeat := v;
     discovery_known := discovery_known d; boot_counts := boot_counts d |}.

Definition set_discovery_known (v : gset string) (d : SonosData) : SonosData :=
  {| discovered := discovered d; favorites := favorites d; alarms := alarms d;
     hosts_heartbeat := hosts_heartbeat d;
     discovery_known := v; boot_counts := boot_counts d |}.

Definition set_boot_counts (v : gmap string Z) (d : SonosData) : SonosData :=
  {| discovered := discovered d; favorites := favorites d; alarms := alarms d;
     hosts_heartbeat := hosts_heartbeat d;
     discovery_known := discovery_known d; boot_counts := v |}.

(** The coordinator dictionary a class is kept in. *)
Definition coord_dict (c : Coordinator) (d : SonosData) : gmap string CoordinatorObj :=
  match c with
  | SonosAlarms => alarms d
  | SonosFavorites => favorites d
  end.

Definition set_coord_dict (c : Coordinator) (v : gmap string CoordinatorObj)
    (d : SonosData) : SonosData :=
  match c with
  | SonosAlarms => set_alarms v d
  | SonosFavorites => set_favorites v d
  end.

(** *** [_create_soco] *)

Definition _create_soco (w : World) (ip_address : string)
    (source : SoCoCreationSource) : M (option SoCo) :=
  try_except
    (emit (Call_SoCo ip_address) >>
     let* soco := lift (pysonos_SoCo w ip_address) in
     ret (Some soco))
    (fun ex =>
       emit (Log (Warn_failed_to_connect source ip_address ex)) >>
       ret None).

(** *** [SonosDiscoveryManager._discovered_player] *)

(** One round of the loop over [(SonosAlarms, alarms), (SonosFavorites,
    favorites)]. *)
Definition setup_coordinator (w : World) (soco : SoCo) (c : Coordinator) : M unit :=
  let* d := get_data in
  match coord_dict c d !! household_id soco with
  | Some _ => ret tt
  | None =>
      emit (Call_coordinator_setup c soco) >>
      lift (coordinator_setup w c soco) >>
      modify_data (fun d =>
        set_coord_dict c
          (<[household_id soco := mkCoordinator c (household_id soco)]> (coord_dict c d)) d)
  end.

(** The [try] block. *)
Definition discovered_player_try (w : World) (soco : SoCo) : M unit :=
  emit (Call_get_speaker_info soco) >>
  let* speaker_info := lift (get_speaker_info w soco) in
  emit (Log (Debug_adding_new_speaker speaker_info)) >>
  emit (New_SonosSpeaker soco) >>
  let speaker := mkSpeaker soco speaker_info in
  modify_data (fun d => set_discovered (od_set (uid soco) speaker (discovered d)) d) >>
  setup_coordinator w soco SonosAlarms >>
  setup_coordinator w soco SonosFavorites >>
  emit (Call_speaker_setup speaker) >>
  lift (speaker_setup w speaker).

Definition _discovered_player (w : World) (soco : SoCo) : M unit :=
  try_except
    (discovered_player_try w soco)
    (fun _ => emit (Log (Warn_failed_to_add soco))).

(** *** [SonosDiscoveryManager._discovered_ip] *)

Definition _discovered_ip (w : World) (ip_address : string) : M unit :=
  let* soco := _create_soco w ip_address DISCOVERED in
  match soco with
  | Some soco => if is_visible soco then _discovered_player w soco else ret tt
  | None => ret tt
  end.

(** *** [SonosDiscoveryManager._manual_hosts] *)

(** [next((uid for uid, speaker in self.data.discovered.items()
           if speaker.soco.ip_address == ip_addr), None)] *)
Definition known_uid_of (ip_addr : string) (d : list (string * SonosSpeaker)) : option string :=
  match List.find (fun kv => String.eqb (ip_address (soco (snd kv))) ip_addr) d with
  | Some kv => Some (fst kv)
  | None => None
  end.

(** The [else] branch of the loop body: no record has the address. *)
Definition configured_player (w : World) (ip_addr : string) : M unit :=
  let* soco := _create_soco w ip_addr CONFIGURED in
  match soco with
  | Some soco => if is_visible soco then _discovered_player w soco else ret tt
  | None => ret tt
  end.

(** The body of the loop over [self.hosts].  [if known_uid:] is false for
    [None] and for an empty identifier. *)
Definition manual_host (w : World) (host : string) : M unit :=
  emit (Call_gethostbyname host) >>
  let* ip_addr := lift (gethostbyname w host) in
  let* d := get_data in
  match known_uid_of ip_addr (discovered d) with
  | Some known_uid =>
      if str_truthy known_uid then emit (Dispatch (SONOS_SEEN known_uid))
      else configured_player w ip_addr
  | None => configured_player w ip_addr
  end.

Fixpoint for_each {A} (xs : list A) (body : A -> M unit) : M unit :=
  match xs with
  | [] => ret tt
  | x :: xs' => body x >> for_each xs' body
  end.

Definition _manual_hosts (w : World) : M unit :=
  (fun m => for_each (hosts m) (manual_host w) m) >>
  emit Call_later >>
  modify_data (set_hosts_heartbeat true).

(** *** [SonosDiscoveryManager._stop_manual_heartbeat] *)

Definition _stop_manual_heartbeat : M unit :=
  let* d := get_data in
  if hosts_heartbeat d
  then emit Cancel_heartbeat >> modify_data (set_hosts_heartbeat false)
  else ret tt.

(** *** [SonosDiscoveryManager._async_create_discovered_player] *)

Definition set_lock (b : bool) : M unit :=
  fun m => (Ok tt, {| data := data m; hosts := hosts m; discovery_lock := b;
                      tasks := tasks m; trace := trace m |}).

Definition acquire : M unit := emit Lock_acquire >> set_lock true.
Definition release : M unit := set_lock false >> emit Lock_release.

(** [async with self.discovery_lock: body], from the moment the lock is
    granted: the lock is released on the way out, also when [body] raises. *)
Definition with_lock {A} (body : M A) : M A :=
  acquire >>
  (fun m =>
     match body m with
     | (r, m') => (r, snd (release m'))
     end).

(** [boot_seqnum and boot_seqnum > self.data.boot_counts[uid]]: the subscript
    is evaluated before the comparison, and comparing a string with the stored
    integer is a [TypeError]. *)
Definition rebooted (d : SonosData) (uid : string) (boot_seqnum : pyval) : outcome bool :=
  if truthy boot_seqnum then
    match boot_counts d !! uid with
    | None => Raise KeyError
    | Some stored =>
        match boot_seqnum with
        | PyInt n => Ok (Z.ltb stored n)
        | _ => Raise TypeError
        end
    end
  else Ok false.

(** [int(boot_seqnum)] *)
Definition py_int (w : World) (v : pyval) : outcome Z :=
  match v with
  | PyInt z => Ok z
  | PyStr s => int_of_str w s
  | PyNone => Raise TypeError
  end.

Definition int_or_zero (v : pyval) : Z :=
  match v with
  | PyInt z => z
  | _ => 0
  end.

(** The coroutine run from the moment it is granted the lock to its end, each
    executor job answered at once. *)
Definition _async_create_discovered_player (w : World) (uid discovered_ip : string)
    (boot_seqnum : pyval) : M unit :=
  with_lock
    (let* d := get_data in
     if negb (od_mem uid (discovered d)) then
       _discovered_ip w discovered_ip
     else
       let* reboot := lift (rebooted d uid boot_seqnum) in
       if reboot then
         modify_data (fun d =>
           set_boot_counts (<[uid := int_or_zero boot_seqnum]> (boot_counts d)) d) >>
         let* soco := _create_soco w discovered_ip REBOOTED in
         match soco with
         | Some soco => emit (Dispatch (SONOS_REBOOTED uid soco))
         | None => ret tt
         end
       else
         emit (Dispatch (SONOS_SEEN uid))).

(** *** [SonosDiscoveryManager.async_discovered_player] *)

Definition spawn (t : Task) : M unit :=
  fun m => (Ok tt, {| data := data m; hosts := hosts m;
                      discovery_lock := discovery_lock m;
                      tasks := tasks m ++ [t];
                      trace := trace m |}).

(** [asyncio.create_task(self._async_create_discovered_player(...))]: the
    new task starts at the lock. *)
Definition create_task (uid ip : string) (boot_seqnum : pyval) : M unit :=
  emit (Create_task uid ip boot_seqnum) >>
  spawn (mkTask uid ip boot_seqnum AtLock).

(** [self.data.boot_counts.setdefault(uid, boot_seqnum)] *)
Definition setdefault (k : string) (v : Z) (bc : gmap string Z) : gmap string Z :=
  match bc !! k with
  | Some _ => bc
  | None => <[k := v]> bc
  end.

(** The [info] argument is only logged and is left out. *)
Definition async_discovered_player (w : World) (source discovered_ip uid : string)
    (boot_seqnum : pyval) (model : option string) : M unit :=
  if opt_in_list model DISCOVERY_IGNORED_MODELS then
    emit (Log Debug_ignoring_device)
  else
    let* boot_seqnum :=
      (if truthy boot_seqnum then
         let* n := lift (py_int w boot_seqnum) in
         modify_data (fun d => set_boot_counts (setdefault uid n (boot_counts d)) d) >>
         ret (PyInt n)
       else ret boot_seqnum) in
    let* d := get_data in
    (if bool_decide (uid ∈ discovery_known d) then ret tt
     else
       emit (Log (Debug_new_discovery source uid)) >>
       modify_data (fun d => set_discovery_known ({[uid]} ∪ discovery_known d) d)) >>
    create_task uid discovered_ip boot_seqnum.

(** *** [SonosDiscoveryManager._async_ssdp_discovered_player] *)

(** The SSDP headers the callback reads, [None] for a header the
    announcement does not have.  [location_hostname] is
    [urlparse(info[ssdp.ATTR_SSDP_LOCATION]).hostname]: the location is
    subscripted, so its absence is a [KeyError]; the other three are read
    with [info.get].  A location without a host part, whose [hostname] is
    [None], is not among the announcements modelled. *)
Record SsdpInfo : Type := mkSsdpInfo {
  location_hostname : option string;
  X_RINCON_BOOTSEQ : option string;
  ATTR_UPNP_UDN : option string;
  modelName : option string
}.

(** [uid.startswith] on [None] is an [AttributeError]. *)
Definition _async_ssdp_discovered_player (w : World) (info : SsdpInfo) : M unit :=
  match location_hostname info with
  | None => raise KeyError
  | Some discovered_ip =>
      let boot_seqnum :=
        match X_RINCON_BOOTSEQ info with
        | Some s => PyStr s
        | None => PyNone
        end in
      match ATTR_UPNP_UDN info with
      | None => raise AttributeError
      | Some uid =>
          let uid := if startswith "uuid:" uid then drop_chars 5 uid else uid in
          async_discovered_player w "SSDP" discovered_ip uid boot_seqnum
            (modelName info)
      end
  end.

(** *** The coroutine cut at its [await]s *)

(** From the granted lock to the first [await], or to the end when the branch
    taken has none. *)
Definition enter (t : Task) : M pc :=
  acquire >>
  let* d := get_data in
  if negb (od_mem (task_uid t) (discovered d)) then ret AwaitDiscoveredIp
  else
    match rebooted d (task_uid t) (task_boot_seqnum t) with
    | Raise e => release >> ret (Failed e)
    | Ok true =>
        modify_data (fun d =>
          set_boot_counts
            (<[task_uid t := int_or_zero (task_boot_seqnum t)]> (boot_counts d)) d) >>
        ret AwaitCreateSoco
    | Ok false => emit (Dispatch (SONOS_SEEN (task_uid t))) >> release >> ret Done
    end.

(** The job handed to [hass.async_add_executor_job]; its result, or the
    exception it raised, waits for the coroutine to resume. *)
Definition executor_job (w : World) (t : Task) : M pc :=
  fun m =>
    match task_pc t with
    | AwaitDiscoveredIp =>
        match _discovered_ip w (task_ip t) m with
        | (r, m') => (Ok (ResumeDiscoveredIp r), m')
        end
    | AwaitCreateSoco =>
        match _create_soco w (task_ip t) REBOOTED m with
        | (r, m') => (Ok (ResumeCreateSoco r), m')
        end
    | p => (Ok p, m)
    end.

(** The coroutine after the awaited job. *)
Definition resume (t : Task) : M pc :=
  match task_pc t with
  | ResumeDiscoveredIp (Ok _) => release >> ret Done
  | ResumeDiscoveredIp (Raise e) => release >> ret (Failed e)
  | ResumeCreateSoco (Ok (Some soco)) =>
      emit (Dispatch (SONOS_REBOOTED (task_uid t) soco)) >> release >> ret Done
  | ResumeCreateSoco (Ok None) => release >> ret Done
  | ResumeCreateSoco (Raise e) => release >> ret (Failed e)
  | p => ret p
  end.

(** One scheduling of a task.  A task at the lock stays there while the lock
    is held. *)
Definition task_step (w : World) (t : Task) : M pc :=
  match task_pc t with
  | AtLock => fun m => if discovery_lock m then (Ok AtLock, m) else enter t m
  | AwaitDiscoveredIp | AwaitCreateSoco => executor_job w t
  | ResumeDiscoveredIp _ | ResumeCreateSoco _ => resume t
  | Done => ret Done
  | Failed e => ret (Failed e)
  end.

Definition set_pc (p : pc) (t : Task) : Task :=
  {| task_uid := task_uid t; task_ip := task_ip t;
     task_boot_seqnum := task_boot_seqnum t; task_pc := p |}.

Definition set_task_pc (i : nat) (p : pc) : M unit :=
  fun m => (Ok tt, {| data := data m; hosts := hosts m;
                      discovery_lock := discovery_lock m;
                      tasks := alter (set_pc p) i (tasks m);
                      trace := trace m |}).

Definition run_task (w : World) (i : nat) : M unit :=
  fun m =>
    match tasks m !! i with
    | None => (Ok tt, m)
    | Some t => (let* p := task_step w t in set_task_pc i p) m
    end.

(** *** The manager as a transition system *)

(** A call of [async_discovered_player]. *)
Record Discovery : Type := mkDiscovery {
  d_source : string;
  d_ip : string;
  d_uid : string;
  d_boot_seqnum : pyval;
  d_model : option string
}.

(** What can happen next: a discovery callback, a scheduling of task [i], a
    run of [_manual_hosts], or [_stop_manual_heartbeat]. *)
Inductive label : Type :=
| Discovered (e : Discovery) (w : World)
| Run (i : nat) (w : World)
| ManualHosts (w : World)
| StopManualHeartbeat.

Definition step (l : label) (m : Manager) : Manager :=
  match l with
  | Discovered e w =>
      snd (async_discovered_player w (d_source e) (d_ip e) (d_uid e)
             (d_boot_seqnum e) (d_model e) m)
  | Run i w => snd (run_task w i m)
  | ManualHosts w => snd (_manual_hosts w m)
  | StopManualHeartbeat => snd (_stop_manual_heartbeat m)
  end.

Definition run (ls : list label) (m : Manager) : Manager :=
  fold_left (fun m l => step l m) ls m.

(** Holding the lock: between the granted [async with] and its exit. *)
Definition holds_lock (p : pc) : bool :=
  match p with
  | AwaitDiscoveredIp | ResumeDiscoveredIp _
  | AwaitCreateSoco | ResumeCreateSoco _ => true
  | AtLock | Done | Failed _ => false
  end.

Definition in_critical_section (t : Task) : bool := holds_lock (task_pc t).

End Sonos.

(** ** MySensors sensor entities *)

Module MySensors.
Import Py.

Notation "'let?' x ':=' o 'in' k" := (outcome_bind o (fun x => k))
  (at level 10, x name, o at level 100, k at level 200).

(** The names imported from [homeassistant.const].  That module is not among
    the sources at hand; its values are parameters of the table. *)
Record Const : Type := mkConst {
  CONDUCTIVITY : string;
  DEGREE : string;
  DEVICE_CLASS_HUMIDITY : string;
  DEVICE_CLASS_TEMPERATURE : string;
  ELECTRIC_POTENTIAL_MILLIVOLT : string;
  ELECTRICAL_CURRENT_AMPERE : string;
  ELECTRICAL_VOLT_AMPERE : string;
  ENERGY_KILO_WATT_HOUR : string;
  FREQUENCY_HERTZ : string;
  LENGTH_METERS : string;
  LIGHT_LUX : string;
  MASS_KILOGRAMS : string;
  PERCENTAGE : string;
  POWER_WATT : string;
  SOUND_PRESSURE_DB : string;
  TEMP_CELSIUS : string;
  TEMP_FAHRENHEIT : string;
  VOLT : string;
  VOLUME_CUBIC_METERS : string
}.

(** A value of [SENSORS]: a list [unit, icon, device_class], or for
    [V_LEVEL] a dictionary of such lists keyed by the child type. *)
Inductive SensorEntry : Type :=
| SensorList (l : list (option string))
| SensorDict (d : list (string * list (option string))).

Definition SENSORS (K : Const) : list (string * SensorEntry) :=
  [ ("V_TEMP", SensorList [None; None; Some (DEVICE_CLASS_TEMPERATURE K)]);
    ("V_HUM", SensorList [Some (PERCENTAGE K); Some "mdi:water-percent";
                          Some (DEVICE_CLASS_HUMIDITY K)]);
    ("V_DIMMER", SensorList [Some (PERCENTAGE K); Some "mdi:percent"; None]);
    ("V_PERCENTAGE", SensorList [Some (PERCENTAGE K); Some "mdi:percent"; None]);
    ("V_PRESSURE", SensorList [None; Some "mdi:gauge"; None]);
    ("V_FORECAST", SensorList [None; Some "mdi:weather-partly-cloudy"; None]);
    ("V_RAIN", SensorList [None; Some "mdi:weather-rainy"; None]);
    ("V_RAINRATE", SensorList [None; Some "mdi:weather-rainy"; None]);
    ("V_WIND", SensorList [None; Some "mdi:weather-windy"; None]);
    ("V_GUST", SensorList [None; Some "mdi:weather-windy"; None]);
    ("V_DIRECTION", SensorList [Some (DEGREE K); Some "mdi:compass"; None]);
    ("V_WEIGHT", SensorList [Some (MASS_KILOGRAMS K); Some "mdi:weight-kilogram"; None]);
    ("V_DISTANCE", SensorList [Some (LENGTH_METERS K); Some "mdi:ruler"; None]);
    ("V_IMPEDANCE", SensorList [Some "ohm"; None; None]);
    ("V_WATT", SensorList [Some (POWER_WATT K); None; None]);
    ("V_KWH", SensorList [Some (ENERGY_KILO_WATT_HOUR K); None; None]);
    ("V_LIGHT_LEVEL", SensorList [Some (PERCENTAGE K); Some "mdi:white-balance-sunny"; None]);
    ("V_FLOW", SensorList [Some (LENGTH_METERS K); Some "mdi:gauge"; None]);
    ("V_VOLUME", SensorList [Some (VOLUME_CUBIC_METERS K); None; None]);
    ("V_LEVEL", SensorDict
       [ ("S_SOUND", [Some (SOUND_PRESSURE_DB K); Some "mdi:volume-high"; None]);
         ("S_VIBRATION", [Some (FREQUENCY_HERTZ K); None; None]);
         ("S_LIGHT_LEVEL", [Some (LIGHT_LUX K); Some "mdi:white-balance-sunny"; None]) ]);
    ("V_VOLTAGE", SensorList [Some (VOLT K); Some "mdi:flash"; None]);
    ("V_CURRENT", SensorList [Some (ELECTRICAL_CURRENT_AMPERE K); Some "mdi:flash-auto"; None]);
    ("V_PH", SensorList [Some "pH"; None; None]);
    ("V_ORP", SensorList [Some (ELECTRIC_POTENTIAL_MILLIVOLT K); None; None]);
    ("V_EC", SensorList [Some (CONDUCTIVITY K); None; None]);
    ("V_VAR", SensorList [Some "var"; None; None]);
    ("V_VA", SensorList [Some (ELECTRICAL_VOLT_AMPERE K); None; None]) ].

(** [self.gateway]: the protocol version and the enums of
    [self.gateway.const], which the sensor SDK picks by version. *)
Record Gateway : Type := mkGateway {
  protocol_version : string;
  SetReq : IntEnum;
  Presentation : IntEnum
}.

(** The attributes of a [MySensorsSensor] the unit depends on; [is_metric] is
    [self.hass.config.units.is_metric]. *)
Record MySensorsSensor : Type := mkSensor {
  gateway : Gateway;
  value_type : Z;
  child_type : Z;
  _values : gmap Z string;
  is_metric : bool
}.

Section Sensor.

(** The constants, and [AwesomeVersion(a) >= AwesomeVersion(b)] of the
    version library, which is not among the sources: what the comparison
    answers, or the exception it raises. *)
Variable K : Const.
Variable AwesomeVersion_ge : string -> string -> outcome bool.

(** [MySensorsSensor._get_sensor_type] *)
Definition _get_sensor_type (self : MySensorsSensor) : outcome (list (option string)) :=
  let pres := Presentation (gateway self) in
  let set_req := SetReq (gateway self) in
  let? vt := enum_call set_req (value_type self) in
  let _sensor_type :=
    match od_get (name vt) (SENSORS K) with
    | Some entry => entry
    | None => SensorList [None; None; None]
    end in
  match _sensor_type with
  | SensorDict d =>
      let? ct := enum_call pres (child_type self) in
      match od_get (name ct) d with
      | Some sensor_type => Ok sensor_type
      | None => Ok [None; None; None]
      end
  | SensorList sensor_type => Ok sensor_type
  end.

(** [MySensorsSensor.unit_of_measurement] *)
Definition unit_of_measurement (self : MySensorsSensor) : outcome (option string) :=
  let set_req := SetReq (gateway self) in
  let? custom :=
    (let? at_least := AwesomeVersion_ge (protocol_version (gateway self)) "1.5" in
     if at_least then
       let? prefix := enum_attr set_req "V_UNIT_PREFIX" in
       Ok (_values self !! value prefix)
     else Ok None) in
  match custom with
  | Some custom_unit => Ok (Some custom_unit)
  | None =>
      let? vt := enum_call set_req (value_type self) in
      let? v_temp := enum_attr set_req "V_TEMP" in
      if Z.eqb (value vt) (value v_temp) then
        if is_metric self then Ok (Some (TEMP_CELSIUS K))
        else Ok (Some (TEMP_FAHRENHEIT K))
      else
        let? sensor_type := _get_sensor_type self in
        index sensor_type 0
  end.

(** [MySensorsSensor.force_update] *)
Definition force_update (self : MySensorsSensor) : bool := true.

(** [MySensorsSensor.state]: [self._values.get(self.value_type)] *)
Definition state (self : MySensorsSensor) : option string :=
  _values self !! value_type self.

(** [MySensorsSensor.device_class] *)
Definition device_class (self : MySensorsSensor) : outcome (option string) :=
  let? sensor_type := _get_sensor_type self in
  index sensor_type 2.

(** [MySensorsSensor.icon] *)
Definition icon (self : MySensorsSensor) : outcome (option string) :=
  let? sensor_type := _get_sensor_type self in
  index sensor_type 1.

End Sensor.

End MySensors.

(** ** Concrete devices, worlds and managers *)

Module Examples.
Import Py Sonos.

Definition kitchen : SoCo :=
  {| ip_address := "192.168.1.10"; uid := "RINCON_A";
     is_visible := true; household_id := "HH1" |}.

(** The same device after it came back under another address. *)
Definition kitchen_moved : SoCo :=
  {| ip_address := "192.168.1.20"; uid := "RINCON_A";
     is_visible := true; household_id := "HH1" |}.

Fixpoint digits_value (s : string) (acc : Z) : option Z :=
  match s with
  | EmptyString => Some acc
  | String c s' =>
      let n := Z.of_nat (Ascii.nat_of_ascii c) in
      if (Z.leb 48 n && Z.leb n 57)%bool
      then digits_value s' (10 * acc + (n - 48))
      else None
  end.

(** The [int] of the example worlds: the number written by a non-empty
    string of ASCII digits, and [ValueError] on every other string, also on
    those Python's [int] accepts (a sign, blanks around the number,
    underscores between digits). *)
Definition int_of_digits (s : string) : outcome Z :=
  match s with
  | EmptyString => Raise ValueError
  | _ =>
      match digits_value s 0 with
      | Some z => Ok z
      | None => Raise ValueError
      end
  end.

(** Every device answers. *)
Definition world_up : World :=
  {| pysonos_SoCo := fun ip =>
       if String.eqb ip "192.168.1.10" then Ok kitchen
       else if String.eqb ip "192.168.1.20" then Ok kitchen_moved
       else Raise OSError;
     get_speaker_info := fun _ => Ok [("zone_name", "Kitchen")];
     coordinator_setup := fun _ _ => Ok tt;
     speaker_setup := fun _ => Ok tt;
     gethostbyname := fun host => Ok host;
     int_of_str := int_of_digits |}.

(** No device answers. *)
Definition world_down : World :=
  {| pysonos_SoCo := fun _ => Raise OSError;
     get_speaker_info := fun _ => Raise SoCoException;
     coordinator_setup := fun _ _ => Raise OSError;
     speaker_setup := fun _ => Raise OSError;
     gethostbyname := fun host => Ok host;
     int_of_str := int_of_digits |}.

(** A device that answers and is not visible, and a world in which it
    answers at every address. *)
Definition bridge : SoCo :=
  {| ip_address := "192.168.1.30"; uid := "RINCON_B";
     is_visible := false; household_id := "HH1" |}.

Definition world_bridge : World :=
  {| pysonos_SoCo := fun _ => Ok bridge;
     get_speaker_info := fun _ => Ok [("zone_name", "Bridge")];
     coordinator_setup := fun _ _ => Ok tt;
     speaker_setup := fun _ => Ok tt;
     gethostbyname := fun host => Ok host;
     int_of_str := int_of_digits |}.

(** Devices answer, but the speaker cannot be set up. *)
Definition world_setup_fails : World :=
  {| pysonos_SoCo := pysonos_SoCo world_up;
     get_speaker_info := get_speaker_info world_up;
     coordinator_setup := fun _ _ => Ok tt;
     speaker_setup := fun _ => Raise SoCoException;
     gethostbyname := fun host => Ok host;
     int_of_str := int_of_digits |}.

Definition kitchen_speaker : SonosSpeaker :=
  {| soco := kitchen; speaker_info := [("zone_name", "Kitchen")] |}.

(** The kitchen speaker is known, with boot count 3. *)
Definition data_kitchen : SonosData :=
  {| discovered := [("RINCON_A", kitchen_speaker)];
     favorites := {["HH1" := mkCoordinator SonosFavorites "HH1"]};
     alarms := {["HH1" := mkCoordinator SonosAlarms "HH1"]};
     hosts_heartbeat := false;
     discovery_known := {["RINCON_A"]};
     boot_counts := {["RINCON_A" := 3]} |}.

Definition manager_kitchen : Manager :=
  SonosDiscoveryManager_init data_kitchen [].

Definition discovery_kitchen : Discovery :=
  {| d_source := "SSDP"; d_ip := "192.168.1.10"; d_uid := "RINCON_A";
     d_boot_seqnum := PyStr "3"; d_model := None |}.

(** One discovery of the kitchen speaker and the three schedulings that take
    its task from the lock to the end. *)
Definition schedule_kitchen : list label :=
  [ Discovered discovery_kitchen world_up;
    Run 0 world_up; Run 0 world_up; Run 0 world_up ].

(** Two discoveries of the kitchen speaker arriving together; the second
    task is scheduled while the first holds the lock. *)
Definition schedule_race : list label :=
  [ Discovered discovery_kitchen world_up;
    Discovered discovery_kitchen world_up;
    Run 0 world_up; Run 1 world_up; Run 0 world_up; Run 1 world_up;
    Run 0 world_up; Run 1 world_up ].

Definition manager_fresh : Manager := SonosDiscoveryManager_init SonosData_init [].

End Examples.

(** ** Notions used to state the properties *)

Module Notions.
Import Py Sonos.

(** A command keeps the relation [R] between the manager before and after
    it, whatever it returns or raises. *)
Definition preserves (R : Manager -> Manager -> Prop) {A} (c : M A) : Prop :=
  forall m, R m (snd (c m)).

(** At most one device record per identifier. *)
Definition unique_identifiers (d : SonosData) : Prop :=
  NoDup (od_keys (discovered d)).

(** No stored boot count is lost or lowered from [d] to [d']. *)
Definition boot_counts_le (d d' : SonosData) : Prop :=
  forall k n, boot_counts d !! k = Some n ->
    exists n', boot_counts d' !! k = Some n' /\ n <= n'.

(** Both invariants of the data model, as a relation between the manager
    before and after. *)
Definition invariants_kept (m m' : Manager) : Prop :=
  (unique_identifiers (data m) -> unique_identifiers (data m')) /\
  boot_counts_le (data m) (data m').

(** Calls into the speaker SDK and the network. *)
Definition is_sdk_call (e : effect) : bool :=
  match e with
  | Call_SoCo _ | Call_get_speaker_info _ | Call_coordinator_setup _ _
  | Call_speaker_setup _ | Call_gethostbyname _ => true
  | _ => false
  end.

Definition is_warning_effect (e : effect) : bool :=
  match e with
  | Log r => is_warning r
  | _ => false
  end.

(** Effects of the lock and of task creation, as opposed to calls, log
    records and signals. *)
Definition lock_or_task_effect (e : effect) : bool :=
  match e with
  | Lock_acquire | Lock_release | Create_task _ _ _ => true
  | _ => false
  end.

Definition is_create_task (e : effect) : bool :=
  match e with
  | Create_task _ _ _ => true
  | _ => false
  end.

(** The manager when a run of the coroutine is over: the lock is free, the
    data is [d], the effects [t] have been added. *)
Definition released (d : SonosData) (t : list effect) (m : Manager) : Manager :=
  {| data := d; hosts := hosts m; discovery_lock := false;
     tasks := tasks m; trace := trace m ++ t |}.

(** The data after [self.data.boot_counts[uid] = n]. *)
Definition with_boot_count (k : string) (n : Z) (d : SonosData) : SonosData :=
  set_boot_counts (<[k := n]> (boot_counts d)) d.

(** What a command that stays clear of the deduplicator leaves alone: the
    boot counts, the known identifiers, the lock and the tasks; and it adds
    no lock or task effect to the trace. *)
Definition outside_the_lock (m m' : Manager) : Prop :=
  boot_counts (data m') = boot_counts (data m) /\
  discovery_known (data m') = discovery_known (data m) /\
  discovery_lock m' = discovery_lock m /\
  tasks m' = tasks m /\
  exists t,
    trace m' = (trace m ++ t)%list /\
    Forall (fun e => lock_or_task_effect e = false) t.

(** A task whose boot sequence number is truthy carries an integer, and its
    identifier has a stored boot count. *)
Definition task_ready (d : SonosData) (t : Task) : Prop :=
  truthy (task_boot_seqnum t) = true ->
  (exists n, task_boot_seqnum t = PyInt n) /\
  is_Some (boot_counts d !! task_uid t).

Definition tasks_ready (m : Manager) : Prop :=
  Forall (task_ready (data m)) (tasks m).

Definition keeps_tasks_ready (m m' : Manager) : Prop :=
  tasks_ready m -> tasks_ready m'.

(** Mutual exclusion: a task in its critical section holds the lock, and no
    two tasks are in their critical sections together. *)
Definition mutual_exclusion (m : Manager) : Prop :=
  (forall i t,
     tasks m !! i = Some t -> in_critical_section t = true ->
     discovery_lock m = true) /\
  (forall i j ti tj,
     tasks m !! i = Some ti -> tasks m !! j = Some tj ->
     in_critical_section ti = true -> in_critical_section tj = true ->
     i = j).

(** [SonosSpeaker] objects built for the identifier [k]. *)
Definition is_construction (k : string) (e : effect) : bool :=
  match e with
  | New_SonosSpeaker s => String.eqb (uid s) k
  | _ => false
  end.

Definition constructions (k : string) (t : list effect) : nat :=
  length (List.filter (is_construction k) t).
Arguments constructions : simpl never.

(** The discoveries tell the truth: a device that answers at the address of
    a discovery has the identifier of that discovery.  The manager runs on
    discoveries alone, without the host poll. *)
Definition honest_label (l : label) (m : Manager) : Prop :=
  match l with
  | Run i w =>
      forall t s,
        tasks m !! i = Some t ->
        pysonos_SoCo w (task_ip t) = Ok s ->
        uid s = task_uid t
  | ManualHosts _ => False
  | Discovered _ _ | StopManualHeartbeat => True
  end.

Fixpoint honest_run (ls : list label) (m : Manager) : Prop :=
  match ls with
  | [] => True
  | l :: ls' => honest_label l m /\ honest_run ls' (step l m)
  end.

(** No task waits for its creation job with its identifier already known,
    and an identifier without a record has had no speaker built. *)
Definition single_construction (m : Manager) : Prop :=
  (forall i t,
     tasks m !! i = Some t -> task_pc t = AwaitDiscoveredIp ->
     od_mem (task_uid t) (discovered (data m)) = false) /\
  (forall k,
     (constructions k (trace m) <= 1)%nat /\
     (od_mem k (discovered (data m)) = false -> constructions k (trace m) = 0%nat)).

(** Commands that neither touch the records, nor the tasks, nor build a
    speaker. *)
Definition quiet (m m' : Manager) : Prop :=
  discovered (data m') = discovered (data m) /\
  tasks m' = tasks m /\
  forall k, constructions k (trace m') = constructions k (trace m).

(** Two managers with the same data and the same trace; the lock, the tasks
    and the hosts may differ. *)
Definition same_data_and_trace (m1 m2 : Manager) : Prop :=
  data m1 = data m2 /\ trace m1 = trace m2.

(** A command that reads and writes only the data and the trace. *)
Definition data_command {A} (c : M A) : Prop :=
  forall m1 m2,
    same_data_and_trace m1 m2 ->
    fst (c m1) = fst (c m2) /\ same_data_and_trace (snd (c m1)) (snd (c m2)).

(** The program point a finished coroutine leaves its task at. *)
Definition final_pc (r : outcome unit) : pc :=
  match r with
  | Ok _ => Done
  | Raise e => Failed e
  end.

End Notions.

(** ** Notions and instances for the sensor units *)

Module SensorNotions.
Import Py MySensors.

(** The unit the static table gives for a value type and a child type, by
    their names: the first element of the entry, [None] for a name the table
    does not have. *)
Definition table_unit (K : Const) (value_name child_name : string) : option string :=
  match od_get value_name (SENSORS K) with
  | Some (SensorList l) => nth 0 l None
  | Some (SensorDict d) =>
      match od_get child_name d with
      | Some l => nth 0 l None
      | None => None
      end
  | None => None
  end.

(** The entries of the table are lists with a first element. *)
Definition entry_ok (kv : string * SensorEntry) : Prop :=
  match snd kv with
  | SensorList l => l <> []
  | SensorDict d => Forall (fun kl => snd kl <> []) d
  end.

(** A number written in decimal digits, without a leading zero. *)
Fixpoint digits (s : string) (acc : N) : option N :=
  match s with
  | EmptyString => Some acc
  | String c s' =>
      let n := Ascii.N_of_ascii c in
      if (N.leb 48 n && N.leb n 57)%bool
      then digits s' (10 * acc + (n - 48))%N
      else None
  end.

Definition numeral (s : string) : option N :=
  match s with
  | EmptyString => None
  | String c EmptyString => digits s 0%N
  | String c _ => if Ascii.eqb c "0"%char then None else digits s 0%N
  end.

(** The part of [s] before its first dot and the part after it. *)
Fixpoint split_dot (s : string) : option (string * string) :=
  match s with
  | EmptyString => None
  | String c s' =>
      if Ascii.eqb c "."%char then Some (EmptyString, s')
      else
        match split_dot s' with
        | Some (a, b) => Some (String c a, b)
        | None => None
        end
  end.

(** A version of the form major.minor, two numbers and one dot, as "1.5";
    [None] for every other string. *)
Definition major_minor (s : string) : option (N * N) :=
  match split_dot s with
  | Some (a, b) =>
      match numeral a, numeral b with
      | Some x, Some y => Some (x, y)
      | _, _ => None
      end
  | None => None
  end.

(** [a] is at least [b], major number first. *)
Definition pair_ge (a b : N * N) : bool :=
  (N.ltb (fst b) (fst a) || (N.eqb (fst a) (fst b) && N.leb (snd b) (snd a)))%bool.

(** What is assumed of the version library: two versions of the form
    major.minor are compared as their numbers are.  What the comparison
    does on other strings, where it may also raise, is left open. *)
Definition orders_major_minor (ge : string -> string -> outcome bool) : Prop :=
  forall a b x y,
    major_minor a = Some x -> major_minor b = Some y -> ge a b = Ok (pair_ge x y).

(** The comparison of the examples.  It orders the versions of the form
    major.minor and knows no other: on every other string it raises, which
    is a choice of the examples and not a description of the library. *)
Definition version_ge (a b : string) : outcome bool :=
  match major_minor a, major_minor b with
  | Some x, Some y => Ok (pair_ge x y)
  | _, _ => Raise OtherError
  end.

(** The precedence of the unit, for a version test that answers
    [at_least]: a stored custom unit wins when the test holds; otherwise a
    sensor whose value type is a member of the gateway's enum gives the
    temperature unit of the platform when it is a [V_TEMP] sensor, and the
    unit of the table when it is not and its child type is a member too. *)
Definition unit_precedence (K : Const) (ge : string -> string -> outcome bool)
    (self : MySensorsSensor) (at_least : bool) : Prop :=
  let g := gateway self in
  (forall prefix custom,
     at_least = true ->
     enum_attr (SetReq g) "V_UNIT_PREFIX" = Ok prefix ->
     _values self !! value prefix = Some custom ->
     unit_of_measurement K ge self = Ok (Some custom)) /\
  (forall vt v_temp,
     enum_call (SetReq g) (value_type self) = Ok vt ->
     enum_attr (SetReq g) "V_TEMP" = Ok v_temp ->
     (at_least = true ->
      exists prefix, enum_attr (SetReq g) "V_UNIT_PREFIX" = Ok prefix) ->
     at_least = false \/
     (forall prefix,
        enum_attr (SetReq g) "V_UNIT_PREFIX" = Ok prefix ->
        _values self !! value prefix = None) ->
     (vt = v_temp ->
      unit_of_measurement K ge self =
      Ok (Some (if is_metric self then TEMP_CELSIUS K else TEMP_FAHRENHEIT K))) /\
     (vt <> v_temp ->
      forall ct,
        enum_call (Presentation g) (child_type self) = Ok ct ->
        unit_of_measurement K ge self = Ok (table_unit K (name vt) (name ct)) /\
        (od_get (name vt) (SENSORS K) = None ->
         table_unit K (name vt) (name ct) = None))).

(** An instance of the constants. *)
Definition const_metric : Const :=
  {| CONDUCTIVITY := "µS/cm";
     DEGREE := "°";
     DEVICE_CLASS_HUMIDITY := "humidity";
     DEVICE_CLASS_TEMPERATURE := "temperature";
     ELECTRIC_POTENTIAL_MILLIVOLT := "mV";
     ELECTRICAL_CURRENT_AMPERE := "A";
     ELECTRICAL_VOLT_AMPERE := "VA";
     ENERGY_KILO_WATT_HOUR := "kWh";
     FREQUENCY_HERTZ := "Hz";
     LENGTH_METERS := "m";
     LIGHT_LUX := "lx";
     MASS_KILOGRAMS := "kg";
     PERCENTAGE := "%";
     POWER_WATT := "W";
     SOUND_PRESSURE_DB := "dB";
     TEMP_CELSIUS := "°C";
     TEMP_FAHRENHEIT := "°F";
     VOLT := "V";
     VOLUME_CUBIC_METERS := "m³" |}.

(** Example gateways.  Their enums hold a few of the members the sensor SDK
    defines for the protocol, enough for the examples; the SDK's enums are
    larger.  [V_LIGHT] and [V_DIMMER] are aliases in protocol 2.0. *)
Definition gateway_2_0 : Gateway :=
  {| protocol_version := "2.0";
     SetReq :=
       [ mkMember "V_TEMP" 0; mkMember "V_HUM" 1;
         mkMember "V_STATUS" 2; mkMember "V_LIGHT" 2;
         mkMember "V_PERCENTAGE" 3; mkMember "V_DIMMER" 3;
         mkMember "V_PRESSURE" 4; mkMember "V_WATT" 17;
         mkMember "V_LEVEL" 37; mkMember "V_VOLTAGE" 38;
         mkMember "V_UNIT_PREFIX" 43 ];
     Presentation :=
       [ mkMember "S_TEMP" 6; mkMember "S_LIGHT_LEVEL" 16;
         mkMember "S_SOUND" 33; mkMember "S_VIBRATION" 34 ] |}.

(** Protocol 1.4 has no [V_UNIT_PREFIX]. *)
Definition gateway_1_4 : Gateway :=
  {| protocol_version := "1.4";
     SetReq :=
       [ mkMember "V_TEMP" 0; mkMember "V_HUM" 1; mkMember "V_LIGHT" 2;
         mkMember "V_DIMMER" 3; mkMember "V_PRESSURE" 4; mkMember "V_WATT" 17 ];
     Presentation := [ mkMember "S_TEMP" 6; mkMember "S_LIGHT_LEVEL" 16 ] |}.

(** A power meter that reports its own unit. *)
Definition sensor_custom : MySensorsSensor :=
  {| gateway := gateway_2_0; value_type := 17; child_type := 6;
     _values := {[17 := "1200"; 43 := "mW"]}; is_metric := true |}.

Definition sensor_temp : MySensorsSensor :=
  {| gateway := gateway_2_0; value_type := 0; child_type := 6;
     _values := {[0 := "21.5"]}; is_metric := true |}.

Definition sensor_sound : MySensorsSensor :=
  {| gateway := gateway_2_0; value_type := 37; child_type := 33;
     _values := {[37 := "40"]}; is_metric := false |}.

End SensorNotions.

(** ** Further notions *)

Module FurtherNotions.
Import Py Sonos Notions MySensors.

(** The record mapping after the handles of [l] were stored one after the
    other, each under its own identifier, as [_discovered_player] does. *)
Definition store_handles (l : list (SoCo * SpeakerInfo))
    (d : list (string * SonosSpeaker)) : list (string * SonosSpeaker) :=
  fold_left (fun d si => od_set (uid (fst si)) (mkSpeaker (fst si) (snd si)) d) l d.

(** From [d] to [d'] records were only stored by handle, every coordinator
    of [d] is still there, and a coordinator that is new is the one of its
    class and household. *)
Definition data_grows (d d' : SonosData) : Prop :=
  (exists l, discovered d' = store_handles l (discovered d)) /\
  (forall c h x, coord_dict c d !! h = Some x -> coord_dict c d' !! h = Some x) /\
  (forall c h x,
     coord_dict c d' !! h = Some x ->
     coord_dict c d !! h = Some x \/ x = mkCoordinator c h).

(** [data_grows] between the managers before and after a command. *)
Definition grows (m m' : Manager) : Prop := data_grows (data m) (data m').

(** Every record is stored under the identifier of its own handle. *)
Definition keyed_by_uid (d : SonosData) : Prop :=
  Forall (fun kv => uid (soco (snd kv)) = fst kv) (discovered d).

(** Every coordinator is stored under its own household, in the dictionary
    of its class. *)
Definition coordinators_ok (d : SonosData) : Prop :=
  forall c h x, coord_dict c d !! h = Some x -> x = mkCoordinator c h.

(** Every identifier with a boot count, and every identifier a task was
    created for, is among the known identifiers. *)
Definition known_covers (m : Manager) : Prop :=
  (forall k, is_Some (boot_counts (data m) !! k) -> k ∈ discovery_known (data m)) /\
  Forall (fun t => task_uid t ∈ discovery_known (data m)) (tasks m).

Definition keeps_known_covers (m m' : Manager) : Prop :=
  known_covers m -> known_covers m'.

(** What a discovery callback makes of the data: nothing for an ignored
    model or a boot sequence number [int] rejects; else the boot count is
    defaulted, when the number is truthy, and the identifier becomes known. *)
Definition add_known (k : string) (d : SonosData) : SonosData :=
  if bool_decide (k ∈ discovery_known d) then d
  else set_discovery_known ({[k]} ∪ discovery_known d) d.

Definition discovery_data (w : World) (k : string) (boot : pyval)
    (model : option string) (d : SonosData) : SonosData :=
  if opt_in_list model DISCOVERY_IGNORED_MODELS then d
  else if truthy boot then
    match py_int w boot with
    | Ok n => add_known k (set_boot_counts (setdefault k n (boot_counts d)) d)
    | Raise _ => d
    end
  else add_known k d.

(** The boot sequence header as the SSDP callback passes it on. *)
Definition header_value (h : option string) : pyval :=
  match h with
  | Some s => PyStr s
  | None => PyNone
  end.

(** Replaying the lock effects of a trace from a lock that is held or not:
    [None] when the lock is acquired while held or released while free. *)
Fixpoint lock_replay (t : list effect) (held : bool) : option bool :=
  match t with
  | [] => Some held
  | Lock_acquire :: t' => if held then None else lock_replay t' true
  | Lock_release :: t' => if held then lock_replay t' false else None
  | _ :: t' => lock_replay t' held
  end.

(** From [m] to [m'] the lock effects added to the trace replay from the
    lock of [m] to the lock of [m']. *)
Definition lock_trace (m m' : Manager) : Prop :=
  exists t,
    trace m' = (trace m ++ t)%list /\
    lock_replay t (discovery_lock m) = Some (discovery_lock m').

(** A held lock has a task in its critical section. *)
Definition lock_owned (m : Manager) : Prop :=
  discovery_lock m = true ->
  exists i t, tasks m !! i = Some t /\ in_critical_section t = true.

(** The set-up calls of the household coordinators. *)
Definition is_coordinator_call (e : effect) : bool :=
  match e with
  | Call_coordinator_setup _ _ => true
  | _ => false
  end.

(** A configured host that resolves to the address of a record with a
    non-empty identifier. *)
Definition host_is_known (w : World) (d : SonosData) (host : string) : Prop :=
  exists ip u,
    gethostbyname w host = Ok ip /\
    known_uid_of ip (discovered d) = Some u /\ u <> "".

(** What polling such a host adds to the trace. *)
Definition seen_effects (w : World) (d : SonosData) (host : string) : list effect :=
  match gethostbyname w host with
  | Ok ip =>
      match known_uid_of ip (discovered d) with
      | Some u => [Call_gethostbyname host; Dispatch (SONOS_SEEN u)]
      | None => []
      end
  | Raise _ => []
  end.

(** The heartbeat does not change. *)
Definition same_heartbeat (m m' : Manager) : Prop :=
  hosts_heartbeat (data m') = hosts_heartbeat (data m).

(** The same sensor presented as another child type. *)
Definition set_child_type (c : Z) (self : MySensorsSensor) : MySensorsSensor :=
  {| gateway := gateway self; value_type := value_type self;
     child_type := c; _values := _values self; is_metric := is_metric self |}.

(** The rows of the table have three elements. *)
Definition entry_has_three (kv : string * SensorEntry) : Prop :=
  match snd kv with
  | SensorList l => length l = 3%nat
  | SensorDict d => Forall (fun kl => length (snd kl) = 3%nat) d
  end.

(** Only [V_LEVEL] has a dictionary of rows. *)
Definition dict_only_for_level (kv : string * SensorEntry) : Prop :=
  match snd kv with
  | SensorList _ => True
  | SensorDict _ => fst kv = "V_LEVEL"
  end.

(** The rows with a device class are those of [V_TEMP] and [V_HUM]. *)
Definition class_of_entry (K : Const) (kv : string * SensorEntry) : Prop :=
  match snd kv with
  | SensorList l =>
      forall c,
        index l 2 = Ok (Some c) ->
        (fst kv = "V_TEMP" /\ c = DEVICE_CLASS_TEMPERATURE K) \/
        (fst kv = "V_HUM" /\ c = DEVICE_CLASS_HUMIDITY K)
  | SensorDict d => Forall (fun kl => index (snd kl) 2 = Ok None) d
  end.

(** Why [_get_sensor_type] raises: the value type is no member of the
    gateway's enum, or the sensor is a [V_LEVEL] sensor and its child type
    is no member. *)
Definition invalid_types (self : MySensorsSensor) : Prop :=
  enum_call (SetReq (gateway self)) (value_type self) = Raise ValueError \/
  exists vt,
    enum_call (SetReq (gateway self)) (value_type self) = Ok vt /\
    name vt = "V_LEVEL" /\
    enum_call (Presentation (gateway self)) (child_type self) = Raise ValueError.

End FurtherNotions.

(** * Properties of the discovery manager *)

Import Py Sonos Notions.

(** ** Running the monad *)

Lemma bind_run {A B} (c : M A) (k : A -> M B) (m : Manager) :
  bind c k m =
  match c m with
  | (Ok a, m') => k a m'
  | (Raise e, m') => (Raise e, m')
  end.
Proof. reflexivity. Qed.

Lemma data_modify (f : SonosData -> SonosData) (m : Manager) :
  data (snd (modify_data f m)) = f (data m).
Proof. reflexivity. Qed.

Lemma add_trace_nil (m : Manager) : add_trace [] m = m.
Proof. destruct m; unfold add_trace; cbn. now rewrite app_nil_r. Qed.

Lemma add_trace_app (t1 t2 : list effect) (m : Manager) :
  add_trace t2 (add_trace t1 m) = add_trace (t1 ++ t2) m.
Proof. unfold add_trace; cbn. now rewrite app_assoc. Qed.

(** ** Relations kept by every command

    [R] relates the manager before a command to the manager after it.  A
    reflexive and transitive [R] that every primitive mutation used by a
    command respects is respected by the command, whatever it returns or
    raises. *)

Section Preservation.

Variable R : Manager -> Manager -> Prop.
Hypothesis R_refl : forall m, R m m.
Hypothesis R_trans : forall a b c, R a b -> R b c -> R a c.

Lemma preserves_ret {A} (a : A) : preserves R (ret a).
Proof. intros m; apply R_refl. Qed.

Lemma preserves_raise {A} (e : exn) : preserves R (@raise A e).
Proof. intros m; apply R_refl. Qed.

Lemma preserves_lift {A} (o : outcome A) : preserves R (lift o).
Proof. intros m; apply R_refl. Qed.

Lemma preserves_get_data : preserves R get_data.
Proof. intros m; apply R_refl. Qed.

Lemma R_bind {A B} (c : M A) (k : A -> M B) (m : Manager) :
  R m (snd (c m)) ->
  (forall a, fst (c m) = Ok a -> R (snd (c m)) (snd (k a (snd (c m))))) ->
  R m (snd (bind c k m)).
Proof.
  intros Hc Hk. rewrite bind_run.
  destruct (c m) as [[a|e] m']; cbn in *; [|exact Hc].
  eapply R_trans; [exact Hc|]. now apply Hk.
Qed.

Lemma preserves_bind {A B} (c : M A) (k : A -> M B) :
  preserves R c -> (forall a, preserves R (k a)) -> preserves R (bind c k).
Proof. intros Hc Hk m. apply R_bind; [apply Hc|]. intros a _. apply Hk. Qed.

Lemma preserves_try_except {A} (c : M A) (h : exn -> M A) :
  preserves R c -> (forall e, preserves R (h e)) -> preserves R (try_except c h).
Proof.
  intros Hc Hh m. unfold try_except.
  specialize (Hc m). destruct (c m) as [[a|e] m']; cbn in *; [exact Hc|].
  destruct (handled e); [|exact Hc].
  eapply R_trans; [exact Hc|apply Hh].
Qed.

Lemma preserves_for_each {A} (xs : list A) (body : A -> M unit) :
  (forall x, preserves R (body x)) -> preserves R (for_each xs body).
Proof.
  intros Hb. induction xs as [|x xs IH]; cbn.
  - apply preserves_ret.
  - apply preserves_bind; [apply Hb|]. intros _. exact IH.
Qed.

(** The primitive mutations. *)
Hypothesis R_emit : forall e, lock_or_task_effect e = false -> preserves R (emit e).
Hypothesis R_emit_ctl : forall e, lock_or_task_effect e = true -> preserves R (emit e).

Ltac emits := first [now apply R_emit | now apply R_emit_ctl].
Hypothesis R_set_discovered : forall k v,
  preserves R (modify_data (fun d => set_discovered (od_set k v (discovered d)) d)).
Hypothesis R_set_coord_dict : forall c k v,
  preserves R (modify_data (fun d => set_coord_dict c (<[k := v]> (coord_dict c d)) d)).
Hypothesis R_set_hosts_heartbeat : forall b,
  preserves R (modify_data (set_hosts_heartbeat b)).

Lemma preserves_create_soco w ip source : preserves R (_create_soco w ip source).
Proof.
  unfold _create_soco. apply preserves_try_except.
  - apply preserves_bind; [emits|]. intros _.
    apply preserves_bind; [apply preserves_lift|]. intros s. apply preserves_ret.
  - intros e. apply preserves_bind; [emits|]. intros _. apply preserves_ret.
Qed.

Lemma preserves_setup_coordinator w s c : preserves R (setup_coordinator w s c).
Proof.
  unfold setup_coordinator. intros m. apply R_bind; [apply preserves_get_data|].
  intros d _. cbn. destruct (coord_dict c d !! household_id s).
  - apply preserves_ret.
  - apply preserves_bind; [emits|]. intros _.
    apply preserves_bind; [apply preserves_lift|]. intros _.
    apply R_set_coord_dict.
Qed.

Lemma preserves_discovered_player w s : preserves R (_discovered_player w s).
Proof.
  unfold _discovered_player, discovered_player_try.
  apply preserves_try_except; [|intros e; emits].
  apply preserves_bind; [emits|]. intros _.
  apply preserves_bind; [apply preserves_lift|]. intros info.
  apply preserves_bind; [emits|]. intros _.
  apply preserves_bind; [emits|]. intros _.
  apply preserves_bind; [apply R_set_discovered|]. intros _.
  apply preserves_bind; [apply preserves_setup_coordinator|]. intros _.
  apply preserves_bind; [apply preserves_setup_coordinator|]. intros _.
  apply preserves_bind; [emits|]. intros _.
  apply preserves_lift.
Qed.

Lemma preserves_discovered_ip w ip : preserves R (_discovered_ip w ip).
Proof.
  unfold _discovered_ip. apply preserves_bind; [apply preserves_create_soco|].
  intros [s|]; [|apply preserves_ret].
  destruct (is_visible s); [apply preserves_discovered_player|apply preserves_ret].
Qed.

Lemma preserves_configured_player w ip : preserves R (configured_player w ip).
Proof.
  unfold configured_player. apply preserves_bind; [apply preserves_create_soco|].
  intros [s|]; [|apply preserves_ret].
  destruct (is_visible s); [apply preserves_discovered_player|apply preserves_ret].
Qed.

Lemma preserves_manual_host w host : preserves R (manual_host w host).
Proof.
  unfold manual_host.
  apply preserves_bind; [emits|]. intros _.
  apply preserves_bind; [apply preserves_lift|]. intros ip.
  apply preserves_bind; [apply preserves_get_data|]. intros d.
  destruct (known_uid_of ip (discovered d)) as [known|];
    [|apply preserves_configured_player].
  destruct (str_truthy known); [emits|apply preserves_configured_player].
Qed.

Lemma preserves_manual_hosts w : preserves R (_manual_hosts w).
Proof.
  unfold _manual_hosts.
  apply preserves_bind.
  - intros m. apply preserves_for_each. apply preserves_manual_host.
  - intros _. apply preserves_bind; [emits|]. intros _.
    apply R_set_hosts_heartbeat.
Qed.

Lemma preserves_stop_manual_heartbeat : preserves R _stop_manual_heartbeat.
Proof.
  unfold _stop_manual_heartbeat.
  apply preserves_bind; [apply preserves_get_data|]. intros d.
  destruct (hosts_heartbeat d); [|apply preserves_ret].
  apply preserves_bind; [emits|]. intros _. apply R_set_hosts_heartbeat.
Qed.

(** The mutations of the lock, the task list, the known identifiers and the
    boot counts. *)
Hypothesis R_set_lock : forall b, preserves R (set_lock b).
Hypothesis R_spawn : forall t, preserves R (spawn t).
Hypothesis R_set_task_pc : forall i p, preserves R (set_task_pc i p).
Hypothesis R_add_known : forall k,
  preserves R (modify_data (fun d => set_discovery_known ({[k]} ∪ discovery_known d) d)).
Hypothesis R_setdefault : forall k n,
  preserves R (modify_data (fun d => set_boot_counts (setdefault k n (boot_counts d)) d)).
Hypothesis R_reboot : forall k boot m,
  rebooted (data m) k boot = Ok true ->
  R m (snd (modify_data
              (fun d => set_boot_counts (<[k := int_or_zero boot]> (boot_counts d)) d) m)).

Lemma preserves_acquire : preserves R acquire.
Proof. apply preserves_bind; [emits|]. intros _. apply R_set_lock. Qed.

Lemma preserves_release : preserves R release.
Proof. apply preserves_bind; [apply R_set_lock|]. intros _. emits. Qed.

Lemma preserves_with_lock {A} (body : M A) :
  preserves R body -> preserves R (with_lock body).
Proof.
  intros Hb. unfold with_lock. apply preserves_bind; [apply preserves_acquire|].
  intros _ m. specialize (Hb m). destruct (body m) as [r m']. cbn in *.
  eapply R_trans; [exact Hb|apply preserves_release].
Qed.

Lemma preserves_async_create_discovered_player w k ip boot :
  preserves R (_async_create_discovered_player w k ip boot).
Proof.
  unfold _async_create_discovered_player. apply preserves_with_lock.
  intros m. apply R_bind; [apply preserves_get_data|].
  intros d Hd. cbn in Hd. injection Hd as <-. cbn [snd get_data].
  destruct (negb (od_mem k (discovered (data m)))); [apply preserves_discovered_ip|].
  apply R_bind; [apply preserves_lift|].
  intros reboot Hr. cbn in Hr. cbn [snd lift].
  destruct reboot.
  - apply R_bind; [now apply R_reboot|]. intros _ _.
    apply preserves_bind; [apply preserves_create_soco|].
    intros [s|]; [emits|apply preserves_ret].
  - emits.
Qed.

Lemma preserves_create_task k ip boot : preserves R (create_task k ip boot).
Proof. apply preserves_bind; [emits|]. intros _. apply R_spawn. Qed.

Lemma preserves_async_discovered_player w source ip k boot model :
  preserves R (async_discovered_player w source ip k boot model).
Proof.
  unfold async_discovered_player.
  destruct (opt_in_list model DISCOVERY_IGNORED_MODELS); [emits|].
  apply preserves_bind.
  - destruct (truthy boot); [|apply preserves_ret].
    apply preserves_bind; [apply preserves_lift|]. intros n.
    apply preserves_bind; [apply R_setdefault|]. intros _. apply preserves_ret.
  - intros boot'. apply preserves_bind; [apply preserves_get_data|]. intros d.
    apply preserves_bind; [|intros _; apply preserves_create_task].
    destruct (bool_decide (k ∈ discovery_known d)); [apply preserves_ret|].
    apply preserves_bind; [emits|]. intros _. apply R_add_known.
Qed.

Lemma preserves_enter t : preserves R (enter t).
Proof.
  unfold enter. apply preserves_bind; [apply preserves_acquire|]. intros _ m.
  apply R_bind; [apply preserves_get_data|].
  intros d Hd. cbn in Hd. injection Hd as <-. cbn [snd get_data].
  destruct (negb (od_mem (task_uid t) (discovered (data m)))); [apply preserves_ret|].
  destruct (rebooted (data m) (task_uid t) (task_boot_seqnum t)) as [[|]|e] eqn:Hr.
  - apply R_bind; [now apply R_reboot|]. intros _ _. apply preserves_ret.
  - apply preserves_bind; [emits|]. intros _.
    apply preserves_bind; [apply preserves_release|]. intros _. apply preserves_ret.
  - apply preserves_bind; [apply preserves_release|]. intros _. apply preserves_ret.
Qed.

Lemma preserves_executor_job w t : preserves R (executor_job w t).
Proof.
  intros m. unfold executor_job. destruct (task_pc t); try apply R_refl.
  - pose proof (preserves_discovered_ip w (task_ip t) m) as H.
    destruct (_discovered_ip w (task_ip t) m); exact H.
  - pose proof (preserves_create_soco w (task_ip t) REBOOTED m) as H.
    destruct (_create_soco w (task_ip t) REBOOTED m); exact H.
Qed.

Lemma preserves_resume t : preserves R (resume t).
Proof.
  unfold resume.
  destruct (task_pc t) as [| |[[]|e]| |[[s|]|e]| |e]; try apply preserves_ret;
    repeat (apply preserves_bind; [first [apply preserves_release|emits]|intros _]);
    apply preserves_ret.
Qed.

Lemma preserves_task_step w t : preserves R (task_step w t).
Proof.
  unfold task_step.
  destruct (task_pc t) eqn:Hpc; try apply preserves_ret;
    try apply preserves_executor_job; try apply preserves_resume.
  intros m. destruct (discovery_lock m); [apply R_refl|apply preserves_enter].
Qed.

Lemma preserves_run_task w i : preserves R (run_task w i).
Proof.
  intros m. unfold run_task. destruct (tasks m !! i) as [t|]; [|apply R_refl].
  apply preserves_bind; [apply preserves_task_step|]. intros p. apply R_set_task_pc.
Qed.

(** Every transition, and so every run, keeps the relation. *)
Lemma step_preserves l m : R m (step l m).
Proof.
  destruct l as [e w|i w|w|]; cbn.
  - apply preserves_async_discovered_player.
  - apply preserves_run_task.
  - apply preserves_manual_hosts.
  - apply preserves_stop_manual_heartbeat.
Qed.

Lemma run_preserves ls m : R m (run ls m).
Proof.
  revert m. induction ls as [|l ls IH]; intros m; cbn.
  - apply R_refl.
  - eapply R_trans; [apply step_preserves|apply IH].
Qed.

End Preservation.

(** ** OrderedDict facts *)

Section OrderedDictFacts.
Context {V : Type}.
Implicit Types (d : list (string * V)) (k : string) (v : V).

Lemma od_mem_In k d : od_mem k d = true <-> In k (od_keys d).
Proof.
  unfold od_mem, od_keys. rewrite existsb_exists, in_map_iff. split.
  - intros (kv & Hin & Heq). apply String.eqb_eq in Heq. eauto.
  - intros (kv & Heq & Hin). exists kv. split; [exact Hin|]. now apply String.eqb_eq.
Qed.

Lemma od_mem_false k d : od_mem k d = false <-> ~ In k (od_keys d).
Proof.
  rewrite <- od_mem_In. destruct (od_mem k d); split; try easy.
Qed.

Lemma od_keys_set k v d :
  od_keys (od_set k v d) = if od_mem k d then od_keys d else (od_keys d ++ [k])%list.
Proof.
  unfold od_keys, od_mem.
  induction d as [|[k' v'] d IH]; cbn; [reflexivity|].
  destruct (String.eqb k k') eqn:E; cbn.
  - apply String.eqb_eq in E. now subst.
  - rewrite IH. now destruct (existsb _ d).
Qed.

Lemma od_set_NoDup k v d : NoDup (od_keys d) -> NoDup (od_keys (od_set k v d)).
Proof.
  intros H. rewrite od_keys_set. destruct (od_mem k d) eqn:E; [exact H|].
  apply od_mem_false in E. apply NoDup_app. repeat split.
  - exact H.
  - intros x Hx Hx'. apply list_elem_of_In in Hx, Hx'.
    destruct Hx' as [<-|[]]. now apply E.
  - apply NoDup_singleton.
Qed.

Lemma od_keys_set_incl k v d x : In x (od_keys d) -> In x (od_keys (od_set k v d)).
Proof.
  intros H. rewrite od_keys_set. destruct (od_mem k d); [exact H|].
  apply in_or_app. now left.
Qed.

Lemma od_mem_set k v d : od_mem k (od_set k v d) = true.
Proof.
  apply od_mem_In. rewrite od_keys_set. destruct (od_mem k d) eqn:E.
  - now apply od_mem_In.
  - apply in_or_app. right. now left.
Qed.

Lemma od_get_set_eq k v d : od_get k (od_set k v d) = Some v.
Proof.
  induction d as [|[k' v'] d IH]; cbn.
  - now rewrite String.eqb_refl.
  - destruct (String.eqb k k') eqn:E; cbn; [now rewrite String.eqb_refl|].
    now rewrite E.
Qed.

Lemma od_get_set_ne k k' v d : k <> k' -> od_get k' (od_set k v d) = od_get k' d.
Proof.
  intros Hne. induction d as [|[k0 v0] d IH]; cbn.
  - destruct (String.eqb k' k) eqn:E; [|reflexivity].
    apply String.eqb_eq in E. congruence.
  - destruct (String.eqb k k0) eqn:E; cbn.
    + apply String.eqb_eq in E. subst k0.
      destruct (String.eqb k' k) eqn:E'; [|reflexivity].
      apply String.eqb_eq in E'. congruence.
    + now rewrite IH.
Qed.

End OrderedDictFacts.

(** ** The data-model invariants *)

Lemma boot_counts_le_refl d : boot_counts_le d d.
Proof. intros k n H. exists n. split; [exact H|lia]. Qed.

Lemma boot_counts_le_eq d d' :
  boot_counts d' = boot_counts d -> boot_counts_le d d'.
Proof. intros E k n H. exists n. rewrite E. split; [exact H|lia]. Qed.

Lemma boot_counts_le_trans d1 d2 d3 :
  boot_counts_le d1 d2 -> boot_counts_le d2 d3 -> boot_counts_le d1 d3.
Proof.
  intros H12 H23 k n H. destruct (H12 k n H) as (n2 & H2 & Hle).
  destruct (H23 k n2 H2) as (n3 & H3 & Hle'). exists n3. split; [exact H3|lia].
Qed.

Lemma invariants_kept_refl m : invariants_kept m m.
Proof. split; [tauto|apply boot_counts_le_refl]. Qed.

Lemma invariants_kept_trans a b c :
  invariants_kept a b -> invariants_kept b c -> invariants_kept a c.
Proof.
  intros [U1 B1] [U2 B2]. split; [tauto|].
  eapply boot_counts_le_trans; eassumption.
Qed.

(** A mutation that leaves the records and the boot counts alone keeps the
    invariants. *)
Lemma invariants_kept_frame m m' :
  discovered (data m') = discovered (data m) ->
  boot_counts (data m') = boot_counts (data m) ->
  invariants_kept m m'.
Proof.
  intros Hd Hb. split.
  - unfold unique_identifiers. now rewrite Hd.
  - intros k n H. exists n. rewrite Hb. split; [exact H|lia].
Qed.

Lemma rebooted_true d k boot :
  rebooted d k boot = Ok true ->
  exists stored n,
    boot = PyInt n /\ n <> 0 /\ boot_counts d !! k = Some stored /\ stored < n.
Proof.
  unfold rebooted. destruct (truthy boot) eqn:Ht; [|discriminate].
  destruct (boot_counts d !! k) as [stored|]; [|discriminate].
  destruct boot as [|s|n]; try discriminate.
  intros H. injection H as H. apply Z.ltb_lt in H.
  exists stored, n. cbn in Ht. repeat split; try assumption.
  intros ->. discriminate.
Qed.

Lemma setdefault_lookup k n (bc : gmap string Z) k' :
  setdefault k n bc !! k' =
  match bc !! k' with
  | Some x => Some x
  | None => if decide (k = k') then Some n else None
  end.
Proof.
  unfold setdefault. destruct (bc !! k) as [x|] eqn:E.
  - destruct (bc !! k') eqn:E'; [reflexivity|].
    destruct (decide (k = k')); [congruence|reflexivity].
  - rewrite lookup_insert. destruct (decide (k = k')) as [->|].
    + now rewrite E.
    + now destruct (bc !! k').
Qed.

Lemma invariants_kept_emit e : preserves invariants_kept (emit e).
Proof. intros m. now apply invariants_kept_frame. Qed.

Lemma invariants_kept_set_discovered k v :
  preserves invariants_kept
    (modify_data (fun d => set_discovered (od_set k v (discovered d)) d)).
Proof.
  intros m. split; cbn.
  - apply od_set_NoDup.
  - now apply boot_counts_le_eq.
Qed.

Lemma invariants_kept_set_coord_dict c k v :
  preserves invariants_kept
    (modify_data (fun d => set_coord_dict c (<[k := v]> (coord_dict c d)) d)).
Proof. intros m. apply invariants_kept_frame; now destruct c. Qed.

Lemma invariants_kept_set_hosts_heartbeat b :
  preserves invariants_kept (modify_data (set_hosts_heartbeat b)).
Proof. intros m. now apply invariants_kept_frame. Qed.

Lemma invariants_kept_set_lock b : preserves invariants_kept (set_lock b).
Proof. intros m. now apply invariants_kept_frame. Qed.

Lemma invariants_kept_spawn t : preserves invariants_kept (spawn t).
Proof. intros m. now apply invariants_kept_frame. Qed.

Lemma invariants_kept_set_task_pc i p : preserves invariants_kept (set_task_pc i p).
Proof. intros m. now apply invariants_kept_frame. Qed.

Lemma invariants_kept_add_known k :
  preserves invariants_kept
    (modify_data (fun d => set_discovery_known ({[k]} ∪ discovery_known d) d)).
Proof. intros m. now apply invariants_kept_frame. Qed.

(** [setdefault] adds a count only where there was none. *)
Lemma invariants_kept_setdefault k n :
  preserves invariants_kept
    (modify_data (fun d => set_boot_counts (setdefault k n (boot_counts d)) d)).
Proof.
  intros m. split; cbn -[setdefault]; [tauto|].
  intros k' x H. exists x. cbn -[setdefault].
  rewrite setdefault_lookup, H. split; [reflexivity|lia].
Qed.

(** The assignment on the reboot branch is guarded by the comparison. *)
Lemma invariants_kept_reboot k boot m :
  rebooted (data m) k boot = Ok true ->
  invariants_kept m
    (snd (modify_data
            (fun d => set_boot_counts (<[k := int_or_zero boot]> (boot_counts d)) d) m)).
Proof.
  intros Hr. apply rebooted_true in Hr.
  destruct Hr as (stored & n & -> & _ & Hs & Hlt). split; [cbn; tauto|].
  rewrite data_modify. intros k' x H.
  cbn [int_or_zero boot_counts set_boot_counts]. destruct (decide (k = k')) as [->|Hne].
  - exists n. rewrite lookup_insert_eq. split; [reflexivity|].
    rewrite Hs in H. injection H as <-. lia.
  - exists x. rewrite lookup_insert_ne by exact Hne. split; [exact H|lia].
Qed.

Lemma invariants_kept_step l m : invariants_kept m (step l m).
Proof.
  apply step_preserves;
  eauto using invariants_kept_refl, invariants_kept_trans,
    invariants_kept_emit, invariants_kept_set_discovered,
    invariants_kept_set_coord_dict, invariants_kept_set_hosts_heartbeat,
    invariants_kept_set_lock, invariants_kept_spawn, invariants_kept_set_task_pc,
    invariants_kept_add_known, invariants_kept_setdefault, invariants_kept_reboot.
Qed.

Lemma invariants_kept_run ls m : invariants_kept m (run ls m).
Proof.
  apply run_preserves;
  eauto using invariants_kept_refl, invariants_kept_trans,
    invariants_kept_emit, invariants_kept_set_discovered,
    invariants_kept_set_coord_dict, invariants_kept_set_hosts_heartbeat,
    invariants_kept_set_lock, invariants_kept_spawn, invariants_kept_set_task_pc,
    invariants_kept_add_known, invariants_kept_setdefault, invariants_kept_reboot.
Qed.

Lemma invariants_kept_coroutine w k ip boot m :
  invariants_kept m (snd (_async_create_discovered_player w k ip boot m)).
Proof.
  apply preserves_async_create_discovered_player;
  eauto using invariants_kept_refl, invariants_kept_trans,
    invariants_kept_emit, invariants_kept_set_discovered,
    invariants_kept_set_coord_dict, invariants_kept_set_hosts_heartbeat,
    invariants_kept_set_lock, invariants_kept_spawn, invariants_kept_set_task_pc,
    invariants_kept_add_known, invariants_kept_setdefault, invariants_kept_reboot.
Qed.

(** C5: every operation of the manager, and so every run of operations,
    keeps the identifiers of the device records distinct and never lowers or
    drops a stored boot count.  The operations are the discovery callback, a
    scheduling of a creation task, the host poll and the heartbeat stop
    (any [run]), and the creation coroutine run in one piece. *)
Theorem invariants_are_preserved (ls : list label) (m : Manager) :
  unique_identifiers (data m) ->
  (unique_identifiers (data (run ls m)) /\
   boot_counts_le (data m) (data (run ls m))) /\
  (forall w k ip boot,
     let m' := snd (_async_create_discovered_player w k ip boot m) in
     unique_identifiers (data m') /\ boot_counts_le (data m) (data m')).
Proof.
  intros Hu. split.
  - destruct (invariants_kept_run ls m) as [U B]. split; [now apply U|exact B].
  - intros w k ip boot m'. subst m'.
    destruct (invariants_kept_coroutine w k ip boot m) as [U B].
    split; [now apply U|exact B].
Qed.

Lemma invariants_are_preserved_witness :
  unique_identifiers (data Examples.manager_fresh) /\
  unique_identifiers (data (run Examples.schedule_kitchen Examples.manager_fresh)).
Proof.
  assert (H : unique_identifiers (data Examples.manager_fresh)) by apply NoDup_nil_2.
  split; [exact H|].
  exact (proj1 (proj1 (invariants_are_preserved Examples.schedule_kitchen
                         Examples.manager_fresh H))).
Defined.

(** ** Ignored models *)

(** C10: a discovery whose model is in [DISCOVERY_IGNORED_MODELS] makes
    [async_discovered_player] return at once: the data (known identifiers,
    boot counts, device records), the lock and the task list are as before,
    no task is created, and the only effect is the debug record. *)
Theorem ignored_model_changes_nothing
    (w : World) (source ip k : string) (boot : pyval) (model : string) (m : Manager) :
  In model DISCOVERY_IGNORED_MODELS ->
  let r := async_discovered_player w source ip k boot (Some model) m in
  fst r = Ok tt /\
  data (snd r) = data m /\
  tasks (snd r) = tasks m /\
  discovery_lock (snd r) = discovery_lock m /\
  trace (snd r) = (trace m ++ [Log Debug_ignoring_device])%list /\
  List.filter is_create_task (trace (snd r)) = List.filter is_create_task (trace m).
Proof.
  intros Hin r. subst r. unfold async_discovered_player.
  assert (E : opt_in_list (Some model) DISCOVERY_IGNORED_MODELS = true).
  { cbn [opt_in_list]. apply existsb_exists. exists model.
    split; [exact Hin|apply String.eqb_refl]. }
  rewrite E. cbn. repeat split; try reflexivity.
  rewrite List.filter_app. cbn. now rewrite app_nil_r.
Qed.

Lemma ignored_model_changes_nothing_witness :
  In "Sonos Boost" DISCOVERY_IGNORED_MODELS /\
  let m := SonosDiscoveryManager_init SonosData_init [] in
  let r := async_discovered_player Examples.world_up "SSDP" "192.168.1.30" "RINCON_B"
             (PyStr "7") (Some "Sonos Boost") m in
  fst r = Ok tt /\
  data (snd r) = data m /\
  tasks (snd r) = tasks m /\
  discovery_lock (snd r) = discovery_lock m /\
  trace (snd r) = (trace m ++ [Log Debug_ignoring_device])%list /\
  List.filter is_create_task (trace (snd r)) = List.filter is_create_task (trace m).
Proof.
  split; [now left|].
  apply (ignored_model_changes_nothing Examples.world_up "SSDP" "192.168.1.30"
           "RINCON_B" (PyStr "7") "Sonos Boost"
           (SonosDiscoveryManager_init SonosData_init [])).
  now left.
Defined.

(** ** Failures at device creation *)

Lemma create_soco_run w ip source m :
  _create_soco w ip source m =
  match pysonos_SoCo w ip with
  | Ok s => (Ok (Some s), add_trace [Call_SoCo ip] m)
  | Raise ex =>
      if handled ex
      then (Ok None, add_trace [Call_SoCo ip; Log (Warn_failed_to_connect source ip ex)] m)
      else (Raise ex, add_trace [Call_SoCo ip] m)
  end.
Proof.
  unfold _create_soco, try_except, bind, emit, lift, ret. cbn.
  destruct (pysonos_SoCo w ip) as [s|ex]; [reflexivity|].
  destruct (handled ex); [|reflexivity].
  now rewrite add_trace_app.
Qed.

Ltac nodup_effects :=
  repeat first
    [ apply NoDup_nil_2
    | apply NoDup_cons_2; [rewrite list_elem_of_In; cbn; intuition congruence|] ].

(** The effects of the [try] block of [_discovered_player], whatever the
    world answers: no SDK call is made twice and no warning is logged
    inside the block. *)
Lemma discovered_player_try_trace w s m :
  exists t,
    trace (snd (discovered_player_try w s m)) = (trace m ++ t)%list /\
    NoDup (List.filter is_sdk_call t) /\
    List.filter is_warning_effect t = [].
Proof.
  unfold discovered_player_try, setup_coordinator, modify_data, get_data, put_data,
    bind, emit, lift, ret, add_trace.
  cbn.
  destruct (get_speaker_info w s) as [info|ex]; cbn.
  2:{ eexists. split; [reflexivity|]. cbn. split; [|reflexivity]. nodup_effects. }
  destruct (alarms (data m) !! household_id s); cbn.
  all: try destruct (coordinator_setup w SonosAlarms s) as [[]|ex]; cbn.
  all: try destruct (favorites (data m) !! household_id s); cbn.
  all: try destruct (coordinator_setup w SonosFavorites s) as [[]|ex']; cbn.
  all: try destruct (speaker_setup w _) as [[]|ex'']; cbn.
  all: rewrite <- ?app_assoc; cbn.
  all: eexists; (split; [reflexivity|]); cbn; (split; [|reflexivity]); nodup_effects.
Qed.

(** ** The branches of [_async_create_discovered_player] *)

Lemma app_cons_assoc {A} (l : list A) (x : A) (l' : list A) :
  ((l ++ [x]) ++ l' = l ++ x :: l')%list.
Proof. now rewrite <- app_assoc. Qed.

Lemma coroutine_new w k ip boot m :
  od_mem k (discovered (data m)) = false ->
  _async_create_discovered_player w k ip boot m = with_lock (_discovered_ip w ip) m.
Proof.
  intros H. unfold _async_create_discovered_player, with_lock, acquire, bind,
    get_data, emit, set_lock. cbn. now rewrite H.
Qed.

Lemma coroutine_seen w k ip boot m :
  od_mem k (discovered (data m)) = true ->
  rebooted (data m) k boot = Ok false ->
  _async_create_discovered_player w k ip boot m =
  (Ok tt, released (data m) [Lock_acquire; Dispatch (SONOS_SEEN k); Lock_release] m).
Proof.
  intros H Hr. unfold _async_create_discovered_player, with_lock, acquire, release,
    bind, get_data, emit, set_lock, lift, released, add_trace. cbn.
  rewrite H, Hr. cbn. now rewrite !app_cons_assoc.
Qed.

Lemma coroutine_raise w k ip boot m e :
  od_mem k (discovered (data m)) = true ->
  rebooted (data m) k boot = Raise e ->
  _async_create_discovered_player w k ip boot m =
  (Raise e, released (data m) [Lock_acquire; Lock_release] m).
Proof.
  intros H Hr. unfold _async_create_discovered_player, with_lock, acquire, release,
    bind, get_data, emit, set_lock, lift, released, add_trace. cbn.
  rewrite H, Hr. cbn. now rewrite !app_cons_assoc.
Qed.

Lemma coroutine_reboot w k ip boot m :
  od_mem k (discovered (data m)) = true ->
  rebooted (data m) k boot = Ok true ->
  let d' := with_boot_count k (int_or_zero boot) (data m) in
  _async_create_discovered_player w k ip boot m =
  match pysonos_SoCo w ip with
  | Ok s =>
      (Ok tt, released d'
                [Lock_acquire; Call_SoCo ip; Dispatch (SONOS_REBOOTED k s); Lock_release] m)
  | Raise ex =>
      if handled ex
      then (Ok tt, released d'
                     [Lock_acquire; Call_SoCo ip;
                      Log (Warn_failed_to_connect REBOOTED ip ex); Lock_release] m)
      else (Raise ex, released d' [Lock_acquire; Call_SoCo ip; Lock_release] m)
  end.
Proof.
  intros H Hr d'. subst d'.
  unfold _async_create_discovered_player, with_lock, acquire, release, _create_soco,
    try_except, modify_data, bind, get_data, put_data, emit, set_lock, lift, ret,
    released, with_boot_count, add_trace. cbn.
  rewrite H, Hr. cbn.
  destruct (pysonos_SoCo w ip) as [s|ex]; [|destruct (handled ex)]; cbn;
    now rewrite !app_cons_assoc.
Qed.

Lemma with_lock_run {A} (body : M A) m :
  with_lock body m =
  (fst (body (snd (acquire m))), snd (release (snd (body (snd (acquire m)))))).
Proof.
  unfold with_lock. rewrite bind_run. cbn [acquire bind emit set_lock fst snd].
  now destruct (body _).
Qed.

Lemma discovered_ip_run w ip m :
  _discovered_ip w ip m =
  match pysonos_SoCo w ip with
  | Ok s =>
      if is_visible s then _discovered_player w s (add_trace [Call_SoCo ip] m)
      else (Ok tt, add_trace [Call_SoCo ip] m)
  | Raise ex =>
      if handled ex
      then (Ok tt, add_trace [Call_SoCo ip; Log (Warn_failed_to_connect DISCOVERED ip ex)] m)
      else (Raise ex, add_trace [Call_SoCo ip] m)
  end.
Proof.
  unfold _discovered_ip. rewrite bind_run, create_soco_run.
  destruct (pysonos_SoCo w ip) as [s|ex]; [|destruct (handled ex)]; try reflexivity.
  now destruct (is_visible s).
Qed.

Lemma discovered_player_no_info w s m ex :
  get_speaker_info w s = Raise ex ->
  _discovered_player w s m =
  if handled ex
  then (Ok tt, add_trace [Call_get_speaker_info s; Log (Warn_failed_to_add s)] m)
  else (Raise ex, add_trace [Call_get_speaker_info s] m).
Proof.
  intros H. unfold _discovered_player, discovered_player_try, try_except, bind,
    emit, lift. cbn. rewrite H. destruct (handled ex); [|reflexivity].
  now rewrite add_trace_app.
Qed.

(** Once the speaker information is read the record is stored, whatever
    happens to the set-up calls that follow. *)
Lemma discovered_player_stores w s info m :
  get_speaker_info w s = Ok info ->
  discovered (data (snd (_discovered_player w s m))) =
  od_set (uid s) (mkSpeaker s info) (discovered (data m)).
Proof.
  intros H.
  unfold _discovered_player, discovered_player_try, setup_coordinator, try_except,
    modify_data, get_data, put_data, bind, emit, lift, ret, add_trace.
  cbn. rewrite H. cbn.
  destruct (alarms (data m) !! household_id s); cbn.
  all: try destruct (coordinator_setup w SonosAlarms s) as [[]|ex]; cbn.
  all: try destruct (favorites (data m) !! household_id s); cbn.
  all: try destruct (coordinator_setup w SonosFavorites s) as [[]|ex']; cbn.
  all: try destruct (speaker_setup w _) as [[]|ex'']; cbn.
  all: repeat match goal with |- context [handled ?e] => destruct (handled e); cbn end.
  all: reflexivity.
Qed.

(** C3: a failure of the SDK or the network with [OSError] or
    [SoCoException] is caught where the device is created.  [_create_soco]
    then makes its one call, logs one warning and returns [None];
    [_discovered_player] logs one warning after the failed [try] block and
    returns.  Neither propagates the exception, and no SDK call is made a
    second time: the discovery of an unknown identifier whose device does not
    answer ends, with the lock released, after that one call and that one
    warning. *)
Theorem creation_failure_is_caught (w : World) (ex : exn) :
  ex = OSError \/ ex = SoCoException ->
  (forall ip source m,
     pysonos_SoCo w ip = Raise ex ->
     _create_soco w ip source m =
     (Ok None,
      add_trace [Call_SoCo ip; Log (Warn_failed_to_connect source ip ex)] m)) /\
  (forall s m m',
     discovered_player_try w s m = (Raise ex, m') ->
     _discovered_player w s m = (Ok tt, add_trace [Log (Warn_failed_to_add s)] m') /\
     exists t,
       trace m' = (trace m ++ t)%list /\
       NoDup (List.filter is_sdk_call t) /\
       List.filter is_warning_effect t = []) /\
  (forall k ip boot m,
     pysonos_SoCo w ip = Raise ex ->
     od_mem k (discovered (data m)) = false ->
     _async_create_discovered_player w k ip boot m =
     (Ok tt,
      released (data m)
        [Lock_acquire; Call_SoCo ip;
         Log (Warn_failed_to_connect DISCOVERED ip ex); Lock_release] m)).
Proof.
  intros Hex.
  assert (Hh : handled ex = true) by (destruct Hex; subst; reflexivity).
  split; [|split].
  - intros ip source m H. rewrite create_soco_run, H, Hh. reflexivity.
  - intros s m m' H. split.
    + unfold _discovered_player, try_except. rewrite H, Hh. reflexivity.
    + pose proof (discovered_player_try_trace w s m) as Ht.
      rewrite H in Ht. exact Ht.
  - intros k ip boot m H Hk. rewrite coroutine_new by exact Hk.
    rewrite with_lock_run, discovered_ip_run, H, Hh.
    unfold released, release, acquire, bind, emit, set_lock, add_trace. cbn.
    now rewrite <- !app_assoc.
Qed.

Lemma creation_failure_is_caught_witness :
  (OSError = OSError \/ OSError = SoCoException) /\
  _create_soco Examples.world_down "192.168.1.10" DISCOVERED Examples.manager_kitchen =
  (Ok None,
   add_trace [Call_SoCo "192.168.1.10";
              Log (Warn_failed_to_connect DISCOVERED "192.168.1.10" OSError)]
     Examples.manager_kitchen) /\
  _discovered_player Examples.world_down Examples.kitchen Examples.manager_kitchen =
  (Ok tt,
   add_trace [Log (Warn_failed_to_add Examples.kitchen)]
     (add_trace [Call_get_speaker_info Examples.kitchen] Examples.manager_kitchen)).
Proof.
  split; [now left|]. split.
  - apply (proj1 (creation_failure_is_caught Examples.world_down OSError
                    (or_introl eq_refl))).
    reflexivity.
  - apply (proj1 (proj2 (creation_failure_is_caught Examples.world_down SoCoException
                           (or_intror eq_refl)))).
    reflexivity.
Defined.

(** ** What a failed attempt leaves behind *)

Lemma rebooted_intro d k n stored :
  n <> 0 -> boot_counts d !! k = Some stored -> stored < n ->
  rebooted d k (PyInt n) = Ok true.
Proof.
  intros Hn Hs Hlt. unfold rebooted. cbn.
  destruct (Z.eqb_spec n 0) as [->|_]; [easy|]. cbn. rewrite Hs.
  f_equal. now apply Z.ltb_lt.
Qed.

(** C4, as stated, fails: the kitchen speaker is known with boot count 3, a
    discovery with boot sequence number 5 arrives and the device does not
    answer.  The attempt fails with a warning, yet the stored boot count is
    5 afterwards. *)
Lemma failed_reboot_attempt_changes_boot_counts :
  let m := Examples.manager_kitchen in
  let r := _async_create_discovered_player Examples.world_down
             "RINCON_A" "192.168.1.20" (PyInt 5) m in
  pysonos_SoCo Examples.world_down "192.168.1.20" = Raise OSError /\
  fst r = Ok tt /\
  In (Log (Warn_failed_to_connect REBOOTED "192.168.1.20" OSError)) (trace (snd r)) /\
  boot_counts (data m) !! "RINCON_A" = Some 3 /\
  boot_counts (data (snd r)) !! "RINCON_A" = Some 5 /\
  data (snd r) <> data m.
Proof.
  cbv zeta. repeat split; try reflexivity.
  - vm_compute. tauto.
  - intros H.
    apply (f_equal (fun d => boot_counts d !! "RINCON_A")) in H.
    vm_compute in H. discriminate.
Qed.

(** C4, amended: when the device does not answer ([pysonos.SoCo] raises
    [OSError] or [SoCoException]), a discovery of an unknown identifier
    leaves the data as it was; a discovery taken for a reboot leaves the
    device records as they were, but the boot count of the identifier has
    already been set to the one of the event.  When [_discovered_player]
    fails at [get_speaker_info] the data is as it was. *)
Theorem failed_creation_keeps_records (w : World) (ex : exn) :
  ex = OSError \/ ex = SoCoException ->
  (forall k ip boot m,
     pysonos_SoCo w ip = Raise ex ->
     let r := _async_create_discovered_player w k ip boot m in
     (od_mem k (discovered (data m)) = false ->
      fst r = Ok tt /\ data (snd r) = data m) /\
     (od_mem k (discovered (data m)) = true ->
      forall n stored,
        boot = PyInt n -> n <> 0 ->
        boot_counts (data m) !! k = Some stored -> stored < n ->
        fst r = Ok tt /\ data (snd r) = with_boot_count k n (data m))) /\
  (forall s m,
     get_speaker_info w s = Raise ex ->
     data (snd (_discovered_player w s m)) = data m).
Proof.
  intros Hex.
  assert (Hh : handled ex = true) by (destruct Hex; subst; reflexivity).
  split.
  - intros k ip boot m Hw r. subst r. split.
    + intros Hk. rewrite coroutine_new by exact Hk.
      rewrite with_lock_run, discovered_ip_run, Hw, Hh. now split.
    + intros Hk n stored -> Hn Hs Hlt.
      rewrite coroutine_reboot by (try exact Hk; eapply rebooted_intro; eassumption).
      rewrite Hw, Hh. now split.
  - intros s m Hi. rewrite (discovered_player_no_info w s m ex Hi), Hh. reflexivity.
Qed.

Lemma failed_creation_keeps_records_witness :
  (OSError = OSError \/ OSError = SoCoException) /\
  data (snd (_async_create_discovered_player Examples.world_down
               "RINCON_A" "192.168.1.20" (PyInt 5) Examples.manager_kitchen)) =
  with_boot_count "RINCON_A" 5 (data Examples.manager_kitchen).
Proof.
  split; [now left|].
  destruct (proj1 (failed_creation_keeps_records Examples.world_down OSError
                     (or_introl eq_refl))
              "RINCON_A" "192.168.1.20" (PyInt 5) Examples.manager_kitchen eq_refl)
    as [_ H].
  apply (H eq_refl 5 3); [reflexivity|lia|reflexivity|lia].
Defined.

(** ** The decision taken for a discovery *)

Lemma rebooted_false d k boot :
  (truthy boot = true ->
   (exists n, boot = PyInt n) /\ is_Some (boot_counts d !! k)) ->
  ~ (exists n stored,
       boot = PyInt n /\ n <> 0 /\ boot_counts d !! k = Some stored /\ stored < n) ->
  rebooted d k boot = Ok false.
Proof.
  intros Hwf Hno. unfold rebooted. destruct (truthy boot) eqn:Ht; [|reflexivity].
  destruct (Hwf eq_refl) as [[n ->] [stored Hs]]. rewrite Hs. f_equal.
  destruct (Z.ltb_spec stored n) as [Hlt|_]; [|reflexivity].
  exfalso. apply Hno. exists n, stored. repeat split; try assumption.
  intros ->. discriminate.
Qed.

(** What the creation job leaves in the records: the record of the device
    that answers, is visible and gives its speaker information, under the
    identifier the device reports; the records as they were in every other
    case. *)
Lemma discovered_ip_records w ip m :
  discovered (data (snd (_discovered_ip w ip m))) =
  match pysonos_SoCo w ip with
  | Ok s =>
      if is_visible s then
        match get_speaker_info w s with
        | Ok info => od_set (uid s) (mkSpeaker s info) (discovered (data m))
        | Raise _ => discovered (data m)
        end
      else discovered (data m)
  | Raise _ => discovered (data m)
  end.
Proof.
  rewrite discovered_ip_run.
  destruct (pysonos_SoCo w ip) as [s|ex]; [|now destruct (handled ex)].
  destruct (is_visible s); [|reflexivity].
  destruct (get_speaker_info w s) as [info|ex] eqn:Hi.
  - now rewrite (discovered_player_stores w s info _ Hi).
  - rewrite (discovered_player_no_info w s _ ex Hi). now destruct (handled ex).
Qed.

(** C1, as stated, fails: an identifier without a record does not always
    get one.  When no device answers at the address of the discovery, and
    when the device that answers is not visible, the coroutine returns with
    the records as they were; when the device reports another identifier
    than the discovery, the record is stored under the reported one. *)
Lemma unknown_identifier_gets_no_record :
  let down :=
    _async_create_discovered_player Examples.world_down
      "RINCON_A" "192.168.1.10" PyNone Examples.manager_fresh in
  let hidden :=
    _async_create_discovered_player Examples.world_bridge
      "RINCON_B" "192.168.1.30" PyNone Examples.manager_fresh in
  let renamed :=
    _async_create_discovered_player Examples.world_up
      "RINCON_OLD" "192.168.1.10" PyNone Examples.manager_fresh in
  ~ In "RINCON_A" (od_keys (discovered (data Examples.manager_fresh))) /\
  fst down = Ok tt /\ discovered (data (snd down)) = [] /\
  fst hidden = Ok tt /\ discovered (data (snd hidden)) = [] /\
  fst renamed = Ok tt /\
  od_get "RINCON_OLD" (discovered (data (snd renamed))) = None.
Proof. cbv zeta. split; [now intros []|]. repeat split; reflexivity. Qed.

(** C1, amended: a discovery handled by [_async_create_discovered_player],
    its boot sequence number being an integer with a stored count when it is
    truthy (which [async_discovered_player] sees to).  If the identifier has
    no device record, the creation job [_discovered_ip] is run under the
    lock: a record is created exactly when the device at the address
    answers, is visible and gives its speaker information, and it is stored
    under the identifier the device reports; in every other case the
    records stay as they were.  If the identifier is known and the event
    carries a boot sequence number greater than the stored count, the event
    is a reboot: the count is raised, a handle is created and
    [SONOS_REBOOTED] is sent with it.  Otherwise only [SONOS_SEEN] is sent
    and the data is untouched. *)
Theorem discovery_decision (w : World) (k ip : string) (boot : pyval) (m : Manager) :
  (truthy boot = true ->
   (exists n, boot = PyInt n) /\ is_Some (boot_counts (data m) !! k)) ->
  let r := _async_create_discovered_player w k ip boot m in
  (~ In k (od_keys (discovered (data m))) ->
   r = with_lock (_discovered_ip w ip) m /\
   discovered (data (snd r)) =
     match pysonos_SoCo w ip with
     | Ok s =>
         if is_visible s then
           match get_speaker_info w s with
           | Ok info => od_set (uid s) (mkSpeaker s info) (discovered (data m))
           | Raise _ => discovered (data m)
           end
         else discovered (data m)
     | Raise _ => discovered (data m)
     end /\
   forall s info,
     pysonos_SoCo w ip = Ok s -> is_visible s = true ->
     get_speaker_info w s = Ok info ->
     od_get (uid s) (discovered (data (snd r))) = Some (mkSpeaker s info)) /\
  (In k (od_keys (discovered (data m))) ->
   forall n stored,
     boot = PyInt n -> n <> 0 ->
     boot_counts (data m) !! k = Some stored -> stored < n ->
     boot_counts (data (snd r)) !! k = Some n /\
     trace (snd r) =
       (trace m ++ [Lock_acquire; Call_SoCo ip] ++
        match pysonos_SoCo w ip with
        | Ok s => [Dispatch (SONOS_REBOOTED k s)]
        | Raise ex =>
            if handled ex then [Log (Warn_failed_to_connect REBOOTED ip ex)] else []
        end ++ [Lock_release])%list) /\
  (In k (od_keys (discovered (data m))) ->
   ~ (exists n stored,
        boot = PyInt n /\ n <> 0 /\
        boot_counts (data m) !! k = Some stored /\ stored < n) ->
   r = (Ok tt,
        released (data m) [Lock_acquire; Dispatch (SONOS_SEEN k); Lock_release] m)).
Proof.
  intros Hwf r. subst r. repeat split.
  - apply coroutine_new. now apply od_mem_false.
  - rewrite coroutine_new by (now apply od_mem_false).
    rewrite with_lock_run. cbn [snd].
    unfold release, set_lock, emit, bind. cbn [snd data add_trace].
    now rewrite discovered_ip_records.
  - intros s info Hs Hv Hi.
    rewrite coroutine_new by (now apply od_mem_false).
    rewrite with_lock_run, discovered_ip_run, Hs, Hv. cbn [snd release bind].
    unfold release, set_lock, emit, bind. cbn [snd data add_trace].
    rewrite (discovered_player_stores w s info _ Hi). apply od_get_set_eq.
  - apply od_mem_In in H.
    rewrite coroutine_reboot by (try exact H; subst; eapply rebooted_intro; eassumption).
    subst boot. cbn [int_or_zero].
    destruct (pysonos_SoCo w ip) as [s|ex]; [|destruct (handled ex)]; cbn;
      apply lookup_insert_eq.
  - apply od_mem_In in H.
    rewrite coroutine_reboot by (try exact H; subst; eapply rebooted_intro; eassumption).
    destruct (pysonos_SoCo w ip) as [s|ex]; [|destruct (handled ex)]; reflexivity.
  - intros Hk Hno. apply od_mem_In in Hk.
    apply coroutine_seen; [exact Hk|]. now apply rebooted_false.
Qed.

(** The three branches at work: a new speaker gets its record, a boot
    sequence number above the stored count raises the count, and a known
    speaker without one is only marked as seen. *)
Lemma discovery_decision_witness :
  (truthy (PyInt 5) = true ->
   (exists n, PyInt 5 = PyInt n) /\
   is_Some (boot_counts (data Examples.manager_kitchen) !! "RINCON_A")) /\
  discovered
    (data (snd (_async_create_discovered_player Examples.world_up
                  "RINCON_A" "192.168.1.10" PyNone Examples.manager_fresh))) =
    [("RINCON_A", Examples.kitchen_speaker)] /\
  boot_counts
    (data (snd (_async_create_discovered_player Examples.world_up
                  "RINCON_A" "192.168.1.20" (PyInt 5) Examples.manager_kitchen)))
    !! "RINCON_A" = Some 5 /\
  _async_create_discovered_player Examples.world_up
    "RINCON_A" "192.168.1.20" PyNone Examples.manager_kitchen =
  (Ok tt,
   released (data Examples.manager_kitchen)
     [Lock_acquire; Dispatch (SONOS_SEEN "RINCON_A"); Lock_release]
     Examples.manager_kitchen).
Proof.
  assert (Hwf : truthy (PyInt 5) = true ->
                (exists n, PyInt 5 = PyInt n) /\
                is_Some (boot_counts (data Examples.manager_kitchen) !! "RINCON_A")).
  { intros _. split; [now exists 5|now exists 3]. }
  split; [exact Hwf|]. split; [|split].
  - destruct (discovery_decision Examples.world_up "RINCON_A" "192.168.1.10" PyNone
                Examples.manager_fresh ltac:(discriminate)) as (H & _).
    destruct (H ltac:(now intros [])) as (_ & -> & _). reflexivity.
  - destruct (discovery_decision Examples.world_up "RINCON_A" "192.168.1.20" (PyInt 5)
                Examples.manager_kitchen Hwf) as (_ & H & _).
    apply (H (or_introl eq_refl) 5 3); [reflexivity|lia|reflexivity|lia].
  - destruct (discovery_decision Examples.world_up "RINCON_A" "192.168.1.20" PyNone
                Examples.manager_kitchen ltac:(discriminate)) as (_ & _ & H).
    apply H; [now left|]. intros (n & stored & Hb & _). discriminate Hb.
Defined.

(** C7, as stated, fails: the kitchen speaker is known with boot count 3 and
    comes back at another address with boot sequence number 5.  The event is
    a reboot and a new handle is created, but the record stored for the
    identifier is the old one, built from the old handle. *)
Lemma reboot_keeps_the_stored_record :
  let m := Examples.manager_kitchen in
  let r := _async_create_discovered_player Examples.world_up
             "RINCON_A" "192.168.1.20" (PyInt 5) m in
  rebooted (data m) "RINCON_A" (PyInt 5) = Ok true /\
  In (Dispatch (SONOS_REBOOTED "RINCON_A" Examples.kitchen_moved)) (trace (snd r)) /\
  od_get "RINCON_A" (discovered (data (snd r))) = Some Examples.kitchen_speaker /\
  soco Examples.kitchen_speaker <> Examples.kitchen_moved.
Proof.
  cbv zeta. repeat split; try reflexivity.
  - vm_compute. tauto.
  - discriminate.
Qed.

(** C7, amended: for a discovery taken for a reboot the device records stay
    as they are; the stored boot count becomes the one of the event, a new
    handle is created with source [REBOOTED] and, when that succeeds, the
    signal [SONOS_REBOOTED] for the identifier is sent with the new handle. *)
Theorem reboot_is_signalled (w : World) (k ip : string) (n stored : Z) (m : Manager) :
  In k (od_keys (discovered (data m))) ->
  n <> 0 ->
  boot_counts (data m) !! k = Some stored ->
  stored < n ->
  let r := _async_create_discovered_player w k ip (PyInt n) m in
  discovered (data (snd r)) = discovered (data m) /\
  boot_counts (data (snd r)) = <[k := n]> (boot_counts (data m)) /\
  forall s,
    pysonos_SoCo w ip = Ok s ->
    r = (Ok tt,
         released (with_boot_count k n (data m))
           [Lock_acquire; Call_SoCo ip; Dispatch (SONOS_REBOOTED k s); Lock_release] m).
Proof.
  intros Hk Hn Hs Hlt r. subst r. apply od_mem_In in Hk.
  rewrite coroutine_reboot by (try exact Hk; eapply rebooted_intro; eassumption).
  cbn [int_or_zero].
  destruct (pysonos_SoCo w ip) as [s|ex]; [|destruct (handled ex)]; cbn;
    repeat split; try reflexivity; try discriminate.
  intros s' H. injection H as <-. reflexivity.
Qed.

Lemma reboot_is_signalled_witness :
  In "RINCON_A" (od_keys (discovered (data Examples.manager_kitchen))) /\
  5 <> 0 /\
  boot_counts (data Examples.manager_kitchen) !! "RINCON_A" = Some 3 /\
  3 < 5 /\
  discovered
    (data (snd (_async_create_discovered_player Examples.world_up
                  "RINCON_A" "192.168.1.20" (PyInt 5) Examples.manager_kitchen))) =
  discovered (data Examples.manager_kitchen).
Proof.
  assert (H1 : In "RINCON_A" (od_keys (discovered (data Examples.manager_kitchen))))
    by (now left).
  assert (H2 : 5 <> 0) by lia.
  assert (H3 : boot_counts (data Examples.manager_kitchen) !! "RINCON_A" = Some 3)
    by reflexivity.
  assert (H4 : 3 < 5) by lia.
  split; [exact H1|]. split; [exact H2|]. split; [exact H3|]. split; [exact H4|].
  apply (reboot_is_signalled Examples.world_up "RINCON_A" "192.168.1.20" 5 3
           Examples.manager_kitchen H1 H2 H3 H4).
Defined.

(** ** Configured hosts *)

Lemma outside_the_lock_refl m : outside_the_lock m m.
Proof.
  repeat split. exists []. split; [now rewrite app_nil_r|constructor].
Qed.

Lemma outside_the_lock_trans a b c :
  outside_the_lock a b -> outside_the_lock b c -> outside_the_lock a c.
Proof.
  intros (B1 & K1 & L1 & T1 & t1 & E1 & F1) (B2 & K2 & L2 & T2 & t2 & E2 & F2).
  repeat split; try congruence.
  exists (t1 ++ t2)%list. split.
  - rewrite E2, E1. now rewrite app_assoc.
  - apply Forall_app. now split.
Qed.

Lemma outside_the_lock_data m m' :
  boot_counts (data m') = boot_counts (data m) ->
  discovery_known (data m') = discovery_known (data m) ->
  discovery_lock m' = discovery_lock m ->
  tasks m' = tasks m ->
  trace m' = trace m ->
  outside_the_lock m m'.
Proof.
  intros B K L T E. repeat split; try assumption.
  exists []. split; [now rewrite app_nil_r|constructor].
Qed.

Lemma manual_hosts_outside_the_lock w m : outside_the_lock m (snd (_manual_hosts w m)).
Proof.
  apply preserves_manual_hosts.
  - apply outside_the_lock_refl.
  - apply outside_the_lock_trans.
  - intros e He m0. repeat split. exists [e]. split; [reflexivity|].
    constructor; [exact He|constructor].
  - intros k v m0. now apply outside_the_lock_data.
  - intros c k v m0. apply outside_the_lock_data; now destruct c.
  - intros b m0. now apply outside_the_lock_data.
Qed.

Lemma manual_host_run w host m :
  manual_host w host m =
  match gethostbyname w host with
  | Raise e => (Raise e, add_trace [Call_gethostbyname host] m)
  | Ok ip =>
      match known_uid_of ip (discovered (data m)) with
      | Some u =>
          if str_truthy u
          then (Ok tt, add_trace [Call_gethostbyname host; Dispatch (SONOS_SEEN u)] m)
          else configured_player w ip (add_trace [Call_gethostbyname host] m)
      | None => configured_player w ip (add_trace [Call_gethostbyname host] m)
      end
  end.
Proof.
  unfold manual_host, bind, emit, lift, get_data. cbn.
  destruct (gethostbyname w host) as [ip|e]; [|reflexivity]. cbn.
  destruct (known_uid_of ip (discovered (data m))) as [u|]; [|reflexivity].
  destruct (str_truthy u); [|reflexivity]. now rewrite add_trace_app.
Qed.




(** ** The boot count is there when it is looked up *)

Lemma tasks_ready_mono m m' :
  tasks m' = tasks m ->
  (forall k, is_Some (boot_counts (data m) !! k) -> is_Some (boot_counts (data m') !! k)) ->
  keeps_tasks_ready m m'.
Proof.
  intros Ht Hb H. unfold tasks_ready in *. rewrite Ht.
  eapply Forall_impl; [exact H|]. intros t Hr Htr.
  destruct (Hr Htr) as [Hn Hs]. split; [exact Hn|]. now apply Hb.
Qed.

Lemma tasks_ready_frame m m' :
  tasks m' = tasks m -> boot_counts (data m') = boot_counts (data m) ->
  keeps_tasks_ready m m'.
Proof. intros Ht Hb. apply tasks_ready_mono; [exact Ht|]. now rewrite Hb. Qed.

Lemma keeps_tasks_ready_refl m : keeps_tasks_ready m m.
Proof. now intros H. Qed.

Lemma keeps_tasks_ready_trans a b c :
  keeps_tasks_ready a b -> keeps_tasks_ready b c -> keeps_tasks_ready a c.
Proof. unfold keeps_tasks_ready. tauto. Qed.

Lemma keeps_tasks_ready_emit e : preserves keeps_tasks_ready (emit e).
Proof. intros m. now apply tasks_ready_frame. Qed.

Lemma keeps_tasks_ready_set_discovered k v :
  preserves keeps_tasks_ready
    (modify_data (fun d => set_discovered (od_set k v (discovered d)) d)).
Proof. intros m. now apply tasks_ready_frame. Qed.

Lemma keeps_tasks_ready_set_coord_dict c k v :
  preserves keeps_tasks_ready
    (modify_data (fun d => set_coord_dict c (<[k := v]> (coord_dict c d)) d)).
Proof. intros m. apply tasks_ready_frame; now destruct c. Qed.

Lemma keeps_tasks_ready_set_hosts_heartbeat b :
  preserves keeps_tasks_ready (modify_data (set_hosts_heartbeat b)).
Proof. intros m. now apply tasks_ready_frame. Qed.

Lemma keeps_tasks_ready_set_lock b : preserves keeps_tasks_ready (set_lock b).
Proof. intros m. now apply tasks_ready_frame. Qed.

Lemma keeps_tasks_ready_set_task_pc i p : preserves keeps_tasks_ready (set_task_pc i p).
Proof.
  intros m H. unfold tasks_ready in *. cbn.
  apply Forall_alter; [exact H|]. intros t _ Ht. exact Ht.
Qed.

Lemma keeps_tasks_ready_reboot k boot m :
  rebooted (data m) k boot = Ok true ->
  keeps_tasks_ready m
    (snd (modify_data
            (fun d => set_boot_counts (<[k := int_or_zero boot]> (boot_counts d)) d) m)).
Proof.
  intros _. apply tasks_ready_mono; [reflexivity|].
  intros k' Hs. rewrite data_modify. cbn [boot_counts set_boot_counts].
  destruct (decide (k = k')) as [->|Hne].
  - rewrite lookup_insert_eq. eauto.
  - now rewrite lookup_insert_ne.
Qed.

(** The callback makes the task it creates ready: [setdefault] comes before
    [create_task]. *)
Lemma keeps_tasks_ready_discovered w source ip k boot model m :
  keeps_tasks_ready m (snd (async_discovered_player w source ip k boot model m)).
Proof.
  intros H. unfold async_discovered_player.
  destruct (opt_in_list model DISCOVERY_IGNORED_MODELS); [exact H|].
  assert (Hnew : forall (d' : SonosData) (boot' : pyval) (t : list effect),
            (forall k', is_Some (boot_counts (data m) !! k') ->
                        is_Some (boot_counts d' !! k')) ->
            task_ready d' (mkTask k ip boot' AtLock) ->
            tasks_ready {| data := d'; hosts := hosts m;
                           discovery_lock := discovery_lock m;
                           tasks := tasks m ++ [mkTask k ip boot' AtLock];
                           trace := t |}).
  { intros d' boot' t Hd Hr. unfold tasks_ready in *. cbn.
    apply Forall_app. split; [|now constructor].
    eapply Forall_impl; [exact H|]. intros t0 Ht0 Htr.
    destruct (Ht0 Htr) as [Hn Hs]. split; [exact Hn|]. now apply Hd. }
  unfold create_task, spawn, modify_data, get_data, put_data, bind, emit, lift, ret,
    add_trace.
  destruct (truthy boot) eqn:Ht; cbn.
  - destruct (py_int w boot) as [n|e]; cbn; [|exact H].
    destruct (bool_decide _); cbn -[setdefault]; apply Hnew.
    all: try (intros k' [x Hx]; cbn -[setdefault]; rewrite setdefault_lookup, Hx; eauto).
    all: intros _; cbn -[setdefault]; split; [now exists n|];
      rewrite setdefault_lookup; destruct (boot_counts (data m) !! k); [eauto|];
      destruct (decide (k = k)); [eauto|contradiction].
  - destruct (bool_decide _); cbn; apply Hnew; try (intros k' Hk'; exact Hk').
    all: intros Htr; cbn in Htr; congruence.
Qed.

Lemma keeps_tasks_ready_step l m : keeps_tasks_ready m (step l m).
Proof.
  destruct l as [e w|i w|w|]; cbn;
    [ apply keeps_tasks_ready_discovered
    | apply (preserves_run_task keeps_tasks_ready)
    | apply (preserves_manual_hosts keeps_tasks_ready)
    | apply (preserves_stop_manual_heartbeat keeps_tasks_ready) ];
  eauto using keeps_tasks_ready_refl, keeps_tasks_ready_trans,
    keeps_tasks_ready_emit, keeps_tasks_ready_set_discovered,
    keeps_tasks_ready_set_coord_dict, keeps_tasks_ready_set_hosts_heartbeat,
    keeps_tasks_ready_set_lock, keeps_tasks_ready_set_task_pc,
    keeps_tasks_ready_reboot.
Qed.

Lemma tasks_ready_run ls m : tasks_ready m -> tasks_ready (run ls m).
Proof.
  revert m. induction ls as [|l ls IH]; intros m H; cbn; [exact H|].
  apply IH. now apply keeps_tasks_ready_step.
Qed.

Lemma task_ready_rebooted d t :
  task_ready d t -> exists b, rebooted d (task_uid t) (task_boot_seqnum t) = Ok b.
Proof.
  intros H. unfold rebooted, task_ready in *.
  destruct (truthy (task_boot_seqnum t)); [|eauto].
  destruct (H eq_refl) as [[n ->] [stored ->]]. eauto.
Qed.

(** C8: in every state the manager can reach, each creation task whose boot
    sequence number is truthy has an entry for its identifier in
    [boot_counts], so the test [boot_seqnum and boot_seqnum >
    self.data.boot_counts[uid]] yields a truth value and raises neither
    [KeyError] nor [TypeError], whenever the task gets to evaluate it.  Tasks
    are those created by [async_discovered_player]. *)
Theorem boot_count_lookup_never_fails (ls : list label) (d : SonosData) (hs : list string) :
  let m := run ls (SonosDiscoveryManager_init d hs) in
  Forall
    (fun t =>
       (truthy (task_boot_seqnum t) = true ->
        is_Some (boot_counts (data m) !! task_uid t)) /\
       exists b, rebooted (data m) (task_uid t) (task_boot_seqnum t) = Ok b)
    (tasks m).
Proof.
  intros m.
  assert (H : tasks_ready m).
  { apply tasks_ready_run. unfold tasks_ready. cbn. constructor. }
  eapply Forall_impl; [exact H|]. intros t Hr. split.
  - intros Ht. now destruct (Hr Ht).
  - now apply task_ready_rebooted.
Qed.

Lemma boot_count_lookup_never_fails_witness :
  Forall
    (fun t =>
       (truthy (task_boot_seqnum t) = true ->
        is_Some (boot_counts
                   (data (run Examples.schedule_race Examples.manager_fresh))
                   !! task_uid t)) /\
       exists b,
         rebooted (data (run Examples.schedule_race Examples.manager_fresh))
           (task_uid t) (task_boot_seqnum t) = Ok b)
    (tasks (run Examples.schedule_race Examples.manager_fresh)).
Proof.
  exact (boot_count_lookup_never_fails Examples.schedule_race SonosData_init []).
Defined.

(** ** One creation at a time *)

Lemma constructions_app k t1 t2 :
  constructions k (t1 ++ t2) = (constructions k t1 + constructions k t2)%nat.
Proof. unfold constructions. now rewrite List.filter_app, length_app. Qed.

Lemma quiet_refl m : quiet m m.
Proof. now repeat split. Qed.

Lemma quiet_trans a b c : quiet a b -> quiet b c -> quiet a c.
Proof.
  intros (D1 & T1 & C1) (D2 & T2 & C2).
  split; [congruence|]. split; [congruence|].
  intros k. now rewrite C2, C1.
Qed.

Lemma quiet_add_trace t m :
  (forall k, constructions k t = 0%nat) -> quiet m (add_trace t m).
Proof.
  intros H. split; [reflexivity|]. split; [reflexivity|].
  intros k. cbn. rewrite constructions_app, H. lia.
Qed.

Lemma create_soco_shape w ip source m :
  exists t,
    snd (_create_soco w ip source m) = add_trace t m /\
    forall k, constructions k t = 0%nat.
Proof.
  rewrite create_soco_run.
  destruct (pysonos_SoCo w ip) as [s|ex]; [|destruct (handled ex)];
    eexists; split; try reflexivity; intros k; reflexivity.
Qed.

(** [_discovered_player] either builds no speaker and leaves the records, or
    builds one speaker for the handle and stores it under the identifier of
    the handle. *)
Lemma discovered_player_shape w s m :
  let m' := snd (_discovered_player w s m) in
  discovery_lock m' = discovery_lock m /\
  tasks m' = tasks m /\
  (quiet m m' \/
   exists info,
     discovered (data m') = od_set (uid s) (mkSpeaker s info) (discovered (data m)) /\
     forall k,
       constructions k (trace m') =
       (constructions k (trace m) + if String.eqb (uid s) k then 1 else 0)%nat).
Proof.
  unfold _discovered_player, discovered_player_try, setup_coordinator, try_except,
    modify_data, get_data, put_data, bind, emit, lift, ret, add_trace.
  cbn.
  destruct (get_speaker_info w s) as [info|ex]; cbn.
  2:{ destruct (handled ex); cbn; repeat split; left; repeat split; intros k; cbn;
      rewrite ?constructions_app; unfold constructions; cbn; lia. }
  destruct (alarms (data m) !! household_id s); cbn.
  all: try destruct (coordinator_setup w SonosAlarms s) as [[]|ex]; cbn.
  all: try destruct (favorites (data m) !! household_id s); cbn.
  all: try destruct (coordinator_setup w SonosFavorites s) as [[]|ex']; cbn.
  all: try destruct (speaker_setup w _) as [[]|ex'']; cbn.
  all: repeat match goal with |- context [handled ?e] => destruct (handled e); cbn end.
  all: repeat split; right; exists info; split; [reflexivity|]; intros k;
    rewrite ?constructions_app; unfold constructions; cbn;
    destruct (String.eqb (uid s) k); cbn; lia.
Qed.

Lemma discovered_ip_shape w ip m :
  let m' := snd (_discovered_ip w ip m) in
  discovery_lock m' = discovery_lock m /\
  tasks m' = tasks m /\
  (quiet m m' \/
   exists s info,
     pysonos_SoCo w ip = Ok s /\
     discovered (data m') = od_set (uid s) (mkSpeaker s info) (discovered (data m)) /\
     forall k,
       constructions k (trace m') =
       (constructions k (trace m) + if String.eqb (uid s) k then 1 else 0)%nat).
Proof.
  cbv zeta. rewrite discovered_ip_run.
  destruct (pysonos_SoCo w ip) as [s|ex] eqn:Hw.
  - destruct (is_visible s).
    + destruct (discovered_player_shape w s (add_trace [Call_SoCo ip] m))
        as (L & T & [Q|(info & D & C)]).
      * split; [exact L|]. split; [exact T|]. left.
        eapply quiet_trans; [|exact Q]. now apply quiet_add_trace.
      * split; [exact L|]. split; [exact T|]. right. exists s, info.
        split; [reflexivity|]. split; [exact D|].
        intros k. rewrite C. cbn [trace add_trace]. rewrite constructions_app.
        unfold constructions at 2. cbn. lia.
    + repeat split. left. now apply quiet_add_trace.
  - destruct (handled ex); repeat split; left; now apply quiet_add_trace.
Qed.

(** Entering the critical section: the lock is held afterwards exactly when
    the coroutine stops at an [await]; it stops at the creation job only for
    an identifier without a record. *)
Lemma enter_shape t m :
  exists p,
    fst (enter t m) = Ok p /\
    quiet m (snd (enter t m)) /\
    discovery_lock (snd (enter t m)) = holds_lock p /\
    (p = AwaitDiscoveredIp ->
     od_mem (task_uid t) (discovered (data m)) = false) /\
    (forall r, p <> ResumeDiscoveredIp r) /\
    (forall r, p <> ResumeCreateSoco r).
Proof.
  unfold enter, acquire, release, modify_data, get_data, put_data, bind, emit,
    set_lock, ret.
  cbn.
  destruct (od_mem (task_uid t) (discovered (data m))) eqn:Hk; cbn.
  - destruct (rebooted (data m) (task_uid t) (task_boot_seqnum t)) as [[|]|e]; cbn;
      eexists; (split; [reflexivity|]); cbn;
      repeat split; try discriminate;
      intros k; cbn; rewrite ?constructions_app; unfold constructions; cbn; lia.
  - eexists; (split; [reflexivity|]); cbn.
    repeat split; try discriminate.
    intros k; cbn; rewrite ?constructions_app; unfold constructions; cbn; lia.
Qed.

Lemma resume_shape t m :
  holds_lock (task_pc t) = true ->
  task_pc t <> AwaitDiscoveredIp -> task_pc t <> AwaitCreateSoco ->
  exists p,
    fst (resume t m) = Ok p /\
    holds_lock p = false /\
    p <> AwaitDiscoveredIp /\
    quiet m (snd (resume t m)) /\
    discovery_lock (snd (resume t m)) = false.
Proof.
  intros Hh H1 H2. unfold resume, release, bind, emit, set_lock, ret.
  destruct (task_pc t) as [| |[[]|e]| |[[s|]|e]| |e]; try discriminate;
    try contradiction; cbn;
    eexists; (split; [reflexivity|]); cbn;
    repeat split; try discriminate;
    intros k; cbn; rewrite ?constructions_app; unfold constructions; cbn; lia.
Qed.

(** The discovery callback adds at most one task, waiting at the lock. *)
Lemma discovered_shape w source ip k boot model m :
  let m' := snd (async_discovered_player w source ip k boot model m) in
  discovery_lock m' = discovery_lock m /\
  discovered (data m') = discovered (data m) /\
  (forall k', constructions k' (trace m') = constructions k' (trace m)) /\
  (tasks m' = tasks m \/
   exists b, tasks m' = (tasks m ++ [mkTask k ip b AtLock])%list).
Proof.
  unfold async_discovered_player.
  destruct (opt_in_list model DISCOVERY_IGNORED_MODELS); cbn.
  { repeat split; [|now left]. intros k'. rewrite constructions_app.
    unfold constructions; cbn; lia. }
  unfold create_task, spawn, modify_data, get_data, put_data, bind, emit, lift, ret,
    add_trace.
  destruct (truthy boot); cbn.
  - destruct (py_int w boot) as [n|e]; cbn; [|repeat split; now left].
    destruct (bool_decide _); cbn -[setdefault]; repeat split; eauto;
      intros k'; rewrite ?constructions_app; unfold constructions; cbn; lia.
  - destruct (bool_decide _); cbn; repeat split; eauto;
      intros k'; rewrite ?constructions_app; unfold constructions; cbn; lia.
Qed.

(** What one scheduling of a task does to the lock, the tasks, the records
    and the count of speakers built. *)
Lemma task_step_shape w t m :
  exists p m1,
    task_step w t m = (Ok p, m1) /\
    tasks m1 = tasks m /\
    (holds_lock p = true ->
     (holds_lock (task_pc t) = true /\ discovery_lock m1 = discovery_lock m) \/
     (task_pc t = AtLock /\ discovery_lock m = false /\ discovery_lock m1 = true)) /\
    (holds_lock p = false -> holds_lock (task_pc t) = false ->
     discovery_lock m1 = discovery_lock m \/ discovery_lock m = false) /\
    (p = AwaitDiscoveredIp ->
     task_pc t = AtLock /\ od_mem (task_uid t) (discovered (data m)) = false) /\
    (quiet m m1 \/
     task_pc t = AwaitDiscoveredIp /\
     exists s info,
       pysonos_SoCo w (task_ip t) = Ok s /\
       discovered (data m1) = od_set (uid s) (mkSpeaker s info) (discovered (data m)) /\
       forall k,
         constructions k (trace m1) =
         (constructions k (trace m) + if String.eqb (uid s) k then 1 else 0)%nat).
Proof.
  unfold task_step. destruct (task_pc t) as [| |r| |r| |e] eqn:Hpc.
  - (* at the lock *)
    destruct (discovery_lock m) eqn:Hl.
    + exists AtLock, m. repeat split; try discriminate; auto using quiet_refl.
    + destruct (enter_shape t m) as (p & Hf & Q & Lk & Hnew & Hr1 & Hr2).
      destruct (enter t m) as [r m1]. cbn in *. subst r.
      exists p, m1. split; [reflexivity|]. split; [apply Q|].
      split; [|split; [|split]].
      * intros Hp. right. rewrite Lk. auto.
      * intros _ _. now right.
      * intros ->. auto.
      * now left.
  - (* the creation job *)
    unfold executor_job. rewrite Hpc.
    destruct (discovered_ip_shape w (task_ip t) m) as (L & T & S).
    destruct (_discovered_ip w (task_ip t) m) as [r m1]. cbn in *.
    exists (ResumeDiscoveredIp r), m1. split; [reflexivity|]. split; [exact T|].
    split; [|split; [|split]]; try discriminate.
    + intros _. now left.
    + destruct S as [Q|S]; [now left|right]. split; [reflexivity|exact S].
  - (* after the creation job *)
    destruct (resume_shape t m) as (p & Hf & Hh & Hne & Q & Lk);
      try (rewrite Hpc; first [reflexivity|discriminate]).
    destruct (resume t m) as [r' m1]. cbn in *. subst r'.
    exists p, m1. split; [reflexivity|]. split; [apply Q|].
    split; [|split; [|split]]; try congruence. now left.
  - (* the handle job of a reboot *)
    unfold executor_job. rewrite Hpc.
    destruct (create_soco_shape w (task_ip t) REBOOTED m) as (tr & E & C).
    destruct (_create_soco w (task_ip t) REBOOTED m) as [r m1]. cbn in *. subst m1.
    exists (ResumeCreateSoco r), (add_trace tr m). split; [reflexivity|].
    split; [reflexivity|]. split; [|split; [|split]]; try discriminate.
    + intros _. now left.
    + left. now apply quiet_add_trace.
  - (* after the handle job *)
    destruct (resume_shape t m) as (p & Hf & Hh & Hne & Q & Lk);
      try (rewrite Hpc; first [reflexivity|discriminate]).
    destruct (resume t m) as [r' m1]. cbn in *. subst r'.
    exists p, m1. split; [reflexivity|]. split; [apply Q|].
    split; [|split; [|split]]; try congruence. now left.
  - exists Done, m. repeat split; try discriminate; auto using quiet_refl.
  - exists (Failed e), m. repeat split; try discriminate; auto using quiet_refl.
Qed.

Lemma in_critical_section_set_pc p t :
  in_critical_section (set_pc p t) = holds_lock p.
Proof. reflexivity. Qed.

Lemma lookup_alter_set_pc (l : list Task) i j p t' :
  alter (set_pc p) i l !! j = Some t' ->
  (i = j /\ exists t, l !! i = Some t /\ t' = set_pc p t) \/
  (i <> j /\ l !! j = Some t').
Proof.
  destruct (decide (i = j)) as [<-|Hne].
  - rewrite list_lookup_alter_eq. destruct (l !! i) as [t|]; cbn; [|discriminate].
    intros H. injection H as <-. left. eauto.
  - rewrite list_lookup_alter_ne by exact Hne. auto.
Qed.

(** Changing the program point of one task keeps mutual exclusion, as long
    as a task enters only when the lock is free and then holds it. *)
Lemma mutual_exclusion_update m m' i t p :
  mutual_exclusion m ->
  tasks m !! i = Some t ->
  tasks m' = alter (set_pc p) i (tasks m) ->
  (holds_lock p = true ->
   (holds_lock (task_pc t) = true /\ discovery_lock m' = discovery_lock m) \/
   (task_pc t = AtLock /\ discovery_lock m = false /\ discovery_lock m' = true)) ->
  (holds_lock p = false -> holds_lock (task_pc t) = false ->
   discovery_lock m' = discovery_lock m \/ discovery_lock m = false) ->
  mutual_exclusion m'.
Proof.
  intros [Hlock Huniq] Hi Ht Henter Hstay.
  assert (Hother : forall j tj,
            i <> j -> tasks m !! j = Some tj -> in_critical_section tj = true ->
            holds_lock (task_pc t) = false /\ discovery_lock m = true).
  { intros j tj Hne Hj Hcs. split; [|now apply (Hlock j tj)].
    destruct (holds_lock (task_pc t)) eqn:Hh; [|reflexivity].
    exfalso. apply Hne. now apply (Huniq i j t tj). }
  split.
  - intros j tj Hj Hcs. rewrite Ht in Hj.
    apply lookup_alter_set_pc in Hj as [[<- (t0 & Ht0 & ->)]|[Hne Hj]].
    + rewrite in_critical_section_set_pc in Hcs.
      destruct (Henter Hcs) as [[Hh ->]|(_ & _ & ->)]; [|reflexivity].
      now apply (Hlock i t).
    + destruct (Hother j tj Hne Hj Hcs) as [Hh Hl].
      destruct (holds_lock p) eqn:Hp.
      * destruct (Henter eq_refl) as [[Hh' _]|(_ & Hl' & _)]; congruence.
      * destruct (Hstay eq_refl Hh) as [->|Hl']; congruence.
  - intros j1 j2 t1 t2 H1 H2 Hc1 Hc2. rewrite Ht in H1, H2.
    apply lookup_alter_set_pc in H1 as [[<- (t0 & Ht0 & ->)]|[Hne1 H1]];
      apply lookup_alter_set_pc in H2 as [[<- (t0' & Ht0' & ->)]|[Hne2 H2]];
      try reflexivity.
    + rewrite in_critical_section_set_pc in Hc1.
      destruct (Hother j2 t2 Hne2 H2 Hc2) as [Hh Hl].
      destruct (Henter Hc1) as [[Hh' _]|(_ & Hl' & _)]; congruence.
    + rewrite in_critical_section_set_pc in Hc2.
      destruct (Hother j1 t1 Hne1 H1 Hc1) as [Hh Hl].
      destruct (Henter Hc2) as [[Hh' _]|(_ & Hl' & _)]; congruence.
    + now apply (Huniq j1 j2 t1 t2).
Qed.

Lemma mutual_exclusion_same m m' :
  discovery_lock m' = discovery_lock m -> tasks m' = tasks m ->
  mutual_exclusion m -> mutual_exclusion m'.
Proof. unfold mutual_exclusion. intros -> ->. tauto. Qed.

Lemma mutual_exclusion_arrival m m' t :
  discovery_lock m' = discovery_lock m ->
  tasks m' = (tasks m ++ [t])%list ->
  in_critical_section t = false ->
  mutual_exclusion m -> mutual_exclusion m'.
Proof.
  intros Hl Ht Hcs [Hlock Huniq]. unfold mutual_exclusion. rewrite Hl, Ht.
  assert (Hold : forall j tj,
            (tasks m ++ [t])%list !! j = Some tj -> in_critical_section tj = true ->
            tasks m !! j = Some tj).
  { intros j tj Hj Hc. apply lookup_app_Some in Hj as [Hj|[_ Hj]]; [exact Hj|].
    apply list_lookup_singleton_Some in Hj as [_ <-]. congruence. }
  split.
  - intros j tj Hj Hc. eauto.
  - intros j1 j2 t1 t2 H1 H2 Hc1 Hc2. eauto.
Qed.

Lemma run_task_shape w i t m :
  tasks m !! i = Some t ->
  exists p m1,
    task_step w t m = (Ok p, m1) /\
    step (Run i w) m = snd (set_task_pc i p m1).
Proof.
  intros Hi. destruct (task_step_shape w t m) as (p & m1 & E & _).
  exists p, m1. split; [exact E|].
  cbn. unfold run_task. rewrite Hi, bind_run, E. reflexivity.
Qed.

Lemma mutual_exclusion_step l m : mutual_exclusion m -> mutual_exclusion (step l m).
Proof.
  intros H. destruct l as [e w|i w|w|].
  - cbn. destruct (discovered_shape w (d_source e) (d_ip e) (d_uid e)
                     (d_boot_seqnum e) (d_model e) m) as (L & _ & _ & [T|[b T]]).
    + now apply (mutual_exclusion_same m).
    + now apply (mutual_exclusion_arrival m _ _ L T).
  - destruct (tasks m !! i) as [t|] eqn:Hi.
    + destruct (task_step_shape w t m) as (p & m1 & E & T & Henter & Hstay & _).
      destruct (run_task_shape w i t m Hi) as (p' & m1' & E' & ->).
      rewrite E in E'. injection E' as <- <-.
      apply (mutual_exclusion_update m _ i t p H Hi).
      * cbn. now rewrite T.
      * exact Henter.
      * exact Hstay.
    + cbn. unfold run_task. rewrite Hi. exact H.
  - cbn. destruct (manual_hosts_outside_the_lock w m) as (_ & _ & L & T & _).
    now apply (mutual_exclusion_same m).
  - cbn. apply (mutual_exclusion_same m); [| |exact H];
      unfold _stop_manual_heartbeat, bind, get_data; cbn;
      now destruct (hosts_heartbeat (data m)).
Qed.

Lemma mutual_exclusion_run ls m : mutual_exclusion m -> mutual_exclusion (run ls m).
Proof.
  revert m. induction ls as [|l ls IH]; intros m H; cbn; [exact H|].
  apply IH. now apply mutual_exclusion_step.
Qed.

Lemma mutual_exclusion_init d hs : mutual_exclusion (SonosDiscoveryManager_init d hs).
Proof. split; cbn; intros; discriminate. Qed.

Lemma od_mem_set_ne {V} k k' (v : V) d :
  k <> k' -> od_mem k (od_set k' v d) = od_mem k d.
Proof.
  intros Hne. destruct (od_mem k d) eqn:E.
  - apply od_mem_In. apply od_keys_set_incl. now apply od_mem_In.
  - apply od_mem_false. apply od_mem_false in E. rewrite od_keys_set.
    destruct (od_mem k' d); [exact E|].
    intros Hin. apply in_app_or in Hin as [Hin|[Heq|[]]]; [now apply E|congruence].
Qed.

Lemma single_construction_quiet m m' :
  discovered (data m') = discovered (data m) ->
  (forall k, constructions k (trace m') = constructions k (trace m)) ->
  (forall i t, tasks m' !! i = Some t -> task_pc t = AwaitDiscoveredIp ->
               od_mem (task_uid t) (discovered (data m)) = false) ->
  single_construction m -> single_construction m'.
Proof.
  intros D C Hwait [_ Hcount]. split.
  - intros i t Hi Hpc. rewrite D. eauto.
  - intros k. rewrite D, C. apply Hcount.
Qed.

Lemma single_construction_step l m :
  mutual_exclusion m -> honest_label l m ->
  single_construction m -> single_construction (step l m).
Proof.
  intros Hmx Hh Hsc. pose proof Hsc as [Hwait Hcount].
  destruct l as [e w|i w|w|].
  - (* a discovery *)
    cbn. destruct (discovered_shape w (d_source e) (d_ip e) (d_uid e)
                     (d_boot_seqnum e) (d_model e) m) as (_ & D & C & T).
    split.
    + intros i t Hi Hpc. rewrite D. destruct T as [T|[b T]]; rewrite T in Hi.
      * eauto.
      * apply lookup_app_Some in Hi as [Hi|[_ Hi]]; [eauto|].
        apply list_lookup_singleton_Some in Hi as [_ <-]. discriminate.
    + intros k. rewrite D, C. apply Hcount.
  - (* a scheduling of task i *)
    destruct (tasks m !! i) as [t|] eqn:Hi.
    2:{ cbn. unfold run_task. now rewrite Hi. }
    destruct (task_step_shape w t m) as (p & m1 & E & T & _ & _ & Hnew & S).
    destruct (run_task_shape w i t m Hi) as (p' & m1' & E' & ->).
    rewrite E in E'. injection E' as <- <-.
    assert (Hlook : forall j tj,
              tasks (snd (set_task_pc i p m1)) !! j = Some tj ->
              (i = j /\ tj = set_pc p t) \/ (i <> j /\ tasks m !! j = Some tj)).
    { intros j tj Hj. cbn in Hj. rewrite T in Hj.
      apply lookup_alter_set_pc in Hj as [[<- (t0 & Ht0 & ->)]|Hj]; [|now right].
      left. split; [reflexivity|]. congruence. }
    destruct S as [Q|(Hpc & s & info & Hw & D & C)].
    + (* no speaker built *)
      destruct Q as (D & _ & C).
      apply (single_construction_quiet m); [exact D|exact C| |exact Hsc].
      intros j tj Hj Hpcj. apply Hlook in Hj as [[<- ->]|[_ Hj]]; [|eauto].
      now apply Hnew.
    + (* the creation job built a speaker *)
      assert (Hu : uid s = task_uid t) by (now apply (Hh t s)).
      assert (Hfresh : od_mem (task_uid t) (discovered (data m)) = false) by eauto.
      split.
      * intros j tj Hj Hpcj. apply Hlook in Hj as [[<- ->]|[Hne Hj]].
        -- cbn in Hpcj. destruct (Hnew Hpcj). congruence.
        -- exfalso. apply Hne. destruct Hmx as [_ Huniq].
           apply (Huniq i j t tj Hi Hj); unfold in_critical_section;
             [now rewrite Hpc|now rewrite Hpcj].
      * intros k. cbn [snd set_task_pc data trace]. rewrite D, C, Hu.
        destruct (String.eqb_spec (task_uid t) k) as [<-|Hne].
        -- destruct (Hcount (task_uid t)) as [_ H0]. rewrite (H0 Hfresh).
           split; [lia|]. rewrite od_mem_set. discriminate.
        -- destruct (Hcount k) as [Hle H0]. split; [lia|].
           rewrite od_mem_set_ne by congruence. intros Hk. rewrite (H0 Hk). lia.
  - contradiction.
  - (* the heartbeat stop *)
    cbn. apply (single_construction_quiet m); [| | |exact Hsc].
    + unfold _stop_manual_heartbeat, bind, get_data; cbn.
      now destruct (hosts_heartbeat (data m)).
    + intros k. unfold _stop_manual_heartbeat, bind, get_data; cbn.
      destruct (hosts_heartbeat (data m)); cbn; [|reflexivity].
      rewrite constructions_app. unfold constructions at 2. cbn. lia.
    + intros i t Hi Hpc. apply (Hwait i t); [|exact Hpc].
      revert Hi. unfold _stop_manual_heartbeat, bind, get_data; cbn.
      now destruct (hosts_heartbeat (data m)).
Qed.

Lemma single_construction_run ls m :
  mutual_exclusion m -> honest_run ls m ->
  single_construction m -> single_construction (run ls m).
Proof.
  revert m. induction ls as [|l ls IH]; intros m Hmx Hh Hsc; cbn; [exact Hsc|].
  destruct Hh as [Hl Hls]. apply IH.
  - now apply mutual_exclusion_step.
  - exact Hls.
  - now apply single_construction_step.
Qed.

Lemma single_construction_init d hs :
  single_construction (SonosDiscoveryManager_init d hs).
Proof.
  split; cbn.
  - intros i t H. discriminate.
  - intros k. unfold constructions. cbn. split; [lia|reflexivity].
Qed.

(** C2: creation is serialized by the one lock.  In every state the manager
    can reach, a task inside [async with self.discovery_lock] holds the lock
    and no two tasks are inside together, whatever the discoveries, the
    scheduling and the answers of the devices.  Hence, when discoveries are
    the only source of devices and a device answering at a discovered address
    has the discovered identifier, at most one [SonosSpeaker] is ever built
    for an identifier, however the tasks for it are interleaved. *)
Theorem discovery_is_serialized (ls : list label) (d : SonosData) (hs : list string) :
  let m0 := SonosDiscoveryManager_init d hs in
  mutual_exclusion (run ls m0) /\
  (honest_run ls m0 ->
   forall k, (constructions k (trace (run ls m0)) <= 1)%nat).
Proof.
  intros m0. split.
  - apply mutual_exclusion_run, mutual_exclusion_init.
  - intros Hh k.
    destruct (single_construction_run ls m0 (mutual_exclusion_init d hs) Hh
                (single_construction_init d hs)) as [_ Hcount].
    apply Hcount.
Qed.

Lemma discovery_is_serialized_witness :
  honest_run Examples.schedule_race Examples.manager_fresh /\
  (constructions "RINCON_A"
     (trace (run Examples.schedule_race Examples.manager_fresh)) <= 1)%nat.
Proof.
  assert (Hw : forall ip s,
            pysonos_SoCo Examples.world_up ip = Ok s -> uid s = "RINCON_A").
  { intros ip s. cbn.
    destruct (String.eqb ip "192.168.1.10"); [intros H; now inversion H|].
    destruct (String.eqb ip "192.168.1.20"); [intros H; now inversion H|].
    discriminate. }
  assert (Hl : forall i m,
            Forall (fun t => task_uid t = "RINCON_A") (tasks m) ->
            honest_label (Run i Examples.world_up) m).
  { intros i m Hall t s Ht Hs. rewrite (Hw _ _ Hs). symmetry.
    eapply Forall_lookup_1 in Hall; [exact Hall|exact Ht]. }
  assert (H : honest_run Examples.schedule_race Examples.manager_fresh).
  { cbn -[step]. repeat split; apply Hl; vm_compute; repeat constructor. }
  split; [exact H|].
  exact (proj2 (discovery_is_serialized Examples.schedule_race
                  SonosData_init []) H "RINCON_A").
Defined.

(** ** The coroutine and its three schedulings

    The jobs handed to the executor read and write only the data and the
    trace, so a task scheduled three times in a row, from a free lock, does
    what [_async_create_discovered_player] does in one piece. *)

Lemma data_command_ret {A} (a : A) : data_command (ret a).
Proof. intros m1 m2 H. now split. Qed.

Lemma data_command_lift {A} (o : outcome A) : data_command (lift o).
Proof. intros m1 m2 H. now split. Qed.

Lemma data_command_emit e : data_command (emit e).
Proof. intros m1 m2 [D T]. repeat split; cbn; congruence. Qed.

Lemma data_command_get_data : data_command get_data.
Proof. intros m1 m2 [D T]. repeat split; cbn; congruence. Qed.

Lemma data_command_modify_data f : data_command (modify_data f).
Proof. intros m1 m2 [D T]. repeat split; cbn; congruence. Qed.

Lemma data_command_bind {A B} (c : M A) (k : A -> M B) :
  data_command c -> (forall a, data_command (k a)) -> data_command (bind c k).
Proof.
  intros Hc Hk m1 m2 H. rewrite !bind_run.
  destruct (Hc m1 m2 H) as [Hf Hs].
  destruct (c m1) as [[a1|e1] m1'], (c m2) as [[a2|e2] m2']; cbn in *;
    try discriminate.
  - injection Hf as <-. now apply Hk.
  - injection Hf as <-. now split.
Qed.

Lemma data_command_try_except {A} (c : M A) (h : exn -> M A) :
  data_command c -> (forall e, data_command (h e)) -> data_command (try_except c h).
Proof.
  intros Hc Hh m1 m2 H. unfold try_except.
  destruct (Hc m1 m2 H) as [Hf Hs].
  destruct (c m1) as [[a1|e1] m1'], (c m2) as [[a2|e2] m2']; cbn in *;
    try discriminate.
  - injection Hf as <-. now split.
  - injection Hf as <-. destruct (handled e1); [now apply Hh|now split].
Qed.

Create HintDb data_commands.

#[local] Hint Resolve data_command_ret data_command_lift data_command_emit
  data_command_get_data data_command_modify_data : data_commands.

#[local] Hint Extern 2 (data_command (bind _ _)) =>
  apply data_command_bind; [|intro] : data_commands.

#[local] Hint Extern 2 (data_command (try_except _ _)) =>
  apply data_command_try_except; [|intro] : data_commands.

Lemma data_command_create_soco w ip source : data_command (_create_soco w ip source).
Proof. unfold _create_soco. auto 10 with data_commands. Qed.

Lemma data_command_setup_coordinator w s c : data_command (setup_coordinator w s c).
Proof.
  unfold setup_coordinator.
  apply data_command_bind; [apply data_command_get_data|]. intros d.
  destruct (coord_dict c d !! household_id s); auto 10 with data_commands.
Qed.

#[local] Hint Resolve data_command_create_soco data_command_setup_coordinator
  : data_commands.

Lemma data_command_discovered_player w s : data_command (_discovered_player w s).
Proof. unfold _discovered_player, discovered_player_try. auto 30 with data_commands. Qed.

Lemma data_command_discovered_ip w ip : data_command (_discovered_ip w ip).
Proof.
  unfold _discovered_ip.
  apply data_command_bind; [apply data_command_create_soco|].
  intros [s|]; [|apply data_command_ret].
  destruct (is_visible s); [apply data_command_discovered_player|apply data_command_ret].
Qed.

Lemma alter_set_pc_twice (l : list Task) i p q :
  alter (set_pc p) i (alter (set_pc q) i l) = alter (set_pc p) i l.
Proof.
  revert i. induction l as [|t l IH]; intros [|i]; cbn; try reflexivity.
  now rewrite IH.
Qed.

Lemma alter_set_pc_same (l : list Task) i t :
  l !! i = Some t -> alter (set_pc (task_pc t)) i l = l.
Proof.
  revert i. induction l as [|t0 l IH]; intros [|i]; cbn; try discriminate.
  - intros H. injection H as ->. now destruct t.
  - intros H. now rewrite IH.
Qed.

Lemma step_run_task w i t s p s1 :
  tasks s !! i = Some t ->
  task_step w t s = (Ok p, s1) ->
  step (Run i w) s = snd (set_task_pc i p s1).
Proof. intros Hi E. cbn. unfold run_task. now rewrite Hi, bind_run, E. Qed.

(** A finished task is not moved by further schedulings. *)
Lemma step_finished w i t s :
  tasks s !! i = Some t ->
  task_pc t = Done \/ (exists e, task_pc t = Failed e) ->
  step (Run i w) s = s.
Proof.
  intros Hi Hpc.
  rewrite (step_run_task w i t s (task_pc t) s Hi).
  - cbn. rewrite (alter_set_pc_same _ _ _ Hi). now destruct s.
  - unfold task_step. destruct Hpc as [->|[e ->]]; reflexivity.
Qed.

Lemma enter_run t m :
  enter t m =
  if od_mem (task_uid t) (discovered (data m)) then
    match rebooted (data m) (task_uid t) (task_boot_seqnum t) with
    | Raise e => (Ok (Failed e), released (data m) [Lock_acquire; Lock_release] m)
    | Ok true =>
        (Ok AwaitCreateSoco,
         snd (modify_data
                (with_boot_count (task_uid t) (int_or_zero (task_boot_seqnum t)))
                (snd (acquire m))))
    | Ok false =>
        (Ok Done,
         released (data m)
           [Lock_acquire; Dispatch (SONOS_SEEN (task_uid t)); Lock_release] m)
    end
  else (Ok AwaitDiscoveredIp, snd (acquire m)).
Proof.
  unfold enter, acquire, release, modify_data, get_data, put_data, bind, emit,
    set_lock, ret, released, with_boot_count, add_trace.
  cbn.
  destruct (od_mem (task_uid t) (discovered (data m))); cbn; [|reflexivity].
  destruct (rebooted (data m) (task_uid t) (task_boot_seqnum t)) as [[|]|e]; cbn;
    try reflexivity; now rewrite !app_cons_assoc.
Qed.

Ltac third_step t' P :=
  match goal with
  | |- context [step (Run ?i' ?w') ?s2] =>
      rewrite (step_run_task w' i' t' s2 P (snd (resume t' s2)))
  end.

(** X15: from a free lock, three schedulings of a task do what the coroutine
    [_async_create_discovered_player] does in one piece: the same data and
    the same effects, the lock free again, and the task at its end, done or
    failed with the exception the coroutine raises. *)
Lemma coroutine_in_three_steps w i t m :
  tasks m !! i = Some t -> task_pc t = AtLock -> discovery_lock m = false ->
  let r := _async_create_discovered_player w (task_uid t) (task_ip t)
             (task_boot_seqnum t) m in
  let m3 := run [Run i w; Run i w; Run i w] m in
  same_data_and_trace m3 (snd r) /\
  discovery_lock m3 = false /\
  tasks m3 = alter (set_pc (final_pc (fst r))) i (tasks m).
Proof.
  intros Hi Hpc Hl r m3. subst r m3. cbn [run fold_left].
  assert (S1 : step (Run i w) m = snd (set_task_pc i (match fst (enter t m) with
                                                       | Ok p => p
                                                       | Raise _ => AtLock
                                                       end) (snd (enter t m)))).
  { apply (step_run_task w i t). exact Hi.
    unfold task_step. rewrite Hpc, Hl.
    destruct (enter_shape t m) as (p & Hf & _). rewrite Hf.
    destruct (enter t m) as [r m1]. cbn in *. now subst r. }
  rewrite S1, enter_run. clear S1.
  destruct (od_mem (task_uid t) (discovered (data m))) eqn:Hk.
  - destruct (rebooted (data m) (task_uid t) (task_boot_seqnum t)) as [[|]|e] eqn:Hr;
      cbn [fst snd].
    + (* a reboot *)
      set (s1 := snd (set_task_pc i AwaitCreateSoco _)).
      assert (H1 : tasks s1 !! i = Some (set_pc AwaitCreateSoco t)).
      { subst s1. cbn. now rewrite list_lookup_alter_eq, Hi. }
      rewrite (step_run_task w i _ s1
                 (ResumeCreateSoco (fst (_create_soco w (task_ip t) REBOOTED s1)))
                 (snd (_create_soco w (task_ip t) REBOOTED s1)) H1).
      2:{ unfold task_step, executor_job. cbn [task_pc set_pc task_ip].
          now destruct (_create_soco w (task_ip t) REBOOTED s1). }
      rewrite (coroutine_reboot w _ (task_ip t) _ m Hk Hr).
      rewrite create_soco_run.
      destruct (pysonos_SoCo w (task_ip t)) as [s|ex]; [|destruct (handled ex)];
        cbn [fst snd].
      * third_step (set_pc (ResumeCreateSoco (Ok (Some s))) t) Done.
        -- subst s1. unfold same_data_and_trace, released, with_boot_count. cbn.
           rewrite !alter_set_pc_twice, <- ?app_assoc. cbn. repeat split.
        -- subst s1. cbn. now rewrite alter_set_pc_twice, list_lookup_alter_eq, Hi.
        -- reflexivity.
      * third_step (set_pc (ResumeCreateSoco (Ok None)) t) Done.
        -- subst s1. unfold same_data_and_trace, released, with_boot_count. cbn.
           rewrite !alter_set_pc_twice, <- ?app_assoc. cbn. repeat split.
        -- subst s1. cbn. now rewrite alter_set_pc_twice, list_lookup_alter_eq, Hi.
        -- reflexivity.
      * third_step (set_pc (ResumeCreateSoco (Raise ex)) t) (Failed ex).
        -- subst s1. unfold same_data_and_trace, released, with_boot_count. cbn.
           rewrite !alter_set_pc_twice, <- ?app_assoc. cbn. repeat split.
        -- subst s1. cbn. now rewrite alter_set_pc_twice, list_lookup_alter_eq, Hi.
        -- reflexivity.
    + (* seen *)
      set (s1 := snd (set_task_pc i Done _)).
      assert (H1 : tasks s1 !! i = Some (set_pc Done t)).
      { subst s1. cbn. now rewrite list_lookup_alter_eq, Hi. }
      rewrite !(step_finished w i _ s1 H1) by (now left).
      rewrite (coroutine_seen w _ (task_ip t) _ m Hk Hr). subst s1.
      repeat split.
    + (* the comparison raises *)
      set (s1 := snd (set_task_pc i (Failed e) _)).
      assert (H1 : tasks s1 !! i = Some (set_pc (Failed e) t)).
      { subst s1. cbn. now rewrite list_lookup_alter_eq, Hi. }
      rewrite !(step_finished w i _ s1 H1) by (right; now exists e).
      rewrite (coroutine_raise w _ (task_ip t) _ m e Hk Hr). subst s1.
      repeat split.
  - (* a new device *)
    cbn [fst snd].
    set (s1 := snd (set_task_pc i AwaitDiscoveredIp _)).
    assert (H1 : tasks s1 !! i = Some (set_pc AwaitDiscoveredIp t)).
    { subst s1. cbn. now rewrite list_lookup_alter_eq, Hi. }
    rewrite (step_run_task w i _ s1
               (ResumeDiscoveredIp (fst (_discovered_ip w (task_ip t) s1)))
               (snd (_discovered_ip w (task_ip t) s1)) H1).
    2:{ unfold task_step, executor_job. cbn [task_pc set_pc task_ip].
        now destruct (_discovered_ip w (task_ip t) s1). }
    rewrite (coroutine_new w _ (task_ip t) _ m Hk), with_lock_run.
    destruct (data_command_discovered_ip w (task_ip t) s1 (snd (acquire m)))
      as (Hf & Hd & Ht); [now split|].
    destruct (discovered_ip_shape w (task_ip t) s1) as (_ & Htasks & _).
    set (r2 := _discovered_ip w (task_ip t) s1) in *.
    set (r0 := _discovered_ip w (task_ip t) (snd (acquire m))) in *.
    set (s2 := snd (set_task_pc i (ResumeDiscoveredIp (fst r2)) (snd r2))).
    assert (H2 : tasks s2 !! i = Some (set_pc (ResumeDiscoveredIp (fst r2)) t)).
    { subst s2. cbn. rewrite Htasks. subst s1. cbn.
      now rewrite alter_set_pc_twice, list_lookup_alter_eq, Hi. }
    rewrite (step_run_task w i _ s2 (final_pc (fst r2))
               (snd (release s2)) H2).
    2:{ unfold task_step, resume. cbn [task_pc set_pc].
        destruct (fst r2) as [[]|e]; reflexivity. }
    cbn [fst snd]. rewrite <- Hf. subst s2. unfold same_data_and_trace. cbn.
    rewrite Htasks. subst s1. cbn. rewrite !alter_set_pc_twice.
    repeat split; congruence.
Qed.

Lemma coroutine_in_three_steps_witness :
  let m := step (Discovered Examples.discovery_kitchen Examples.world_up)
             Examples.manager_fresh in
  let t := mkTask "RINCON_A" "192.168.1.10" (PyInt 3) AtLock in
  tasks m !! 0%nat = Some t /\
  same_data_and_trace
    (run [Run 0 Examples.world_up; Run 0 Examples.world_up; Run 0 Examples.world_up] m)
    (snd (_async_create_discovered_player Examples.world_up "RINCON_A"
            "192.168.1.10" (PyInt 3) m)).
Proof.
  cbv zeta. split; [reflexivity|].
  exact (proj1 (coroutine_in_three_steps Examples.world_up 0
                  (mkTask "RINCON_A" "192.168.1.10" (PyInt 3) AtLock)
                  (step (Discovered Examples.discovery_kitchen Examples.world_up)
                     Examples.manager_fresh)
                  eq_refl eq_refl eq_refl)).
Defined.

(** ** The manager on concrete runs *)

(** One discovery of an unknown speaker: the record is created, the boot
    count is the one of the header, the task is done and the lock free. *)
Example kitchen_is_created :
  let m := run Examples.schedule_kitchen Examples.manager_fresh in
  discovered (data m) = [("RINCON_A", Examples.kitchen_speaker)] /\
  boot_counts (data m) !! "RINCON_A" = Some 3 /\
  List.map task_pc (tasks m) = [Done] /\
  discovery_lock m = false.
Proof. cbv zeta. repeat split; reflexivity. Qed.

(** Two discoveries racing: the second task gets the lock after the first
    has stored the record, and only marks the speaker as seen. *)
Example race_builds_one_speaker :
  let m := run Examples.schedule_race Examples.manager_fresh in
  constructions "RINCON_A" (trace m) = 1%nat /\
  List.filter (fun e => lock_or_task_effect e || is_construction "RINCON_A" e)
    (trace m) =
  [ Create_task "RINCON_A" "192.168.1.10" (PyInt 3);
    Create_task "RINCON_A" "192.168.1.10" (PyInt 3);
    Lock_acquire; New_SonosSpeaker Examples.kitchen; Lock_release;
    Lock_acquire; Lock_release ].
Proof. cbv zeta. split; reflexivity. Qed.

(** A header "0" is truthy as a string, so a count is stored; the integer 0
    is false, so the event is never a reboot. *)
Example boot_seqnum_zero :
  let m := run [ Discovered (mkDiscovery "SSDP" "192.168.1.10" "RINCON_A" (PyStr "0") None)
                   Examples.world_up ]
             Examples.manager_kitchen in
  boot_counts (data m) !! "RINCON_A" = Some 3 /\
  List.map task_boot_seqnum (tasks m) = [PyInt 0] /\
  rebooted (data m) "RINCON_A" (PyInt 0) = Ok false.
Proof. cbv zeta. repeat split; reflexivity. Qed.

(** When the set-up of a new speaker fails after the record was stored, the
    warning is logged and the record stays. *)
Example failed_setup_keeps_the_new_record :
  let r := _discovered_player Examples.world_setup_fails Examples.kitchen
             Examples.manager_fresh in
  fst r = Ok tt /\
  List.filter is_warning_effect (trace (snd r)) =
    [Log (Warn_failed_to_add Examples.kitchen)] /\
  od_get "RINCON_A" (discovered (data (snd r))) = Some Examples.kitchen_speaker.
Proof. cbv zeta. repeat split; reflexivity. Qed.

(** The SSDP callback strips the "uuid:" prefix of the UDN. *)
Example ssdp_uid_is_stripped :
  List.map task_uid
    (tasks (snd (_async_ssdp_discovered_player Examples.world_up
                   {| location_hostname := Some "192.168.1.10";
                      X_RINCON_BOOTSEQ := Some "3";
                      ATTR_UPNP_UDN := Some "uuid:RINCON_A";
                      modelName := Some "Sonos One" |}
                   Examples.manager_fresh))) =
  ["RINCON_A"].
Proof. reflexivity. Qed.

(** * Further properties of the discovery manager *)

Import FurtherNotions.

(** ** Records and coordinators only grow *)

Lemma store_handles_app l1 l2 d :
  store_handles (l1 ++ l2) d = store_handles l2 (store_handles l1 d).
Proof. apply fold_left_app. Qed.

Lemma data_grows_refl d : data_grows d d.
Proof. split; [now exists []|]. split; auto. Qed.

Lemma data_grows_trans d1 d2 d3 :
  data_grows d1 d2 -> data_grows d2 d3 -> data_grows d1 d3.
Proof.
  intros ([l1 H1] & K1 & N1) ([l2 H2] & K2 & N2). split; [|split].
  - exists (l1 ++ l2)%list. now rewrite store_handles_app, <- H1.
  - auto.
  - intros c h x Hx. destruct (N2 c h x Hx) as [H|H]; auto.
Qed.

Lemma data_grows_frame d d' :
  discovered d' = discovered d -> alarms d' = alarms d ->
  favorites d' = favorites d -> data_grows d d'.
Proof.
  intros Hd Ha Hf.
  assert (Hc : forall c, coord_dict c d' = coord_dict c d) by (now intros []).
  split; [exists []; exact Hd|]. split; intros c h x; rewrite Hc; auto.
Qed.

Lemma grows_refl m : grows m m.
Proof. apply data_grows_refl. Qed.

Lemma grows_trans a b c : grows a b -> grows b c -> grows a c.
Proof. apply data_grows_trans. Qed.

Lemma grows_frame m m' :
  discovered (data m') = discovered (data m) -> alarms (data m') = alarms (data m) ->
  favorites (data m') = favorites (data m) -> grows m m'.
Proof. apply data_grows_frame. Qed.

Lemma grows_emit e : preserves grows (emit e).
Proof. intros m. now apply grows_frame. Qed.

Lemma grows_set_hosts_heartbeat b : preserves grows (modify_data (set_hosts_heartbeat b)).
Proof. intros m. now apply grows_frame. Qed.

Lemma grows_set_lock b : preserves grows (set_lock b).
Proof. intros m. now apply grows_frame. Qed.

Lemma grows_spawn t : preserves grows (spawn t).
Proof. intros m. now apply grows_frame. Qed.

Lemma grows_set_task_pc i p : preserves grows (set_task_pc i p).
Proof. intros m. now apply grows_frame. Qed.

Lemma grows_add_known k :
  preserves grows
    (modify_data (fun d => set_discovery_known ({[k]} ∪ discovery_known d) d)).
Proof. intros m. now apply grows_frame. Qed.

Lemma grows_setdefault k n :
  preserves grows
    (modify_data (fun d => set_boot_counts (setdefault k n (boot_counts d)) d)).
Proof. intros m. now apply grows_frame. Qed.

Lemma grows_set_boot_count k n m :
  grows m (snd (modify_data (fun d => set_boot_counts (<[k := n]> (boot_counts d)) d) m)).
Proof. now apply grows_frame. Qed.

(** [self.data.discovered[soco.uid] = speaker] *)
Lemma grows_store s info :
  preserves grows
    (modify_data
       (fun d => set_discovered (od_set (uid s) (mkSpeaker s info) (discovered d)) d)).
Proof.
  intros m. split; [now exists [(s, info)]|].
  assert (Hc : forall c,
            coord_dict c (data (snd (modify_data
              (fun d => set_discovered
                          (od_set (uid s) (mkSpeaker s info) (discovered d)) d) m))) =
            coord_dict c (data m)) by (now intros []).
  split; intros c h x; rewrite Hc; auto.
Qed.

(** A coordinator is stored only where the household had none. *)
Lemma data_grows_insert_coordinator c h d :
  coord_dict c d !! h = None ->
  data_grows d (set_coord_dict c (<[h := mkCoordinator c h]> (coord_dict c d)) d).
Proof.
  intros Hnone.
  assert (Hsame : forall c', c' <> c ->
            coord_dict c' (set_coord_dict c (<[h := mkCoordinator c h]> (coord_dict c d)) d) =
            coord_dict c' d) by (intros c' Hne; destruct c, c'; (reflexivity || contradiction)).
  assert (Hthis :
            coord_dict c (set_coord_dict c (<[h := mkCoordinator c h]> (coord_dict c d)) d) =
            <[h := mkCoordinator c h]> (coord_dict c d)) by (now destruct c).
  assert (Hdec : forall c', c' = c \/ c' <> c)
    by (intros c'; destruct c, c'; ((now left) || (now right))).
  split; [exists []; now destruct c|]. split; intros c' h' x Hx.
  - destruct (Hdec c') as [->|Hne]; [|now rewrite Hsame].
    rewrite Hthis. destruct (decide (h = h')) as [<-|Hh]; [congruence|].
    now rewrite lookup_insert_ne.
  - destruct (Hdec c') as [->|Hne]; [|rewrite Hsame in Hx; auto].
    rewrite Hthis in Hx. destruct (decide (h = h')) as [<-|Hh].
    + rewrite lookup_insert_eq in Hx. injection Hx as <-. now right.
    + rewrite lookup_insert_ne in Hx by exact Hh. now left.
Qed.

Lemma grows_setup_coordinator w s c : preserves grows (setup_coordinator w s c).
Proof.
  intros m. unfold setup_coordinator, bind, get_data, emit, lift, modify_data, put_data.
  cbn [fst snd].
  destruct (coord_dict c (data m) !! household_id s) eqn:E; [apply grows_refl|].
  destruct (coordinator_setup w c s) as [[]|e]; cbn [fst snd]; [|now apply grows_frame].
  unfold grows. cbn [data add_trace]. now apply data_grows_insert_coordinator.
Qed.

Lemma grows_create_soco w ip source : preserves grows (_create_soco w ip source).
Proof.
  apply (preserves_create_soco grows); eauto using grows_refl, grows_trans, grows_emit.
Qed.

Lemma grows_discovered_player w s : preserves grows (_discovered_player w s).
Proof.
  unfold _discovered_player, discovered_player_try.
  apply preserves_try_except; try exact grows_trans; [|intros e; apply grows_emit].
  repeat first
    [ exact grows_refl | exact grows_trans
    | apply grows_emit | apply grows_store | apply grows_setup_coordinator
    | apply preserves_lift | apply preserves_bind | intros ? ].
Qed.

Lemma grows_discovered_ip w ip : preserves grows (_discovered_ip w ip).
Proof.
  unfold _discovered_ip.
  apply preserves_bind; try exact grows_trans; [apply grows_create_soco|].
  intros [s|]; [|apply preserves_ret, grows_refl].
  destruct (is_visible s); [apply grows_discovered_player|apply preserves_ret, grows_refl].
Qed.

Lemma grows_configured_player w ip : preserves grows (configured_player w ip).
Proof.
  unfold configured_player.
  apply preserves_bind; try exact grows_trans; [apply grows_create_soco|].
  intros [s|]; [|apply preserves_ret, grows_refl].
  destruct (is_visible s); [apply grows_discovered_player|apply preserves_ret, grows_refl].
Qed.

Lemma grows_manual_host w host : preserves grows (manual_host w host).
Proof.
  intros m. rewrite manual_host_run.
  destruct (gethostbyname w host) as [ip|e]; [|now apply grows_frame].
  assert (Hc : grows m (snd (configured_player w ip (add_trace [Call_gethostbyname host] m)))).
  { eapply grows_trans; [|apply grows_configured_player]. now apply grows_frame. }
  destruct (known_uid_of ip (discovered (data m))) as [u|]; [|exact Hc].
  destruct (str_truthy u); [now apply grows_frame|exact Hc].
Qed.

Lemma grows_manual_hosts w : preserves grows (_manual_hosts w).
Proof.
  unfold _manual_hosts.
  apply preserves_bind; try exact grows_trans.
  - intros m. apply preserves_for_each;
      try exact grows_refl; try exact grows_trans. apply grows_manual_host.
  - intros _. apply preserves_bind; try exact grows_trans; [apply grows_emit|].
    intros _. apply grows_set_hosts_heartbeat.
Qed.

Lemma grows_task_step w t : preserves grows (task_step w t).
Proof.
  unfold task_step. destruct (task_pc t) eqn:Hpc.
  - intros m. destruct (discovery_lock m); [apply grows_refl|].
    rewrite enter_run.
    destruct (od_mem (task_uid t) (discovered (data m))); [|now apply grows_frame].
    destruct (rebooted (data m) (task_uid t) (task_boot_seqnum t)) as [[|]|e];
      now apply grows_frame.
  - intros m. unfold executor_job. rewrite Hpc.
    pose proof (grows_discovered_ip w (task_ip t) m) as H.
    now destruct (_discovered_ip w (task_ip t) m).
  - apply (preserves_resume grows);
      eauto using grows_refl, grows_trans, grows_emit, grows_set_lock.
  - intros m. unfold executor_job. rewrite Hpc.
    pose proof (grows_create_soco w (task_ip t) REBOOTED m) as H.
    now destruct (_create_soco w (task_ip t) REBOOTED m).
  - apply (preserves_resume grows);
      eauto using grows_refl, grows_trans, grows_emit, grows_set_lock.
  - apply preserves_ret, grows_refl.
  - apply preserves_ret, grows_refl.
Qed.

Lemma grows_step l m : grows m (step l m).
Proof.
  destruct l as [e w|i w|w|]; cbn [step].
  - apply (preserves_async_discovered_player grows);
      eauto using grows_refl, grows_trans, grows_emit, grows_spawn, grows_add_known,
        grows_setdefault.
  - unfold run_task. destruct (tasks m !! i) as [t|]; [|apply grows_refl].
    apply (preserves_bind grows); try exact grows_trans; [apply grows_task_step|].
    intros p. apply grows_set_task_pc.
  - apply grows_manual_hosts.
  - apply (preserves_stop_manual_heartbeat grows);
      eauto using grows_refl, grows_trans, grows_emit, grows_set_hosts_heartbeat.
Qed.

Lemma grows_run ls m : grows m (run ls m).
Proof.
  revert m. induction ls as [|l ls IH]; intros m; cbn; [apply grows_refl|].
  eapply grows_trans; [apply grows_step|apply IH].
Qed.

Lemma od_set_Forall {V} (P : string * V -> Prop) k v d :
  P (k, v) -> Forall P d -> Forall P (od_set k v d).
Proof.
  intros Hkv. induction 1 as [|[k' v'] d Hx Hd IH]; cbn.
  - now repeat constructor.
  - destruct (String.eqb k k'); constructor; auto.
Qed.

Lemma store_handles_cons s info l d :
  store_handles ((s, info) :: l) d =
  store_handles l (od_set (uid s) (mkSpeaker s info) d).
Proof. reflexivity. Qed.

Lemma store_handles_keyed l d :
  Forall (fun kv => uid (soco (snd kv)) = fst kv) d ->
  Forall (fun kv => uid (soco (snd kv)) = fst kv) (store_handles l d).
Proof.
  revert d. induction l as [|[s info] l IH]; intros d H; [exact H|].
  rewrite store_handles_cons. apply IH. now apply od_set_Forall.
Qed.

Lemma store_handles_keys l (d : list (string * SonosSpeaker)) :
  exists new, od_keys (store_handles l d) = (od_keys d ++ new)%list.
Proof.
  revert d. induction l as [|[s info] l IH]; intros d.
  - exists []. cbn. now rewrite app_nil_r.
  - destruct (IH (od_set (uid s) (mkSpeaker s info) d)) as [new Hnew].
    rewrite store_handles_cons, Hnew, od_keys_set. destruct (od_mem (uid s) d).
    + now exists new.
    + exists (uid s :: new). now rewrite <- app_assoc.
Qed.

(** X1: in every run, each device record stays stored under the identifier
    of its own handle. *)
Theorem records_keyed_by_handle (ls : list label) (m : Manager) :
  keyed_by_uid (data m) -> keyed_by_uid (data (run ls m)).
Proof.
  intros H. destruct (grows_run ls m) as ([l Hl] & _). unfold keyed_by_uid.
  rewrite Hl. now apply store_handles_keyed.
Qed.

Lemma records_keyed_by_handle_witness :
  keyed_by_uid (data Examples.manager_kitchen) /\
  keyed_by_uid (data (run Examples.schedule_race Examples.manager_kitchen)).
Proof.
  assert (H : keyed_by_uid (data Examples.manager_kitchen))
    by (repeat constructor).
  split; [exact H|].
  exact (records_keyed_by_handle Examples.schedule_race Examples.manager_kitchen H).
Defined.

(** X2: no run removes or reorders device records: the identifiers in
    [discovered] keep their order and new ones go last. *)
Theorem records_keep_their_order (ls : list label) (m : Manager) :
  exists new,
    od_keys (discovered (data (run ls m))) =
    (od_keys (discovered (data m)) ++ new)%list.
Proof.
  destruct (grows_run ls m) as ([l Hl] & _). rewrite Hl. apply store_handles_keys.
Qed.

(** X3: a household coordinator, once stored, is never replaced or removed
    by any run. *)
Theorem coordinators_are_kept
    (ls : list label) (m : Manager) (c : Coordinator) (h : string) (x : CoordinatorObj) :
  coord_dict c (data m) !! h = Some x ->
  coord_dict c (data (run ls m)) !! h = Some x.
Proof. destruct (grows_run ls m) as (_ & K & _). apply K. Qed.

Lemma coordinators_are_kept_witness :
  coord_dict SonosAlarms (data Examples.manager_kitchen) !! "HH1" =
    Some (mkCoordinator SonosAlarms "HH1") /\
  coord_dict SonosAlarms
    (data (run [ManualHosts Examples.world_up] Examples.manager_kitchen)) !! "HH1" =
    Some (mkCoordinator SonosAlarms "HH1").
Proof.
  assert (H : coord_dict SonosAlarms (data Examples.manager_kitchen) !! "HH1" =
              Some (mkCoordinator SonosAlarms "HH1")) by reflexivity.
  split; [exact H|].
  exact (coordinators_are_kept [ManualHosts Examples.world_up]
           Examples.manager_kitchen SonosAlarms "HH1" _ H).
Defined.

(** X22: every household coordinator is stored under its own household, in
    the dictionary of its own class; no run breaks this. *)
Theorem coordinators_keyed_by_household (ls : list label) (m : Manager) :
  coordinators_ok (data m) -> coordinators_ok (data (run ls m)).
Proof.
  intros H c h x Hx. destruct (grows_run ls m) as (_ & _ & N).
  destruct (N c h x Hx) as [Hold| ->]; [now apply H|reflexivity].
Qed.

Lemma coordinators_keyed_by_household_witness :
  coordinators_ok (data Examples.manager_fresh) /\
  coordinators_ok (data (run Examples.schedule_kitchen Examples.manager_fresh)).
Proof.
  assert (H : coordinators_ok (data Examples.manager_fresh)).
  { intros [] h x Hx; vm_compute in Hx; discriminate. }
  split; [exact H|].
  exact (coordinators_keyed_by_household Examples.schedule_kitchen
           Examples.manager_fresh H).
Defined.

(** ** The discovery callback *)

Lemma async_discovered_player_data w source ip k boot model m :
  data (snd (async_discovered_player w source ip k boot model m)) =
  discovery_data w k boot model (data m).
Proof.
  unfold async_discovered_player, discovery_data, add_known.
  destruct (opt_in_list model DISCOVERY_IGNORED_MODELS); [reflexivity|].
  unfold create_task, spawn, modify_data, get_data, put_data, bind, emit, lift, ret,
    add_trace.
  destruct (truthy boot); cbn [fst snd data].
  - destruct (py_int w boot) as [n|e]; cbn [fst snd data]; [|reflexivity].
    cbn [discovery_known set_boot_counts].
    now destruct (bool_decide (k ∈ discovery_known (data m))).
  - now destruct (bool_decide (k ∈ discovery_known (data m))).
Qed.

Lemma add_known_boot_counts k d : boot_counts (add_known k d) = boot_counts d.
Proof. unfold add_known. now destruct (bool_decide _). Qed.

Lemma add_known_elem k d : k ∈ discovery_known (add_known k d).
Proof.
  unfold add_known. destruct (bool_decide (k ∈ discovery_known d)) eqn:E.
  - now apply bool_decide_eq_true in E.
  - cbn. set_solver.
Qed.

Lemma add_known_subset k d k' :
  k' ∈ discovery_known d -> k' ∈ discovery_known (add_known k d).
Proof.
  unfold add_known. destruct (bool_decide _); [auto|]. cbn. set_solver.
Qed.

Lemma add_known_twice k d : add_known k (add_known k d) = add_known k d.
Proof.
  unfold add_known at 1.
  now rewrite (bool_decide_eq_true_2 _ (add_known_elem k d)).
Qed.

Lemma discovery_data_boot_counts w k boot model d k' :
  boot_counts (discovery_data w k boot model d) !! k' =
  match boot_counts d !! k' with
  | Some x => Some x
  | None => boot_counts (discovery_data w k boot model d) !! k'
  end.
Proof.
  destruct (boot_counts d !! k') as [x|] eqn:E; [|reflexivity].
  unfold discovery_data.
  destruct (opt_in_list model DISCOVERY_IGNORED_MODELS); [exact E|].
  destruct (truthy boot); [|now rewrite add_known_boot_counts].
  destruct (py_int w boot) as [n|e]; [|exact E].
  rewrite add_known_boot_counts. cbn [boot_counts set_boot_counts].
  now rewrite setdefault_lookup, E.
Qed.

(** X4: a discovery callback never changes a boot count that is stored,
    whatever boot sequence number it carries: [setdefault] writes only for
    an identifier without a count. *)
Theorem callback_keeps_stored_boot_counts
    (w : World) (source ip k : string) (boot : pyval) (model : option string)
    (m : Manager) (k' : string) (n : Z) :
  boot_counts (data m) !! k' = Some n ->
  boot_counts (data (snd (async_discovered_player w source ip k boot model m))) !! k' =
  Some n.
Proof.
  intros H. now rewrite async_discovered_player_data, discovery_data_boot_counts, H.
Qed.

Lemma callback_keeps_stored_boot_counts_witness :
  boot_counts (data Examples.manager_kitchen) !! "RINCON_A" = Some 3 /\
  boot_counts
    (data (snd (async_discovered_player Examples.world_up "SSDP" "192.168.1.20"
                  "RINCON_A" (PyStr "9") None Examples.manager_kitchen)))
    !! "RINCON_A" = Some 3.
Proof.
  assert (H : boot_counts (data Examples.manager_kitchen) !! "RINCON_A" = Some 3)
    by reflexivity.
  split; [exact H|].
  exact (callback_keeps_stored_boot_counts Examples.world_up "SSDP" "192.168.1.20"
           "RINCON_A" (PyStr "9") None Examples.manager_kitchen "RINCON_A" 3 H).
Defined.

Lemma setdefault_twice k n (bc : gmap string Z) :
  setdefault k n (setdefault k n bc) = setdefault k n bc.
Proof.
  unfold setdefault at 1. rewrite setdefault_lookup.
  destruct (bc !! k); [reflexivity|].
  destruct (decide (k = k)); [reflexivity|contradiction].
Qed.

Lemma set_boot_counts_same d : set_boot_counts (boot_counts d) d = d.
Proof. now destruct d. Qed.

Lemma discovery_data_twice w k boot model d :
  discovery_data w k boot model (discovery_data w k boot model d) =
  discovery_data w k boot model d.
Proof.
  unfold discovery_data.
  destruct (opt_in_list model DISCOVERY_IGNORED_MODELS); [reflexivity|].
  destruct (truthy boot); [|apply add_known_twice].
  destruct (py_int w boot) as [n|e]; [|reflexivity].
  set (d1 := add_known k (set_boot_counts (setdefault k n (boot_counts d)) d)).
  assert (Hb : boot_counts d1 = setdefault k n (boot_counts d))
    by (subst d1; now rewrite add_known_boot_counts).
  rewrite Hb, setdefault_twice, <- Hb, set_boot_counts_same.
  subst d1. apply add_known_twice.
Qed.

(** X5: a discovery repeated with the same arguments changes the data no
    further: the second callback only creates another task. *)
Theorem callback_is_idempotent_on_data
    (w : World) (source ip k : string) (boot : pyval) (model : option string)
    (m : Manager) :
  let once := snd (async_discovered_player w source ip k boot model m) in
  let twice := snd (async_discovered_player w source ip k boot model once) in
  data twice = data once.
Proof.
  cbv zeta. rewrite !async_discovered_player_data. apply discovery_data_twice.
Qed.

Lemma known_covers_frame m m' :
  tasks m' = tasks m ->
  boot_counts (data m') = boot_counts (data m) ->
  discovery_known (data m') = discovery_known (data m) ->
  keeps_known_covers m m'.
Proof. unfold keeps_known_covers, known_covers. now intros -> -> ->. Qed.

Lemma keeps_known_covers_refl m : keeps_known_covers m m.
Proof. unfold keeps_known_covers. tauto. Qed.

Lemma keeps_known_covers_trans a b c :
  keeps_known_covers a b -> keeps_known_covers b c -> keeps_known_covers a c.
Proof. unfold keeps_known_covers. tauto. Qed.

Lemma keeps_known_covers_emit e : preserves keeps_known_covers (emit e).
Proof. intros m. now apply known_covers_frame. Qed.

Lemma keeps_known_covers_set_discovered k v :
  preserves keeps_known_covers
    (modify_data (fun d => set_discovered (od_set k v (discovered d)) d)).
Proof. intros m. now apply known_covers_frame. Qed.

Lemma keeps_known_covers_set_coord_dict c k v :
  preserves keeps_known_covers
    (modify_data (fun d => set_coord_dict c (<[k := v]> (coord_dict c d)) d)).
Proof. intros m. apply known_covers_frame; now destruct c. Qed.

Lemma keeps_known_covers_set_hosts_heartbeat b :
  preserves keeps_known_covers (modify_data (set_hosts_heartbeat b)).
Proof. intros m. now apply known_covers_frame. Qed.

Lemma keeps_known_covers_set_lock b : preserves keeps_known_covers (set_lock b).
Proof. intros m. now apply known_covers_frame. Qed.

Lemma keeps_known_covers_set_task_pc i p :
  preserves keeps_known_covers (set_task_pc i p).
Proof.
  intros m [Hb Ht]. split; [exact Hb|]. cbn.
  apply Forall_alter; [exact Ht|]. intros t _ H. exact H.
Qed.

Lemma keeps_known_covers_reboot k boot m :
  rebooted (data m) k boot = Ok true ->
  keeps_known_covers m
    (snd (modify_data
            (fun d => set_boot_counts (<[k := int_or_zero boot]> (boot_counts d)) d) m)).
Proof.
  intros Hr [Hb Ht]. apply rebooted_true in Hr as (stored & n & _ & _ & Hs & _).
  split; [|exact Ht]. intros k' Hk'. rewrite data_modify in *.
  cbn [boot_counts discovery_known set_boot_counts] in *.
  destruct (decide (k = k')) as [<-|Hne].
  - apply Hb. now rewrite Hs.
  - rewrite lookup_insert_ne in Hk' by exact Hne. now apply Hb.
Qed.

(** The callback makes the identifier known before it creates the task. *)
Lemma keeps_known_covers_discovered w source ip k boot model m :
  keeps_known_covers m (snd (async_discovered_player w source ip k boot model m)).
Proof.
  intros [Hb Ht]. unfold async_discovered_player.
  destruct (opt_in_list model DISCOVERY_IGNORED_MODELS); [now split|].
  unfold create_task, spawn, modify_data, get_data, put_data, bind, emit, lift, ret,
    add_trace, known_covers.
  destruct (truthy boot); cbn [fst snd data tasks].
  - destruct (py_int w boot) as [n|e]; cbn [fst snd data tasks]; [|now split].
    cbn [discovery_known set_boot_counts set_discovery_known boot_counts].
    destruct (bool_decide (k ∈ discovery_known (data m))) eqn:E;
      cbn [fst snd data tasks discovery_known set_boot_counts set_discovery_known
           boot_counts].
    + apply bool_decide_eq_true in E. split.
      * intros k' Hk'. rewrite setdefault_lookup in Hk'.
        destruct (boot_counts (data m) !! k') eqn:E'; [apply Hb; now rewrite E'|].
        destruct (decide (k = k')) as [<-|]; [exact E|now destruct Hk'].
      * apply Forall_app. split; [exact Ht|]. now repeat constructor.
    + split.
      * intros k' Hk'. rewrite setdefault_lookup in Hk'.
        destruct (boot_counts (data m) !! k') eqn:E';
          [apply elem_of_union_r, Hb; now rewrite E'|].
        destruct (decide (k = k')) as [<-|]; [set_solver|now destruct Hk'].
      * apply Forall_app. split.
        -- eapply Forall_impl; [exact Ht|]. intros t H. cbn. set_solver.
        -- repeat constructor. cbn. set_solver.
  - destruct (bool_decide (k ∈ discovery_known (data m))) eqn:E;
      cbn [fst snd data tasks discovery_known set_discovery_known boot_counts].
    + apply bool_decide_eq_true in E. split; [exact Hb|].
      apply Forall_app. split; [exact Ht|]. now repeat constructor.
    + split.
      * intros k' Hk'. apply elem_of_union_r, Hb, Hk'.
      * apply Forall_app. split.
        -- eapply Forall_impl; [exact Ht|]. intros t H. cbn. set_solver.
        -- repeat constructor. cbn. set_solver.
Qed.

Lemma keeps_known_covers_step l m : keeps_known_covers m (step l m).
Proof.
  destruct l as [e w|i w|w|]; cbn [step];
    [ apply keeps_known_covers_discovered
    | apply (preserves_run_task keeps_known_covers)
    | apply (preserves_manual_hosts keeps_known_covers)
    | apply (preserves_stop_manual_heartbeat keeps_known_covers) ];
  eauto using keeps_known_covers_refl, keeps_known_covers_trans,
    keeps_known_covers_emit, keeps_known_covers_set_discovered,
    keeps_known_covers_set_coord_dict, keeps_known_covers_set_hosts_heartbeat,
    keeps_known_covers_set_lock, keeps_known_covers_set_task_pc,
    keeps_known_covers_reboot.
Qed.

(** X6: in every state reached from a fresh manager, each identifier that
    has a boot count, and each identifier a creation task exists for, is
    among the known identifiers. *)
Theorem known_identifiers_cover (ls : list label) (hs : list string) :
  known_covers (run ls (SonosDiscoveryManager_init SonosData_init hs)).
Proof.
  assert (H : forall m, known_covers m -> known_covers (run ls m)).
  { induction ls as [|l ls IH]; intros m Hm; cbn; [exact Hm|].
    apply IH. now apply keeps_known_covers_step. }
  apply H. split.
  - intros k [x Hx]. cbn in Hx. now rewrite lookup_empty in Hx.
  - constructor.
Qed.

(** X7: an announcement the SSDP callback cannot read is lost before
    anything is recorded: without a location the subscript raises
    [KeyError], without a UDN [uid.startswith] raises [AttributeError], and
    a boot sequence header that [int] rejects raises what [int] raises.  In
    each case the manager is exactly as before: the identifier is not made
    known and no task is created. *)
Theorem bad_boot_header_loses_the_discovery
    (w : World) (info : SsdpInfo) (m : Manager) :
  (location_hostname info = None ->
   _async_ssdp_discovered_player w info m = (Raise KeyError, m)) /\
  (forall ip,
     location_hostname info = Some ip ->
     ATTR_UPNP_UDN info = None ->
     _async_ssdp_discovered_player w info m = (Raise AttributeError, m)) /\
  (forall ip udn s e,
     location_hostname info = Some ip ->
     ATTR_UPNP_UDN info = Some udn ->
     opt_in_list (modelName info) DISCOVERY_IGNORED_MODELS = false ->
     X_RINCON_BOOTSEQ info = Some s ->
     s <> "" ->
     int_of_str w s = Raise e ->
     _async_ssdp_discovered_player w info m = (Raise e, m)).
Proof.
  unfold _async_ssdp_discovered_player. split; [|split].
  - now intros ->.
  - now intros ip -> ->.
  - intros ip udn s e -> -> Hm Hs Hne He. unfold async_discovered_player.
    rewrite Hm, Hs. cbn [truthy].
    destruct (String.eqb_spec s "") as [->|_]; [contradiction|]. cbn [negb].
    unfold bind, lift. cbn [py_int]. now rewrite He.
Qed.

Lemma bad_boot_header_loses_the_discovery_witness :
  let info := {| location_hostname := Some "192.168.1.10";
                 X_RINCON_BOOTSEQ := Some "3a";
                 ATTR_UPNP_UDN := Some "uuid:RINCON_A";
                 modelName := Some "Sonos One" |} in
  let no_udn := {| location_hostname := Some "192.168.1.10";
                   X_RINCON_BOOTSEQ := Some "3";
                   ATTR_UPNP_UDN := None;
                   modelName := Some "Sonos One" |} in
  int_of_str Examples.world_up "3a" = Raise ValueError /\
  _async_ssdp_discovered_player Examples.world_up info Examples.manager_fresh =
  (Raise ValueError, Examples.manager_fresh) /\
  _async_ssdp_discovered_player Examples.world_up no_udn Examples.manager_fresh =
  (Raise AttributeError, Examples.manager_fresh).
Proof.
  cbv zeta. split; [reflexivity|]. split.
  - apply (proj2 (proj2 (bad_boot_header_loses_the_discovery Examples.world_up
                           {| location_hostname := Some "192.168.1.10";
                              X_RINCON_BOOTSEQ := Some "3a";
                              ATTR_UPNP_UDN := Some "uuid:RINCON_A";
                              modelName := Some "Sonos One" |}
                           Examples.manager_fresh))
             "192.168.1.10" "uuid:RINCON_A" "3a" ValueError);
      first [reflexivity|discriminate].
  - apply (proj1 (proj2 (bad_boot_header_loses_the_discovery Examples.world_up
                           {| location_hostname := Some "192.168.1.10";
                              X_RINCON_BOOTSEQ := Some "3";
                              ATTR_UPNP_UDN := None;
                              modelName := Some "Sonos One" |}
                           Examples.manager_fresh)) "192.168.1.10");
      reflexivity.
Defined.

Lemma startswith_app p s : startswith p (p ++ s) = true.
Proof.
  induction p as [|a p IH]; [reflexivity|].
  change (String a p ++ s) with (String a (p ++ s)).
  cbn [startswith]. now rewrite Ascii.eqb_refl, IH.
Qed.

Lemma drop_chars_app p s : drop_chars (String.length p) (p ++ s) = s.
Proof.
  induction p as [|a p IH]; [reflexivity|].
  change (String a p ++ s) with (String a (p ++ s)). exact IH.
Qed.

(** X8: for an announcement with a location and a UDN, the SSDP callback
    strips one leading "uuid:" from the UDN and keeps any other UDN as it
    is, so a device announced as "uuid:X" and a device discovered as "X" are
    the same identifier. *)
Theorem ssdp_udn_is_normalised
    (w : World) (info : SsdpInfo) (ip : string) (m : Manager) :
  location_hostname info = Some ip ->
  (forall u,
     ATTR_UPNP_UDN info = Some ("uuid:" ++ u) ->
     _async_ssdp_discovered_player w info m =
     async_discovered_player w "SSDP" ip u
       (header_value (X_RINCON_BOOTSEQ info)) (modelName info) m) /\
  (forall udn,
     ATTR_UPNP_UDN info = Some udn ->
     startswith "uuid:" udn = false ->
     _async_ssdp_discovered_player w info m =
     async_discovered_player w "SSDP" ip udn
       (header_value (X_RINCON_BOOTSEQ info)) (modelName info) m).
Proof.
  intros Hl. unfold _async_ssdp_discovered_player, header_value. rewrite Hl. split.
  - intros u ->. rewrite startswith_app.
    change 5%nat with (String.length "uuid:"). now rewrite drop_chars_app.
  - now intros udn -> ->.
Qed.

Lemma ssdp_udn_is_normalised_witness :
  let info := {| location_hostname := Some "192.168.1.10";
                 X_RINCON_BOOTSEQ := Some "3";
                 ATTR_UPNP_UDN := Some "uuid:RINCON_A";
                 modelName := None |} in
  location_hostname info = Some "192.168.1.10" /\
  ATTR_UPNP_UDN info = Some ("uuid:" ++ "RINCON_A") /\
  _async_ssdp_discovered_player Examples.world_up info Examples.manager_fresh =
  async_discovered_player Examples.world_up "SSDP" "192.168.1.10" "RINCON_A"
    (PyStr "3") None Examples.manager_fresh.
Proof.
  cbv zeta. split; [reflexivity|]. split; [reflexivity|].
  exact (proj1 (ssdp_udn_is_normalised Examples.world_up
                  {| location_hostname := Some "192.168.1.10";
                     X_RINCON_BOOTSEQ := Some "3";
                     ATTR_UPNP_UDN := Some "uuid:RINCON_A";
                     modelName := None |} "192.168.1.10" Examples.manager_fresh
                  eq_refl)
           "RINCON_A" eq_refl).
Defined.

(** ** The host poll and its heartbeat *)

Lemma same_heartbeat_refl m : same_heartbeat m m.
Proof. reflexivity. Qed.

Lemma same_heartbeat_trans a b c :
  same_heartbeat a b -> same_heartbeat b c -> same_heartbeat a c.
Proof. unfold same_heartbeat. congruence. Qed.

Lemma same_heartbeat_emit e : preserves same_heartbeat (emit e).
Proof. now intros m. Qed.

Lemma same_heartbeat_set_discovered k v :
  preserves same_heartbeat
    (modify_data (fun d => set_discovered (od_set k v (discovered d)) d)).
Proof. now intros m. Qed.

Lemma same_heartbeat_set_coord_dict c k v :
  preserves same_heartbeat
    (modify_data (fun d => set_coord_dict c (<[k := v]> (coord_dict c d)) d)).
Proof. intros m. now destruct c. Qed.

(** Polling the hosts themselves does not touch the heartbeat. *)
Lemma same_heartbeat_hosts w hs : preserves same_heartbeat (for_each hs (manual_host w)).
Proof.
  apply (preserves_for_each same_heartbeat);
    try exact same_heartbeat_refl; try exact same_heartbeat_trans.
  intros h. apply (preserves_manual_host same_heartbeat);
    eauto using same_heartbeat_refl, same_heartbeat_trans, same_heartbeat_emit,
      same_heartbeat_set_discovered, same_heartbeat_set_coord_dict.
Qed.

Lemma manual_hosts_run w m :
  _manual_hosts w m =
  match for_each (hosts m) (manual_host w) m with
  | (Ok _, m1) =>
      (Ok tt, snd (modify_data (set_hosts_heartbeat true) (add_trace [Call_later] m1)))
  | (Raise e, m1) => (Raise e, m1)
  end.
Proof.
  unfold _manual_hosts. rewrite bind_run.
  now destruct (for_each (hosts m) (manual_host w) m) as [[[]|e] m1].
Qed.

(** X9: the host poll arms its next run exactly when it runs to its end:
    after a poll that returns, the heartbeat is set and [call_later] was the
    last thing done; after a poll that raises, the heartbeat is as it was. *)
Theorem poll_rearms_only_when_it_completes (w : World) (m : Manager) :
  let r := _manual_hosts w m in
  (fst r = Ok tt ->
   hosts_heartbeat (data (snd r)) = true /\
   exists t, trace (snd r) = (trace m ++ t ++ [Call_later])%list) /\
  (forall e,
     fst r = Raise e ->
     hosts_heartbeat (data (snd r)) = hosts_heartbeat (data m)).
Proof.
  cbv zeta. rewrite manual_hosts_run.
  pose proof (same_heartbeat_hosts w (hosts m) m) as Hh.
  assert (Ht : exists t,
            trace (snd (for_each (hosts m) (manual_host w) m)) = (trace m ++ t)%list).
  { assert (Ho : outside_the_lock m (snd (for_each (hosts m) (manual_host w) m))).
    { apply (preserves_for_each outside_the_lock);
        try exact outside_the_lock_refl; try exact outside_the_lock_trans.
      intros h. apply (preserves_manual_host outside_the_lock);
        try exact outside_the_lock_refl; try exact outside_the_lock_trans.
      - intros e He m0. repeat split. exists [e]. split; [reflexivity|].
        constructor; [exact He|constructor].
      - intros k v m0. now apply outside_the_lock_data.
      - intros c k v m0. apply outside_the_lock_data; now destruct c. }
    destruct Ho as (_ & _ & _ & _ & t & Et & _). now exists t. }
  destruct (for_each (hosts m) (manual_host w) m) as [[[]|e] m1]; cbn [fst snd] in *.
  - split; [|discriminate]. intros _. split; [reflexivity|].
    destruct Ht as [t Et]. exists t. cbn. now rewrite Et, <- app_assoc.
  - split; [discriminate|]. intros e' _. exact Hh.
Qed.

Lemma poll_rearms_only_when_it_completes_witness :
  let m := SonosDiscoveryManager_init Examples.data_kitchen ["192.168.1.10"] in
  fst (_manual_hosts Examples.world_up m) = Ok tt /\
  hosts_heartbeat (data (snd (_manual_hosts Examples.world_up m))) = true.
Proof.
  cbv zeta. split; [reflexivity|].
  exact (proj1 (proj1 (poll_rearms_only_when_it_completes Examples.world_up
                         (SonosDiscoveryManager_init Examples.data_kitchen
                            ["192.168.1.10"])) eq_refl)).
Defined.

Lemma for_each_raises {A} (body : A -> M unit) (x : A) (xs : list A) :
  (forall m, exists e, fst (body x m) = Raise e) ->
  In x xs ->
  forall m, exists e, fst (for_each xs body m) = Raise e.
Proof.
  intros Hx. induction xs as [|y ys IH]; intros Hin m; [contradiction|].
  cbn [for_each]. rewrite bind_run.
  destruct (body y m) as [[[]|e] m1] eqn:E.
  - destruct Hin as [->|Hin]; [|now apply IH].
    destruct (Hx m) as [e He]. rewrite E in He. discriminate.
  - now exists e.
Qed.

(** X10: resolving a host is not guarded: when one configured host does not
    resolve, the poll raises, whatever the error and whatever the other
    hosts do, and the heartbeat is not armed, so polling ends there. *)
Theorem unresolved_host_ends_the_polling
    (w : World) (m : Manager) (host : string) (e : exn) :
  In host (hosts m) ->
  gethostbyname w host = Raise e ->
  exists e',
    fst (_manual_hosts w m) = Raise e' /\
    hosts_heartbeat (data (snd (_manual_hosts w m))) = hosts_heartbeat (data m).
Proof.
  intros Hin He.
  destruct (for_each_raises (manual_host w) host (hosts m)) with (m := m) as [e' He'].
  - intros m0. exists e. now rewrite manual_host_run, He.
  - exact Hin.
  - exists e'. rewrite manual_hosts_run.
    pose proof (same_heartbeat_hosts w (hosts m) m) as Hh.
    destruct (for_each (hosts m) (manual_host w) m) as [[[]|e0] m1];
      cbn [fst snd] in *; [discriminate|].
    split; [exact He'|exact Hh].
Qed.

Lemma unresolved_host_ends_the_polling_witness :
  let w := {| pysonos_SoCo := pysonos_SoCo Examples.world_up;
              get_speaker_info := get_speaker_info Examples.world_up;
              coordinator_setup := coordinator_setup Examples.world_up;
              speaker_setup := speaker_setup Examples.world_up;
              gethostbyname := fun host =>
                if String.eqb host "attic.local" then Raise OSError else Ok host;
              int_of_str := int_of_str Examples.world_up |} in
  let m := SonosDiscoveryManager_init Examples.data_kitchen
             ["192.168.1.10"; "attic.local"; "192.168.1.20"] in
  In "attic.local" (hosts m) /\
  gethostbyname w "attic.local" = Raise OSError /\
  exists e',
    fst (_manual_hosts w m) = Raise e' /\
    hosts_heartbeat (data (snd (_manual_hosts w m))) = hosts_heartbeat (data m).
Proof.
  cbv zeta. split; [right; now left|]. split; [reflexivity|].
  apply (unresolved_host_ends_the_polling _ _ "attic.local" OSError);
    [right; now left|reflexivity].
Defined.

Lemma poll_known_hosts w hs m :
  Forall (host_is_known w (data m)) hs ->
  for_each hs (manual_host w) m =
  (Ok tt, add_trace (flat_map (seen_effects w (data m)) hs) m).
Proof.
  revert m. induction hs as [|h hs IH]; intros m H.
  - cbn. now rewrite add_trace_nil.
  - inversion H as [|? ? (ip & u & Hip & Hu & Hne) Hrest]; subst.
    cbn [for_each flat_map]. rewrite bind_run, manual_host_run, Hip, Hu.
    unfold seen_effects at 1. rewrite Hip, Hu. unfold str_truthy.
    destruct (String.eqb_spec u ""); [contradiction|]. cbn [negb].
    rewrite IH by exact Hrest. now rewrite add_trace_app.
Qed.

(** X11: a poll in which every configured host resolves to the address of a
    known record leaves the speakers alone: each host is resolved and marked
    as seen, no handle is created, and the data changes only in the heartbeat. *)
Theorem poll_of_known_hosts (w : World) (m : Manager) :
  Forall (host_is_known w (data m)) (hosts m) ->
  let r := _manual_hosts w m in
  fst r = Ok tt /\
  data (snd r) = set_hosts_heartbeat true (data m) /\
  trace (snd r) =
    (trace m ++ flat_map (seen_effects w (data m)) (hosts m) ++ [Call_later])%list.
Proof.
  intros H. cbv zeta. rewrite manual_hosts_run, (poll_known_hosts w _ m H).
  cbn. split; [reflexivity|]. split; [reflexivity|]. now rewrite <- app_assoc.
Qed.

Lemma poll_of_known_hosts_witness :
  let m := SonosDiscoveryManager_init Examples.data_kitchen ["192.168.1.10"] in
  Forall (host_is_known Examples.world_up (data m)) (hosts m) /\
  trace (snd (_manual_hosts Examples.world_up m)) =
  [Call_gethostbyname "192.168.1.10"; Dispatch (SONOS_SEEN "RINCON_A"); Call_later].
Proof.
  cbv zeta.
  assert (H : Forall (host_is_known Examples.world_up Examples.data_kitchen)
                ["192.168.1.10"]).
  { constructor; [|constructor]. exists "192.168.1.10", "RINCON_A".
    split; [reflexivity|]. split; [reflexivity|discriminate]. }
  split; [exact H|].
  exact (proj2 (proj2 (poll_of_known_hosts Examples.world_up
                         (SonosDiscoveryManager_init Examples.data_kitchen
                            ["192.168.1.10"]) H))).
Defined.

Lemma stop_manual_heartbeat_run m :
  _stop_manual_heartbeat m =
  if hosts_heartbeat (data m)
  then (Ok tt, snd (modify_data (set_hosts_heartbeat false)
                      (add_trace [Cancel_heartbeat] m)))
  else (Ok tt, m).
Proof.
  unfold _stop_manual_heartbeat, bind. cbn [get_data].
  now destruct (hosts_heartbeat (data m)).
Qed.

(** X12: stopping the heartbeat after a completed poll cancels it once:
    [Cancel_heartbeat] is the one effect, the heartbeat is cleared, and a
    second stop does nothing at all. *)
Theorem stop_cancels_the_poll_once (w : World) (m : Manager) :
  fst (_manual_hosts w m) = Ok tt ->
  let polled := snd (_manual_hosts w m) in
  let stopped := snd (_stop_manual_heartbeat polled) in
  trace stopped = (trace polled ++ [Cancel_heartbeat])%list /\
  hosts_heartbeat (data stopped) = false /\
  _stop_manual_heartbeat stopped = (Ok tt, stopped).
Proof.
  intros Hok. cbv zeta.
  assert (Hh : hosts_heartbeat (data (snd (_manual_hosts w m))) = true).
  { rewrite manual_hosts_run in *.
    now destruct (for_each (hosts m) (manual_host w) m) as [[[]|e] m1]. }
  clear Hok. generalize dependent (snd (_manual_hosts w m)). intros polled Hh.
  rewrite (stop_manual_heartbeat_run polled), Hh. cbn [snd].
  rewrite stop_manual_heartbeat_run. cbn. repeat split.
Qed.

Lemma stop_cancels_the_poll_once_witness :
  let m := SonosDiscoveryManager_init Examples.data_kitchen ["192.168.1.10"] in
  fst (_manual_hosts Examples.world_up m) = Ok tt /\
  hosts_heartbeat
    (data (snd (_stop_manual_heartbeat (snd (_manual_hosts Examples.world_up m))))) =
  false.
Proof.
  cbv zeta. split; [reflexivity|].
  exact (proj1 (proj2 (stop_cancels_the_poll_once Examples.world_up
                         (SonosDiscoveryManager_init Examples.data_kitchen
                            ["192.168.1.10"]) eq_refl))).
Defined.

(** ** The lock and the tasks *)

Lemma task_step_release w t m p m1 :
  task_step w t m = (Ok p, m1) ->
  holds_lock p = false ->
  (discovery_lock m1 = discovery_lock m /\ holds_lock (task_pc t) = false) \/
  discovery_lock m1 = false.
Proof.
  unfold task_step. destruct (task_pc t) as [| |r| |r| |e] eqn:Hpc.
  - destruct (discovery_lock m) eqn:Hl.
    + intros E _. injection E as <- <-. now left.
    + destruct (enter_shape t m) as (p' & Hf & _ & Lk & _).
      destruct (enter t m) as [r m']. cbn in *. subst r.
      intros E Hp. injection E as <- <-. right. now rewrite Lk.
  - unfold executor_job. rewrite Hpc.
    destruct (_discovered_ip w (task_ip t) m). intros E. now injection E as <- <-.
  - destruct (resume_shape t m) as (p' & Hf & _ & _ & _ & Lk);
      try (rewrite Hpc; first [reflexivity|discriminate]).
    destruct (resume t m) as [r' m']. cbn in *. subst r'.
    intros E _. injection E as <- <-. now right.
  - unfold executor_job. rewrite Hpc.
    destruct (_create_soco w (task_ip t) REBOOTED m). intros E. now injection E as <- <-.
  - destruct (resume_shape t m) as (p' & Hf & _ & _ & _ & Lk);
      try (rewrite Hpc; first [reflexivity|discriminate]).
    destruct (resume t m) as [r' m']. cbn in *. subst r'.
    intros E _. injection E as <- <-. now right.
  - intros E _. injection E as <- <-. now left.
  - intros E _. injection E as <- <-. now left.
Qed.

Lemma lock_owned_same m m' :
  discovery_lock m' = discovery_lock m -> tasks m' = tasks m ->
  lock_owned m -> lock_owned m'.
Proof. unfold lock_owned. now intros -> ->. Qed.

Lemma lock_owned_step l m : lock_owned m -> lock_owned (step l m).
Proof.
  intros H. destruct l as [e w|i w|w|].
  - cbn. destruct (discovered_shape w (d_source e) (d_ip e) (d_uid e)
                     (d_boot_seqnum e) (d_model e) m) as (L & _ & _ & [T|[b T]]).
    + now apply (lock_owned_same m).
    + intros Hl. rewrite L in Hl. destruct (H Hl) as (i & t & Hi & Hc).
      exists i, t. split; [|exact Hc]. rewrite T. now apply lookup_app_l_Some.
  - destruct (tasks m !! i) as [t|] eqn:Hi.
    + destruct (task_step_shape w t m) as (p & m1 & E & T & _).
      destruct (run_task_shape w i t m Hi) as (p' & m1' & E' & ->).
      rewrite E in E'. injection E' as <- <-.
      destruct (holds_lock p) eqn:Hp.
      * intros _. exists i, (set_pc p t). split; [|exact Hp].
        cbn. now rewrite T, list_lookup_alter_eq, Hi.
      * destruct (task_step_release w t m p m1 E Hp) as [[L Hh]|L];
          intros Hl; cbn in Hl; [|congruence].
        rewrite L in Hl. destruct (H Hl) as (j & tj & Hj & Hc).
        exists j, tj. split; [|exact Hc].
        cbn. rewrite T, list_lookup_alter_ne; [exact Hj|].
        intros <-. unfold in_critical_section in Hc. congruence.
    + cbn. unfold run_task. now rewrite Hi.
  - cbn. destruct (manual_hosts_outside_the_lock w m) as (_ & _ & L & T & _).
    now apply (lock_owned_same m).
  - cbn [step]. apply (lock_owned_same m); [| |exact H];
      rewrite stop_manual_heartbeat_run; now destruct (hosts_heartbeat (data m)).
Qed.

Lemma lock_owned_run ls m : lock_owned m -> lock_owned (run ls m).
Proof.
  revert m. induction ls as [|l ls IH]; intros m H; cbn; [exact H|].
  apply IH. now apply lock_owned_step.
Qed.

(** X13: the lock is never left held.  In every state the manager reaches,
    the lock is held exactly when some task is between the granted
    [async with] and its exit; once every coroutine has returned or raised,
    the lock is free. *)
Theorem lock_is_held_by_a_task (ls : list label) (d : SonosData) (hs : list string) :
  let m := run ls (SonosDiscoveryManager_init d hs) in
  discovery_lock m = true <->
  exists i t, tasks m !! i = Some t /\ in_critical_section t = true.
Proof.
  cbv zeta. split.
  - apply lock_owned_run. intros Hl. discriminate.
  - intros (i & t & Hi & Hc).
    destruct (mutual_exclusion_run ls _ (mutual_exclusion_init d hs)) as [Hlock _].
    now apply (Hlock i t).
Qed.

Lemma lock_is_held_by_a_task_witness :
  let m := run [Discovered Examples.discovery_kitchen Examples.world_up;
                Run 0 Examples.world_up]
             (SonosDiscoveryManager_init SonosData_init []) in
  discovery_lock m = true /\
  exists i t, tasks m !! i = Some t /\ in_critical_section t = true.
Proof.
  cbv zeta. split; [reflexivity|].
  exact (proj1 (lock_is_held_by_a_task
                  [Discovered Examples.discovery_kitchen Examples.world_up;
                   Run 0 Examples.world_up] SonosData_init []) eq_refl).
Defined.

Lemma lock_replay_app t1 t2 b :
  lock_replay (t1 ++ t2) b =
  match lock_replay t1 b with
  | Some b' => lock_replay t2 b'
  | None => None
  end.
Proof.
  revert b. induction t1 as [|e t1 IH]; intros b; [reflexivity|].
  destruct e; cbn; try apply IH; destruct b; auto.
Qed.

Lemma lock_replay_other t b :
  Forall (fun e => lock_or_task_effect e = false) t -> lock_replay t b = Some b.
Proof.
  induction 1 as [|e t He _ IH]; [reflexivity|].
  destruct e; try discriminate; exact IH.
Qed.

Lemma lock_trace_refl m : lock_trace m m.
Proof. exists []. split; [now rewrite app_nil_r|reflexivity]. Qed.

Lemma lock_trace_trans a b c : lock_trace a b -> lock_trace b c -> lock_trace a c.
Proof.
  intros (t1 & E1 & R1) (t2 & E2 & R2). exists (t1 ++ t2)%list. split.
  - rewrite E2, E1. now rewrite app_assoc.
  - now rewrite lock_replay_app, R1.
Qed.

Lemma lock_trace_outside m m' : outside_the_lock m m' -> lock_trace m m'.
Proof.
  intros (_ & _ & L & _ & t & E & F). exists t. split; [exact E|].
  rewrite L. now apply lock_replay_other.
Qed.

Lemma outside_the_lock_emit e :
  lock_or_task_effect e = false -> preserves outside_the_lock (emit e).
Proof.
  intros He m0. repeat split. exists [e]. split; [reflexivity|].
  constructor; [exact He|constructor].
Qed.

Lemma create_soco_outside_the_lock w ip source m :
  outside_the_lock m (snd (_create_soco w ip source m)).
Proof.
  apply (preserves_create_soco outside_the_lock);
    eauto using outside_the_lock_refl, outside_the_lock_trans, outside_the_lock_emit.
Qed.

Lemma discovered_ip_outside_the_lock w ip m :
  outside_the_lock m (snd (_discovered_ip w ip m)).
Proof.
  apply (preserves_discovered_ip outside_the_lock);
    eauto using outside_the_lock_refl, outside_the_lock_trans, outside_the_lock_emit.
  - intros k v m0. now apply outside_the_lock_data.
  - intros c k v m0. apply outside_the_lock_data; now destruct c.
Qed.

Lemma lock_trace_discovered w source ip k boot model m :
  lock_trace m (snd (async_discovered_player w source ip k boot model m)).
Proof.
  unfold lock_trace, async_discovered_player.
  destruct (opt_in_list model DISCOVERY_IGNORED_MODELS); cbn.
  { eexists. split; reflexivity. }
  unfold create_task, spawn, modify_data, get_data, put_data, bind, emit, lift, ret,
    add_trace.
  destruct (truthy boot); cbn.
  - destruct (py_int w boot) as [n|e]; cbn.
    + destruct (bool_decide _); cbn -[setdefault]; rewrite <- ?app_assoc;
        eexists; split; reflexivity.
    + exists []. split; [now rewrite app_nil_r|reflexivity].
  - destruct (bool_decide _); cbn; rewrite <- ?app_assoc; eexists; split; reflexivity.
Qed.

Lemma lock_trace_task_step w t m p m1 :
  task_step w t m = (Ok p, m1) ->
  (holds_lock (task_pc t) = true -> discovery_lock m = true) ->
  lock_trace m m1.
Proof.
  unfold task_step. destruct (task_pc t) as [| |r| |r| |e] eqn:Hpc; intros E Hh.
  - destruct (discovery_lock m) eqn:Hl.
    + injection E as <- <-. apply lock_trace_refl.
    + rewrite enter_run in E. unfold lock_trace.
      destruct (od_mem (task_uid t) (discovered (data m)));
        [destruct (rebooted (data m) (task_uid t) (task_boot_seqnum t)) as [[|]|e]|];
        injection E as <- <-; rewrite Hl; cbn; eexists; split; reflexivity.
  - unfold executor_job in E. rewrite Hpc in E.
    pose proof (discovered_ip_outside_the_lock w (task_ip t) m) as Ho.
    destruct (_discovered_ip w (task_ip t) m). injection E as <- <-.
    now apply lock_trace_outside.
  - specialize (Hh eq_refl). unfold resume in E. rewrite Hpc in E.
    unfold lock_trace. rewrite Hh.
    destruct r as [[]|e]; injection E as <- <-; cbn; eexists; split; reflexivity.
  - unfold executor_job in E. rewrite Hpc in E.
    pose proof (create_soco_outside_the_lock w (task_ip t) REBOOTED m) as Ho.
    destruct (_create_soco w (task_ip t) REBOOTED m). injection E as <- <-.
    now apply lock_trace_outside.
  - specialize (Hh eq_refl). unfold resume in E. rewrite Hpc in E.
    unfold lock_trace. rewrite Hh.
    destruct r as [[s|]|e]; injection E as <- <-; cbn; rewrite <- ?app_assoc;
      eexists; split; reflexivity.
  - injection E as <- <-. apply lock_trace_refl.
  - injection E as <- <-. apply lock_trace_refl.
Qed.

Lemma lock_trace_step l m : mutual_exclusion m -> lock_trace m (step l m).
Proof.
  intros [Hlock _]. destruct l as [e w|i w|w|].
  - apply lock_trace_discovered.
  - destruct (tasks m !! i) as [t|] eqn:Hi.
    + destruct (run_task_shape w i t m Hi) as (p & m1 & E & ->).
      apply (lock_trace_task_step w t m p m1 E). intros Hh. now apply (Hlock i t).
    + cbn. unfold run_task. rewrite Hi. apply lock_trace_refl.
  - apply lock_trace_outside, manual_hosts_outside_the_lock.
  - cbn [step]. rewrite stop_manual_heartbeat_run.
    destruct (hosts_heartbeat (data m)); [|apply lock_trace_refl].
    exists [Cancel_heartbeat]. split; reflexivity.
Qed.

Lemma lock_trace_run ls m : mutual_exclusion m -> lock_trace m (run ls m).
Proof.
  revert m. induction ls as [|l ls IH]; intros m H; cbn; [apply lock_trace_refl|].
  eapply lock_trace_trans; [now apply lock_trace_step|].
  apply IH. now apply mutual_exclusion_step.
Qed.

(** X14: in the effects of every run [Lock_acquire] and [Lock_release]
    alternate, starting with an acquire: the lock is never granted while
    held, every exit of the [async with] block releases it once, also the
    exits by an exception, and the lock is held at the end exactly when the
    last of them is an acquire. *)
Theorem lock_effects_alternate (ls : list label) (d : SonosData) (hs : list string) :
  let m := run ls (SonosDiscoveryManager_init d hs) in
  lock_replay (trace m) false = Some (discovery_lock m).
Proof.
  cbv zeta.
  destruct (lock_trace_run ls _ (mutual_exclusion_init d hs)) as (t & E & R).
  cbn in E, R. now rewrite E.
Qed.

(** ** Errors that are not caught, and set-ups that fail *)

(** X16: an exception of the SDK other than [OSError] and [SoCoException]
    is not caught where the device is created: [_create_soco] raises it
    after its one call and logs nothing, the discovery of an unknown
    identifier raises it with the lock released and the data untouched, and
    the poll of a configured host raises it. *)
Theorem unhandled_creation_error_propagates (w : World) (ex : exn) :
  handled ex = false ->
  (forall ip source m,
     pysonos_SoCo w ip = Raise ex ->
     _create_soco w ip source m = (Raise ex, add_trace [Call_SoCo ip] m)) /\
  (forall k ip boot m,
     pysonos_SoCo w ip = Raise ex ->
     od_mem k (discovered (data m)) = false ->
     _async_create_discovered_player w k ip boot m =
     (Raise ex, released (data m) [Lock_acquire; Call_SoCo ip; Lock_release] m)) /\
  (forall host ip m,
     gethostbyname w host = Ok ip ->
     known_uid_of ip (discovered (data m)) = None ->
     pysonos_SoCo w ip = Raise ex ->
     manual_host w host m =
     (Raise ex, add_trace [Call_gethostbyname host; Call_SoCo ip] m)).
Proof.
  intros Hh. split; [|split].
  - intros ip source m H. now rewrite create_soco_run, H, Hh.
  - intros k ip boot m H Hk. rewrite coroutine_new by exact Hk.
    rewrite with_lock_run, discovered_ip_run, H, Hh.
    unfold released, release, acquire, bind, emit, set_lock, add_trace. cbn.
    now rewrite <- !app_assoc.
  - intros host ip m Hip Hk H. rewrite manual_host_run, Hip, Hk.
    unfold configured_player. rewrite bind_run, create_soco_run, H, Hh.
    now rewrite add_trace_app.
Qed.

Lemma unhandled_creation_error_propagates_witness :
  let w := {| pysonos_SoCo := fun _ => Raise ValueError;
              get_speaker_info := get_speaker_info Examples.world_up;
              coordinator_setup := coordinator_setup Examples.world_up;
              speaker_setup := speaker_setup Examples.world_up;
              gethostbyname := gethostbyname Examples.world_up;
              int_of_str := int_of_str Examples.world_up |} in
  handled ValueError = false /\
  _async_create_discovered_player w "RINCON_A" "192.168.1.10" (PyInt 3)
    Examples.manager_fresh =
  (Raise ValueError,
   released (data Examples.manager_fresh)
     [Lock_acquire; Call_SoCo "192.168.1.10"; Lock_release] Examples.manager_fresh).
Proof.
  cbv zeta. split; [reflexivity|].
  apply (proj1 (proj2 (unhandled_creation_error_propagates _ ValueError eq_refl)));
    reflexivity.
Defined.

(** X17: [_discovered_player] stores the record before it sets anything up,
    and stores a coordinator only after its set-up.  When the set-up of the
    alarms coordinator of a new household raises, the record is stored all
    the same, no coordinator is stored, the favorites coordinator and
    [speaker.setup] are never reached, and the exception is logged as one
    warning when it is [OSError] or [SoCoException] and raised otherwise. *)
Theorem failed_coordinator_setup_keeps_the_record
    (w : World) (s : SoCo) (info : SpeakerInfo) (ex : exn) (m : Manager) :
  get_speaker_info w s = Ok info ->
  alarms (data m) !! household_id s = None ->
  coordinator_setup w SonosAlarms s = Raise ex ->
  let r := _discovered_player w s m in
  fst r = (if handled ex then Ok tt else Raise ex) /\
  data (snd r) =
    set_discovered (od_set (uid s) (mkSpeaker s info) (discovered (data m))) (data m) /\
  trace (snd r) =
    (trace m ++
     [Call_get_speaker_info s; Log (Debug_adding_new_speaker info);
      New_SonosSpeaker s; Call_coordinator_setup SonosAlarms s] ++
     (if handled ex then [Log (Warn_failed_to_add s)] else []))%list.
Proof.
  intros Hi Ha Hc.
  unfold _discovered_player, discovered_player_try, setup_coordinator, try_except,
    modify_data, get_data, put_data, bind, emit, lift, ret, add_trace.
  cbn. rewrite Hi. cbn. rewrite Ha. cbn. rewrite Hc. cbn.
  destruct (handled ex); cbn; rewrite <- ?app_assoc; repeat split.
Qed.

Lemma failed_coordinator_setup_keeps_the_record_witness :
  let w := {| pysonos_SoCo := pysonos_SoCo Examples.world_up;
              get_speaker_info := get_speaker_info Examples.world_up;
              coordinator_setup := fun _ _ => Raise OSError;
              speaker_setup := speaker_setup Examples.world_up;
              gethostbyname := gethostbyname Examples.world_up;
              int_of_str := int_of_str Examples.world_up |} in
  let r := _discovered_player w Examples.kitchen Examples.manager_fresh in
  fst r = Ok tt /\
  discovered (data (snd r)) = [("RINCON_A", Examples.kitchen_speaker)] /\
  alarms (data (snd r)) = ∅ /\ favorites (data (snd r)) = ∅.
Proof.
  cbv zeta.
  destruct (failed_coordinator_setup_keeps_the_record
              {| pysonos_SoCo := pysonos_SoCo Examples.world_up;
                 get_speaker_info := get_speaker_info Examples.world_up;
                 coordinator_setup := fun _ _ => Raise OSError;
                 speaker_setup := speaker_setup Examples.world_up;
                 gethostbyname := gethostbyname Examples.world_up;
                 int_of_str := int_of_str Examples.world_up |}
              Examples.kitchen [("zone_name", "Kitchen")] OSError
              Examples.manager_fresh eq_refl eq_refl eq_refl) as (Hr & Hd & _).
  split; [exact Hr|]. rewrite Hd. repeat split.
Defined.

Lemma discovered_player_known_household w s m :
  (forall c, is_Some (coord_dict c (data m) !! household_id s)) ->
  (forall c,
     coord_dict c (data (snd (_discovered_player w s m))) = coord_dict c (data m)) /\
  List.filter is_coordinator_call (trace (snd (_discovered_player w s m))) =
  List.filter is_coordinator_call (trace m).
Proof.
  intros H.
  destruct (H SonosAlarms) as [a Ha]. destruct (H SonosFavorites) as [f Hf].
  cbn in Ha, Hf.
  unfold _discovered_player, discovered_player_try, setup_coordinator, try_except,
    modify_data, get_data, put_data, bind, emit, lift, ret, add_trace.
  cbn.
  destruct (get_speaker_info w s) as [info|ex]; cbn.
  2:{ destruct (handled ex); cbn; (split; [now intros []|]);
      rewrite ?List.filter_app; cbn; now rewrite ?app_nil_r. }
  rewrite Ha. cbn. rewrite Hf. cbn.
  destruct (speaker_setup w _) as [[]|ex]; cbn; [|destruct (handled ex); cbn];
    (split; [now intros []|]);
    rewrite ?List.filter_app; cbn; now rewrite ?app_nil_r.
Qed.

Lemma discovered_player_sets_household w s info m :
  get_speaker_info w s = Ok info ->
  (forall c, coordinator_setup w c s = Ok tt) ->
  forall c,
    is_Some (coord_dict c (data (snd (_discovered_player w s m))) !! household_id s).
Proof.
  intros Hi Hc.
  unfold _discovered_player, discovered_player_try, setup_coordinator, try_except,
    modify_data, get_data, put_data, bind, emit, lift, ret, add_trace.
  cbn. rewrite Hi. cbn.
  destruct (alarms (data m) !! household_id s) eqn:Ha; cbn;
    rewrite ?(Hc SonosAlarms); cbn;
    (destruct (favorites (data m) !! household_id s) eqn:Hf; cbn;
     rewrite ?(Hc SonosFavorites); cbn;
     (destruct (speaker_setup w _) as [[]|ex]; cbn; [|destruct (handled ex); cbn];
      intros []; cbn; rewrite ?lookup_insert_eq, ?Ha, ?Hf; eauto)).
Qed.

(** X18: the coordinators of a household are set up once.  After a speaker
    whose information and coordinators could be set up, a further speaker
    of the same household, whatever the devices answer then, leaves both
    coordinator dictionaries as they are and makes no coordinator set-up
    call. *)
Theorem household_coordinators_are_set_up_once
    (w w' : World) (s s' : SoCo) (info : SpeakerInfo) (m : Manager) :
  get_speaker_info w s = Ok info ->
  (forall c, coordinator_setup w c s = Ok tt) ->
  household_id s' = household_id s ->
  let m1 := snd (_discovered_player w s m) in
  let m2 := snd (_discovered_player w' s' m1) in
  (forall c, coord_dict c (data m2) = coord_dict c (data m1)) /\
  List.filter is_coordinator_call (trace m2) =
  List.filter is_coordinator_call (trace m1).
Proof.
  intros Hi Hc Hh. cbv zeta.
  apply discovered_player_known_household. rewrite Hh.
  now apply (discovered_player_sets_household w s info).
Qed.

Lemma household_coordinators_are_set_up_once_witness :
  let m1 := snd (_discovered_player Examples.world_up Examples.kitchen
                   Examples.manager_fresh) in
  let m2 := snd (_discovered_player Examples.world_down Examples.kitchen_moved m1) in
  List.filter is_coordinator_call (trace m2) =
  List.filter is_coordinator_call (trace m1).
Proof.
  cbv zeta.
  refine (proj2 (household_coordinators_are_set_up_once
                   Examples.world_up Examples.world_down
                   Examples.kitchen Examples.kitchen_moved
                   [("zone_name", "Kitchen")] Examples.manager_fresh
                   eq_refl _ eq_refl)).
  intros c. reflexivity.
Defined.

(** ** Devices that are skipped, and devices under another identifier *)

(** X23: a speaker that answers but is not visible is skipped without a
    trace in the data: the discovery of an unknown identifier and the poll
    of a configured host both make the one call that creates the handle,
    and store and log nothing. *)
Theorem invisible_speaker_is_skipped (w : World) (ip : string) (s : SoCo) :
  pysonos_SoCo w ip = Ok s ->
  is_visible s = false ->
  (forall k boot m,
     od_mem k (discovered (data m)) = false ->
     _async_create_discovered_player w k ip boot m =
     (Ok tt, released (data m) [Lock_acquire; Call_SoCo ip; Lock_release] m)) /\
  (forall host m,
     gethostbyname w host = Ok ip ->
     known_uid_of ip (discovered (data m)) = None ->
     manual_host w host m =
     (Ok tt, add_trace [Call_gethostbyname host; Call_SoCo ip] m)).
Proof.
  intros Hs Hv. split.
  - intros k boot m Hk. rewrite coroutine_new by exact Hk.
    rewrite with_lock_run, discovered_ip_run, Hs, Hv.
    unfold released, release, acquire, bind, emit, set_lock, add_trace. cbn.
    now rewrite <- !app_assoc.
  - intros host m Hip Hk. rewrite manual_host_run, Hip, Hk.
    unfold configured_player. rewrite bind_run, create_soco_run, Hs. cbn.
    rewrite Hv. cbn. unfold add_trace. cbn. now rewrite <- app_assoc.
Qed.

Lemma invisible_speaker_is_skipped_witness :
  let bridge := {| ip_address := "192.168.1.30"; uid := "RINCON_B";
                   is_visible := false; household_id := "HH1" |} in
  let w := {| pysonos_SoCo := fun _ => Ok bridge;
              get_speaker_info := get_speaker_info Examples.world_up;
              coordinator_setup := coordinator_setup Examples.world_up;
              speaker_setup := speaker_setup Examples.world_up;
              gethostbyname := gethostbyname Examples.world_up;
              int_of_str := int_of_str Examples.world_up |} in
  is_visible bridge = false /\
  _async_create_discovered_player w "RINCON_B" "192.168.1.30" PyNone
    Examples.manager_kitchen =
  (Ok tt,
   released (data Examples.manager_kitchen)
     [Lock_acquire; Call_SoCo "192.168.1.30"; Lock_release] Examples.manager_kitchen).
Proof.
  cbv zeta. split; [reflexivity|].
  apply (proj1 (invisible_speaker_is_skipped
                  {| pysonos_SoCo := fun _ =>
                       Ok {| ip_address := "192.168.1.30"; uid := "RINCON_B";
                             is_visible := false; household_id := "HH1" |};
                     get_speaker_info := get_speaker_info Examples.world_up;
                     coordinator_setup := coordinator_setup Examples.world_up;
                     speaker_setup := speaker_setup Examples.world_up;
                     gethostbyname := gethostbyname Examples.world_up;
                     int_of_str := int_of_str Examples.world_up |}
                  "192.168.1.30" _ eq_refl eq_refl)).
  reflexivity.
Defined.

(** Once the speaker information is read, one speaker object has been built
    for the handle. *)
Lemma discovered_player_constructs w s info m k :
  get_speaker_info w s = Ok info ->
  constructions k (trace (snd (_discovered_player w s m))) =
  (constructions k (trace m) + if String.eqb (uid s) k then 1 else 0)%nat.
Proof.
  intros H.
  unfold _discovered_player, discovered_player_try, setup_coordinator, try_except,
    modify_data, get_data, put_data, bind, emit, lift, ret, add_trace.
  cbn. rewrite H. cbn.
  destruct (alarms (data m) !! household_id s); cbn.
  all: try destruct (coordinator_setup w SonosAlarms s) as [[]|ex]; cbn.
  all: try destruct (favorites (data m) !! household_id s); cbn.
  all: try destruct (coordinator_setup w SonosFavorites s) as [[]|ex']; cbn.
  all: try destruct (speaker_setup w _) as [[]|ex'']; cbn.
  all: repeat match goal with |- context [handled ?e] => destruct (handled e); cbn end.
  all: rewrite ?constructions_app; unfold constructions; cbn;
    destruct (String.eqb (uid s) k); cbn; lia.
Qed.

Lemma coroutine_creates w k ip boot s info m :
  od_mem k (discovered (data m)) = false ->
  pysonos_SoCo w ip = Ok s -> is_visible s = true ->
  get_speaker_info w s = Ok info ->
  let m' := snd (_async_create_discovered_player w k ip boot m) in
  discovered (data m') = od_set (uid s) (mkSpeaker s info) (discovered (data m)) /\
  forall k',
    constructions k' (trace m') =
    (constructions k' (trace m) + if String.eqb (uid s) k' then 1 else 0)%nat.
Proof.
  intros Hk Hs Hv Hi. cbv zeta.
  rewrite coroutine_new by exact Hk.
  rewrite with_lock_run, discovered_ip_run, Hs, Hv. cbn [snd].
  unfold release, set_lock, emit, bind. cbn [snd data trace add_trace].
  split.
  - now rewrite (discovered_player_stores w s info _ Hi).
  - intros k'. rewrite constructions_app, (discovered_player_constructs w s info _ k' Hi).
    cbn [trace add_trace acquire bind emit set_lock snd].
    rewrite !constructions_app. unfold constructions at 2 3 4. cbn. lia.
Qed.

(** X24: the record is stored under the identifier the device reports, not
    under the identifier of the discovery.  When the two differ, the
    discovered identifier stays without a record, so the next discovery of
    it takes the creation branch again and a second speaker object is built
    for the same device. *)
Theorem mismatched_uid_is_created_again
    (w : World) (k ip : string) (boot boot' : pyval) (s : SoCo) (info : SpeakerInfo)
    (m : Manager) :
  od_mem k (discovered (data m)) = false ->
  pysonos_SoCo w ip = Ok s -> is_visible s = true ->
  get_speaker_info w s = Ok info ->
  uid s <> k ->
  let m1 := snd (_async_create_discovered_player w k ip boot m) in
  let m2 := snd (_async_create_discovered_player w k ip boot' m1) in
  od_mem k (discovered (data m1)) = false /\
  od_mem k (discovered (data m2)) = false /\
  constructions (uid s) (trace m2) = (constructions (uid s) (trace m) + 2)%nat.
Proof.
  intros Hk Hs Hv Hi Hne. cbv zeta.
  destruct (coroutine_creates w k ip boot s info m Hk Hs Hv Hi) as [D1 C1].
  assert (Hk1 : od_mem k (discovered
                  (data (snd (_async_create_discovered_player w k ip boot m)))) = false).
  { rewrite D1, od_mem_set_ne; [exact Hk|congruence]. }
  destruct (coroutine_creates w k ip boot' s info _ Hk1 Hs Hv Hi) as [D2 C2].
  split; [exact Hk1|]. split.
  - rewrite D2, od_mem_set_ne; [exact Hk1|congruence].
  - rewrite C2, C1, String.eqb_refl. lia.
Qed.

Lemma mismatched_uid_is_created_again_witness :
  let m1 := snd (_async_create_discovered_player Examples.world_up "RINCON_OLD"
                   "192.168.1.10" PyNone Examples.manager_fresh) in
  let m2 := snd (_async_create_discovered_player Examples.world_up "RINCON_OLD"
                   "192.168.1.10" PyNone m1) in
  uid Examples.kitchen <> "RINCON_OLD" /\
  constructions "RINCON_A" (trace m2) = 2%nat.
Proof.
  cbv zeta.
  assert (Hne : uid Examples.kitchen <> "RINCON_OLD") by discriminate.
  split; [exact Hne|].
  exact (proj2 (proj2 (mismatched_uid_is_created_again Examples.world_up
                         "RINCON_OLD" "192.168.1.10" PyNone PyNone
                         Examples.kitchen [("zone_name", "Kitchen")]
                         Examples.manager_fresh
                         eq_refl eq_refl eq_refl eq_refl Hne))).
Defined.

(** * Properties of the sensor units *)

Import MySensors SensorNotions.

Lemma enum_call_value E v m : enum_call E v = Ok m -> value m = v.
Proof.
  unfold enum_call. destruct (List.find _ E) as [m'|] eqn:Hf; [|discriminate].
  intros H. injection H as <-. apply find_some in Hf as [_ Hf].
  now apply Z.eqb_eq.
Qed.

Lemma enum_attr_call E n m : enum_attr E n = Ok m -> enum_call E (value m) = Ok m.
Proof.
  unfold enum_attr. destruct (List.find _ E) as [m'|]; [|discriminate].
  intros H. pose proof (enum_call_value _ _ _ H) as Hv. now rewrite Hv.
Qed.

(** Two members with the same value are the same member. *)
Lemma enum_member_eq E v n vt m :
  enum_call E v = Ok vt -> enum_attr E n = Ok m ->
  value vt = value m -> vt = m.
Proof.
  intros Hc Ha Hv. apply enum_attr_call in Ha.
  rewrite <- Hv, (enum_call_value _ _ _ Hc), Hc in Ha. now injection Ha.
Qed.

Lemma SENSORS_ok K : Forall entry_ok (SENSORS K).
Proof. unfold SENSORS, entry_ok. repeat constructor; cbn; discriminate. Qed.

Lemma od_get_Forall {V} (P : string * V -> Prop) k v (d : list (string * V)) :
  Forall P d -> od_get k d = Some v -> P (k, v).
Proof.
  induction 1 as [|[k' v'] d Hkv _ IH]; cbn; [discriminate|].
  destruct (String.eqb_spec k k') as [->|_]; [|exact IH].
  intros H. now injection H as <-.
Qed.

Lemma index_0_nth {A} (l : list (option A)) :
  l <> [] -> index l 0 = Ok (nth 0 l None).
Proof. destruct l; [contradiction|reflexivity]. Qed.

(** With valid value and child types, the first element of what
    [_get_sensor_type] returns is the unit of the table. *)
Lemma get_sensor_type_unit K self vt ct :
  enum_call (SetReq (gateway self)) (value_type self) = Ok vt ->
  enum_call (Presentation (gateway self)) (child_type self) = Ok ct ->
  outcome_bind (_get_sensor_type K self) (fun l => index l 0) =
  Ok (table_unit K (name vt) (name ct)).
Proof.
  intros Hvt Hct. unfold _get_sensor_type, table_unit. rewrite Hvt. cbn [outcome_bind].
  destruct (od_get (name vt) (SENSORS K)) as [[l|d]|] eqn:He; cbn [outcome_bind].
  - apply (od_get_Forall _ _ _ _ (SENSORS_ok K)) in He. now apply index_0_nth.
  - rewrite Hct. cbn [outcome_bind].
    apply (od_get_Forall _ _ _ _ (SENSORS_ok K)) in He. unfold entry_ok in He. cbn in He.
    destruct (od_get (name ct) d) as [l|] eqn:Hd; cbn [outcome_bind]; [|reflexivity].
    apply (od_get_Forall _ _ _ _ He) in Hd. now apply index_0_nth.
  - reflexivity.
Qed.

(** The precedence holds for whatever the version test answers. *)
Lemma unit_precedence_holds K ge self at_least :
  ge (protocol_version (gateway self)) "1.5" = Ok at_least ->
  unit_precedence K ge self at_least.
Proof.
  intros Hge. split.
  - intros prefix custom -> Hp Hc. unfold unit_of_measurement.
    rewrite Hge. cbn [outcome_bind]. rewrite Hp. cbn [outcome_bind]. now rewrite Hc.
  - intros vt v_temp Hvt Htemp Hprefix Hno.
    assert (E : unit_of_measurement K ge self =
                if Z.eqb (value vt) (value v_temp)
                then if is_metric self then Ok (Some (TEMP_CELSIUS K))
                     else Ok (Some (TEMP_FAHRENHEIT K))
                else outcome_bind (_get_sensor_type K self) (fun l => index l 0)).
    { unfold unit_of_measurement. rewrite Hge. cbn [outcome_bind].
      assert (Hcustom :
                (if at_least
                 then outcome_bind (enum_attr (SetReq (gateway self)) "V_UNIT_PREFIX")
                        (fun prefix => Ok (_values self !! value prefix))
                 else Ok None) = Ok None).
      { destruct at_least; [|reflexivity].
        destruct (Hprefix eq_refl) as [prefix Hp]. rewrite Hp. cbn [outcome_bind].
        destruct Hno as [Hno|Hno]; [discriminate|]. now rewrite (Hno prefix Hp). }
      rewrite Hcustom. cbn [outcome_bind]. rewrite Hvt, Htemp. cbn [outcome_bind].
      now destruct (Z.eqb (value vt) (value v_temp)). }
    split.
    + intros ->. rewrite E, Z.eqb_refl. now destruct (is_metric self).
    + intros Hne ct Hct. split.
      * rewrite E. destruct (Z.eqb_spec (value vt) (value v_temp)) as [Hv|_].
        -- exfalso. apply Hne. eapply enum_member_eq; eassumption.
        -- now apply get_sensor_type_unit.
      * intros Hnone. unfold table_unit. now rewrite Hnone.
Qed.

Lemma version_ge_orders : orders_major_minor version_ge.
Proof. intros a b x y Ha Hb. unfold version_ge. now rewrite Ha, Hb. Qed.

(** C9: the unit of a sensor.  The version library orders versions of the
    form major.minor by their numbers.  For a gateway whose protocol
    version is such a version, a custom unit stored under [V_UNIT_PREFIX]
    wins exactly when the version is at least 1.5: 1.5 and 2.0 qualify, 1.4
    does not.  Otherwise, for a sensor whose value type is a member of the
    gateway's enum (the gateway defining [V_TEMP] and, from protocol 1.5 on,
    [V_UNIT_PREFIX]): a [V_TEMP] sensor gives Celsius on a metric platform
    and Fahrenheit on any other; every other sensor, its child type being a
    member too, gives the unit of the static table, which is [None] for a
    value type the table does not have.  For a protocol version of another
    form the same holds with the answer of the library's comparison in the
    place of "at least 1.5", and when the comparison raises, so does the
    property. *)
Theorem unit_of_measurement_precedence
    (K : Const) (ge : string -> string -> outcome bool) (self : MySensorsSensor) :
  orders_major_minor ge ->
  let version := protocol_version (gateway self) in
  (forall v,
     major_minor version = Some v ->
     unit_precedence K ge self (pair_ge v (1, 5)%N)) /\
  (forall at_least,
     ge version "1.5" = Ok at_least -> unit_precedence K ge self at_least) /\
  (forall e,
     ge version "1.5" = Raise e -> unit_of_measurement K ge self = Raise e).
Proof.
  intros Hge version. subst version. split; [|split].
  - intros v Hv. apply unit_precedence_holds. now apply Hge.
  - intros at_least. apply unit_precedence_holds.
  - intros e He. unfold unit_of_measurement. now rewrite He.
Qed.

(** A sound sensor on a gateway of protocol 2.0, which qualifies and has no
    custom unit stored, takes the unit of the table; a power meter on the
    same gateway with a custom unit stored reports that unit. *)
Lemma unit_of_measurement_precedence_witness :
  orders_major_minor version_ge /\
  major_minor (protocol_version (gateway sensor_sound)) = Some (2, 0)%N /\
  pair_ge (2, 0)%N (1, 5)%N = true /\
  unit_of_measurement const_metric version_ge sensor_sound = Ok (Some "dB") /\
  unit_of_measurement const_metric version_ge sensor_custom = Ok (Some "mW").
Proof.
  split; [exact version_ge_orders|]. split; [reflexivity|]. split; [reflexivity|].
  split.
  - destruct (proj1 (unit_of_measurement_precedence const_metric version_ge
                       sensor_sound version_ge_orders) (2, 0)%N eq_refl)
      as [_ Hrest].
    destruct (Hrest (mkMember "V_LEVEL" 37) (mkMember "V_TEMP" 0) eq_refl eq_refl)
      as [_ Hother].
    + intros _. exists (mkMember "V_UNIT_PREFIX" 43). reflexivity.
    + right. intros prefix Hp. vm_compute in Hp. injection Hp as <-. reflexivity.
    + destruct (Hother ltac:(discriminate) (mkMember "S_SOUND" 33) eq_refl)
        as [Hunit _]. exact Hunit.
  - destruct (proj1 (unit_of_measurement_precedence const_metric version_ge
                       sensor_custom version_ge_orders) (2, 0)%N eq_refl)
      as [Hcustom _].
    exact (Hcustom (mkMember "V_UNIT_PREFIX" 43) "mW" eq_refl eq_refl eq_refl).
Defined.

(** ** The three cases on concrete sensors *)

Example custom_unit_wins :
  unit_of_measurement const_metric version_ge sensor_custom = Ok (Some "mW").
Proof. reflexivity. Qed.

Example temperature_is_celsius_when_metric :
  unit_of_measurement const_metric version_ge sensor_temp =
  Ok (Some (TEMP_CELSIUS const_metric)).
Proof. reflexivity. Qed.

(** Before protocol 1.5 a stored prefix is not looked at. *)
Example prefix_ignored_before_1_5 :
  unit_of_measurement const_metric version_ge
    {| gateway := gateway_1_4; value_type := 3; child_type := 6;
       _values := {[3 := "50"; 43 := "mW"]}; is_metric := true |} =
  Ok (Some (PERCENTAGE const_metric)).
Proof. reflexivity. Qed.

(** A value type that is no member of the enum makes [set_req(...)] raise. *)
Example unknown_value_type_raises :
  unit_of_measurement const_metric version_ge
    {| gateway := gateway_1_4; value_type := 99; child_type := 6;
       _values := ∅; is_metric := true |} =
  Raise ValueError.
Proof. reflexivity. Qed.

(** The versions the test is decided for by their numbers. *)
Example versions_at_least_1_5 :
  List.map (fun v => option_map (fun x => pair_ge x (1, 5)%N) (major_minor v))
    ["1.4"; "1.5"; "1.10"; "2.0"; "2.3"; "1.5.0"; "1.5-beta"; "2"] =
  [Some false; Some true; Some true; Some true; Some true; None; None; None].
Proof. reflexivity. Qed.

(** ** Icons and device classes *)

Lemma SENSORS_three K : Forall entry_has_three (SENSORS K).
Proof. unfold SENSORS, entry_has_three. repeat constructor. Qed.

Lemma SENSORS_dict K : Forall dict_only_for_level (SENSORS K).
Proof. unfold SENSORS, dict_only_for_level. repeat constructor. Qed.

Lemma SENSORS_class K : Forall (class_of_entry K) (SENSORS K).
Proof.
  unfold SENSORS.
  repeat (apply List.Forall_cons;
          [unfold class_of_entry; cbn;
           first [ intros c H; inversion H; subst; now auto
                 | repeat constructor ]
          |]).
  apply List.Forall_nil.
Qed.

Lemma enum_call_raises E v e : enum_call E v = Raise e -> e = ValueError.
Proof.
  unfold enum_call. destruct (List.find _ E); [discriminate|].
  intros H. now injection H.
Qed.

(** What [_get_sensor_type] returns has three elements, and what it raises
    is the [ValueError] of an enum. *)
Lemma get_sensor_type_result K self :
  match _get_sensor_type K self with
  | Ok l => length l = 3%nat
  | Raise e => e = ValueError /\ invalid_types self
  end.
Proof.
  unfold _get_sensor_type, invalid_types.
  destruct (enum_call (SetReq (gateway self)) (value_type self)) as [vt|e] eqn:Hvt;
    cbn [outcome_bind].
  2:{ apply enum_call_raises in Hvt as He. subst e. split; [reflexivity|now left]. }
  destruct (od_get (name vt) (SENSORS K)) as [[l|d]|] eqn:He; [| |reflexivity].
  - exact (od_get_Forall _ _ _ _ (SENSORS_three K) He).
  - pose proof (od_get_Forall _ _ _ _ (SENSORS_dict K) He) as Hn.
    pose proof (od_get_Forall _ _ _ _ (SENSORS_three K) He) as H3.
    unfold dict_only_for_level, entry_has_three in *. cbn in Hn, H3.
    destruct (enum_call (Presentation (gateway self)) (child_type self)) as [ct|e]
      eqn:Hct; cbn [outcome_bind].
    + destruct (od_get (name ct) d) as [l|] eqn:Hd; [|reflexivity].
      exact (od_get_Forall _ _ _ _ H3 Hd).
    + apply enum_call_raises in Hct as He'. subst e. split; [reflexivity|].
      right. now exists vt.
Qed.

(** X19: [device_class] and [icon] never index out of range: what
    [_get_sensor_type] returns always has three elements.  The one exception
    they raise is [ValueError], for a value type that is no member of the
    gateway's enum, or for a [V_LEVEL] sensor whose child type is no member. *)
Theorem device_class_and_icon_raise_only_for_invalid_types
    (K : Const) (self : MySensorsSensor) (e : exn) :
  device_class K self = Raise e \/ icon K self = Raise e ->
  e = ValueError /\ invalid_types self.
Proof.
  unfold device_class, icon. pose proof (get_sensor_type_result K self) as H.
  destruct (_get_sensor_type K self) as [l|e'];
    cbn [outcome_bind]; [|intros [E|E]; now injection E as <-].
  destruct l as [|a [|b [|c [|]]]]; try discriminate. now intros [E|E].
Qed.

Lemma device_class_and_icon_raise_only_for_invalid_types_witness :
  let self := {| gateway := gateway_2_0; value_type := 37; child_type := 99;
                 _values := ∅; is_metric := true |} in
  icon const_metric self = Raise ValueError /\ invalid_types self.
Proof.
  cbv zeta. split; [reflexivity|].
  exact (proj2 (device_class_and_icon_raise_only_for_invalid_types const_metric
                  {| gateway := gateway_2_0; value_type := 37; child_type := 99;
                     _values := ∅; is_metric := true |}
                  ValueError (or_intror eq_refl))).
Defined.

(** X20: a sensor has a device class only when its value type is [V_TEMP]
    or [V_HUM], by the name of the enum member; the class is then the one of
    temperature or of humidity. *)
Theorem device_class_only_for_temperature_and_humidity
    (K : Const) (self : MySensorsSensor) (c : string) :
  device_class K self = Ok (Some c) ->
  exists vt,
    enum_call (SetReq (gateway self)) (value_type self) = Ok vt /\
    ((name vt = "V_TEMP" /\ c = DEVICE_CLASS_TEMPERATURE K) \/
     (name vt = "V_HUM" /\ c = DEVICE_CLASS_HUMIDITY K)).
Proof.
  unfold device_class, _get_sensor_type.
  destruct (enum_call (SetReq (gateway self)) (value_type self)) as [vt|e];
    cbn [outcome_bind]; [|discriminate].
  intros H. exists vt. split; [reflexivity|].
  destruct (od_get (name vt) (SENSORS K)) as [[l|d]|] eqn:He; [| |discriminate].
  - exact (od_get_Forall _ _ _ _ (SENSORS_class K) He c H).
  - pose proof (od_get_Forall _ _ _ _ (SENSORS_class K) He) as Hd.
    unfold class_of_entry in Hd. cbn in Hd.
    destruct (enum_call (Presentation (gateway self)) (child_type self)) as [ct|e];
      cbn [outcome_bind] in H; [|discriminate].
    destruct (od_get (name ct) d) as [l|] eqn:Hl; [|discriminate].
    pose proof (od_get_Forall _ _ _ _ Hd Hl) as Hn. cbn in Hn, H. congruence.
Qed.

Lemma device_class_only_for_temperature_and_humidity_witness :
  device_class const_metric sensor_temp = Ok (Some "temperature") /\
  exists vt,
    enum_call (SetReq (gateway sensor_temp)) (value_type sensor_temp) = Ok vt /\
    ((name vt = "V_TEMP" /\ "temperature" = DEVICE_CLASS_TEMPERATURE const_metric) \/
     (name vt = "V_HUM" /\ "temperature" = DEVICE_CLASS_HUMIDITY const_metric)).
Proof.
  split; [reflexivity|].
  exact (device_class_only_for_temperature_and_humidity const_metric sensor_temp
           "temperature" eq_refl).
Defined.

(** X21: the child type is read for [V_LEVEL] sensors only.  For a sensor
    of any other value type, [_get_sensor_type], the properties built on it
    and the unit are the same whatever the child type is, a member of the
    presentation enum or not. *)
Theorem child_type_is_read_for_level_only
    (K : Const) (ge : string -> string -> outcome bool) (self : MySensorsSensor)
    (c : Z) :
  (forall vt,
     enum_call (SetReq (gateway self)) (value_type self) = Ok vt ->
     name vt <> "V_LEVEL") ->
  _get_sensor_type K (set_child_type c self) = _get_sensor_type K self /\
  device_class K (set_child_type c self) = device_class K self /\
  icon K (set_child_type c self) = icon K self /\
  unit_of_measurement K ge (set_child_type c self) = unit_of_measurement K ge self.
Proof.
  intros Hn.
  assert (H : _get_sensor_type K (set_child_type c self) = _get_sensor_type K self).
  { unfold _get_sensor_type. cbn [gateway value_type child_type set_child_type].
    destruct (enum_call (SetReq (gateway self)) (value_type self)) as [vt|e] eqn:Hvt;
      [|reflexivity].
    cbn [outcome_bind].
    destruct (od_get (name vt) (SENSORS K)) as [[l|d]|] eqn:He; try reflexivity.
    pose proof (od_get_Forall _ _ _ _ (SENSORS_dict K) He) as Hl.
    now destruct (Hn vt eq_refl). }
  unfold device_class, icon, unit_of_measurement. rewrite H.
  repeat split.
Qed.

Lemma child_type_is_read_for_level_only_witness :
  _get_sensor_type const_metric (set_child_type 999 sensor_temp) =
  _get_sensor_type const_metric sensor_temp.
Proof.
  refine (proj1 (child_type_is_read_for_level_only const_metric version_ge
                   sensor_temp 999 _)).
  intros vt H. vm_compute in H. injection H as <-. discriminate.
Defined.

Lemma enum_attr_raises E n e : enum_attr E n = Raise e -> e = AttributeError.
Proof.
  unfold enum_attr. destruct (List.find _ E) as [m|] eqn:Hf.
  - apply find_some in Hf as [Hin _]. unfold enum_call.
    destruct (List.find (fun m' => Z.eqb (value m') (value m)) E) eqn:Hc;
      [discriminate|].
    apply (find_none _ _ Hc) in Hin. rewrite Z.eqb_refl in Hin. discriminate.
  - intros H. now injection H.
Qed.

(** X25: what [unit_of_measurement] raises.  It never indexes or subscripts
    out of range.  It raises what the version comparison raises;
    [AttributeError] when the gateway's enum lacks [V_UNIT_PREFIX], the
    comparison having answered that the protocol is 1.5 or later, or lacks
    [V_TEMP]; and [ValueError] for a value type, or for a [V_LEVEL] sensor a
    child type, that is no member of its enum. *)
Theorem unit_of_measurement_raises_only_enum_errors
    (K : Const) (ge : string -> string -> outcome bool) (self : MySensorsSensor)
    (e : exn) :
  unit_of_measurement K ge self = Raise e ->
  ge (protocol_version (gateway self)) "1.5" = Raise e \/
  (e = AttributeError /\
   ((ge (protocol_version (gateway self)) "1.5" = Ok true /\
     enum_attr (SetReq (gateway self)) "V_UNIT_PREFIX" = Raise AttributeError) \/
    enum_attr (SetReq (gateway self)) "V_TEMP" = Raise AttributeError)) \/
  (e = ValueError /\ invalid_types self).
Proof.
  unfold unit_of_measurement.
  assert (Hrest :
    outcome_bind (enum_call (SetReq (gateway self)) (value_type self))
      (fun vt =>
         outcome_bind (enum_attr (SetReq (gateway self)) "V_TEMP")
           (fun v_temp =>
              if Z.eqb (value vt) (value v_temp) then
                if is_metric self then Ok (Some (TEMP_CELSIUS K))
                else Ok (Some (TEMP_FAHRENHEIT K))
              else outcome_bind (_get_sensor_type K self) (fun l => index l 0))) =
    Raise e ->
    (e = AttributeError /\
     enum_attr (SetReq (gateway self)) "V_TEMP" = Raise AttributeError) \/
    (e = ValueError /\ invalid_types self)).
  { destruct (enum_call (SetReq (gateway self)) (value_type self)) as [vt|e1] eqn:Hvt;
      cbn [outcome_bind].
    2:{ intros H. injection H as <-. apply enum_call_raises in Hvt as He. subst e1.
        right. split; [reflexivity|now left]. }
    destruct (enum_attr (SetReq (gateway self)) "V_TEMP") as [v_temp|e1] eqn:Ht;
      cbn [outcome_bind].
    2:{ intros H. injection H as <-. apply enum_attr_raises in Ht as He. subst e1.
        left. now split. }
    destruct (Z.eqb (value vt) (value v_temp)).
    { destruct (is_metric self); discriminate. }
    pose proof (get_sensor_type_result K self) as Hg.
    destruct (_get_sensor_type K self) as [l|e1]; cbn [outcome_bind].
    - destruct l as [|a l]; [discriminate|]. discriminate.
    - intros H. injection H as <-. now right. }
  destruct (ge (protocol_version (gateway self)) "1.5") as [[|]|e0];
    cbn [outcome_bind].
  - destruct (enum_attr (SetReq (gateway self)) "V_UNIT_PREFIX") as [prefix|e1] eqn:Hp;
      cbn [outcome_bind].
    + destruct (_values self !! value prefix); [discriminate|].
      intros H. destruct (Hrest H) as [[-> Ht]|Hv]; right; [left|now right].
      split; [reflexivity|now right].
    + intros H. injection H as <-. apply enum_attr_raises in Hp as He. subst e1.
      right. left. split; [reflexivity|]. left. now split.
  - intros H. destruct (Hrest H) as [[-> Ht]|Hv]; right; [left|now right].
    split; [reflexivity|now right].
  - intros H. injection H as <-. now left.
Qed.

(** Value 99 is no member of the enum of the gateway. *)
Lemma unit_of_measurement_raises_only_enum_errors_witness :
  let self := {| gateway := gateway_2_0; value_type := 99; child_type := 33;
                 _values := ∅; is_metric := true |} in
  unit_of_measurement const_metric version_ge self = Raise ValueError /\
  invalid_types self.
Proof.
  cbv zeta.
  assert (H0 : unit_of_measurement const_metric version_ge
                 {| gateway := gateway_2_0; value_type := 99; child_type := 33;
                    _values := ∅; is_metric := true |} = Raise ValueError)
    by reflexivity.
  split; [exact H0|].
  destruct (unit_of_measurement_raises_only_enum_errors const_metric version_ge
              _ ValueError H0)
    as [Hc|[[He _]|[_ H]]]; [discriminate Hc|discriminate He|exact H].
Defined.
